(** * Room registry and chat relay: a shallow embedding

    The repository contains three implementations of one relay:

    - the stand-alone room server with a ten minute idle TTL and two
      seats per room (module [Expiring]);
    - the stand-alone room server whose rooms never expire, with the
      single room "0000" and ten seats (module [Persistent]);
    - the in-process [RoomService] class of the desktop application,
      where joining is an in-band message (module [RoomService]).

    JavaScript objects are embedded as values of type [value]; the rooms
    [Map] is a [gmap] keyed by the room code; a [Set<WebSocket>] is the list
    of its members in insertion order.  Reading the wall clock, drawing a
    random number and writing to a socket are the effects of a small
    reader/state monad [M]. *)

From Stdlib Require Import ZArith List Ascii String Lia DecimalString.
From stdpp Require Import base strings list gmap fin_maps.

Set Warnings "-register-all,-abstract-large-number".
Local Open Scope string_scope.
Local Open Scope Z_scope.

(** ** JavaScript values *)

(** What [JSON.parse] can return, plus [undefined] for absent properties.
    Numbers are the integral ones (time stamps are). *)
Inductive value : Type :=
  | VUndefined
  | VNull
  | VBool (b : bool)
  | VNum (n : Z)
  | VStr (s : string)
  | VArr (items : list value)
  | VObj (fields : list (string * value)).

(** [ToBoolean]. *)
Definition truthy (v : value) : bool :=
  match v with
  | VUndefined | VNull => false
  | VBool b => b
  | VNum n => negb (n =? 0)
  | VStr s => negb (String.eqb s "")
  | VArr _ | VObj _ => true
  end.

(** [v === "lit"] for a string literal. *)
Definition isStr (v : value) (lit : string) : bool :=
  match v with
  | VStr s => String.eqb s lit
  | _ => false
  end.

(** An absent property reads as [undefined]. *)
Definition orUndefined (o : option value) : value :=
  match o with
  | Some v => v
  | None => VUndefined
  end.

(** Own property of a parsed object. *)
Fixpoint assoc (k : string) (fields : list (string * value)) : option value :=
  match fields with
  | [] => None
  | (k', v) :: rest => if String.eqb k k' then Some v else assoc k rest
  end.

(** [v.k] for the property names the handlers read ([type], [message],
    [image], [code], [userId]): [None] is the [TypeError] raised on [null]
    and [undefined]; a primitive or an array has none of these properties. *)
Definition getProp (v : value) (k : string) : option value :=
  match v with
  | VUndefined | VNull => None
  | VObj fields => Some (orUndefined (assoc k fields))
  | _ => Some VUndefined
  end.

(** [SameValueZero], the key comparison of [Map]: objects and arrays are
    compared by reference, and a freshly parsed one is identical to no key
    stored before. *)
Definition sameValueZero (a b : value) : bool :=
  match a, b with
  | VUndefined, VUndefined => true
  | VNull, VNull => true
  | VBool x, VBool y => Bool.eqb x y
  | VNum x, VNum y => x =? y
  | VStr x, VStr y => String.eqb x y
  | _, _ => false
  end.

(** Whether converting [v] to a string, as a template literal does, throws
    a [TypeError].  A parsed object has no callable [toString] of its own:
    with an own property of that name the conversion finds nothing to call
    and throws, without one it uses [Object.prototype.toString].  An array
    joins the conversions of its elements.  Everything else converts. *)
Fixpoint toStringThrows (v : value) : bool :=
  match v with
  | VObj fields =>
      match assoc "toString" fields with
      | Some _ => true
      | None => false
      end
  | VArr items => existsb toStringThrows items
  | _ => false
  end.

(** The argument of the [message] event: [JSON.parse(data.toString())]
    either throws or yields a value. *)
Inductive Frame : Type :=
  | Unparseable
  | Parsed (payload : value).

(** ** Strings: [toString], [padStart], [slice] *)

(** [n.toString()] for a non-negative integer. *)
Definition Number_toString (n : nat) : string :=
  NilZero.string_of_uint (Nat.to_uint n).

(** [s.padStart(target, fill)] for a one-character [fill]. *)
Definition padStart (target : nat) (fill : ascii) (s : string) : string :=
  string_of_list_ascii (repeat fill (target - String.length s)) ++ s.

(** [Math.floor(Math.random() * 10000).toString().padStart(4, "0")], as a
    function of the integer [Math.floor] returns. *)
Definition codeOf (n : nat) : string :=
  padStart 4 "0"%char (Number_toString n).

(** A JavaScript string is embedded as the bytes of its UTF-8 encoding (a
    lone surrogate as the three bytes of its code), while [slice] counts
    UTF-16 code units: a character of one, two or three bytes is one unit,
    a character of four bytes is two, a surrogate pair. *)

(** The high surrogate of the character whose encoding starts with the
    bytes [b0 b1 b2], as a string. *)
Definition highSurrogate (b0 b1 b2 : ascii) : string :=
  let top := ((N_of_ascii b0 mod 8) * 256 + (N_of_ascii b1 mod 64) * 4
              + (N_of_ascii b2 mod 64) / 16)%N in
  let high := (55296 + top - 64)%N in
  String (ascii_of_N 237)
    (String (ascii_of_N (128 + (high / 64) mod 64))
       (String (ascii_of_N (128 + high mod 64)) EmptyString)).

(** The first [units] code units of [s], once the [pending] bytes that end
    the character before have been copied.  When one unit is left and the
    next character takes two, what is kept of it is its high surrogate. *)
Fixpoint sliceUnits (units pending : nat) (s : string) : string :=
  match s with
  | EmptyString => EmptyString
  | String b rest =>
      match pending with
      | S p => String b (sliceUnits units p rest)
      | O =>
          match units with
          | O => EmptyString
          | S u =>
              let n := nat_of_ascii b in
              if (n <? 192)%nat then String b (sliceUnits u 0 rest)
              else if (n <? 224)%nat then String b (sliceUnits u 1 rest)
              else if (n <? 240)%nat then String b (sliceUnits u 2 rest)
              else
                match u with
                | O =>
                    match rest with
                    | String b1 (String b2 _) => highSurrogate b b1 b2
                    | _ => EmptyString
                    end
                | S u' => String b (sliceUnits u' 3 rest)
                end
          end
      end
  end.

(** [s.slice(0, n)]. *)
Definition slice0 (n : nat) (s : string) : string := sliceUnits n 0 s.

Definition isDigit (c : ascii) : bool :=
  let n := nat_of_ascii c in ((48 <=? n) && (n <=? 57))%nat.

(** The number of values of [Math.floor(Math.random() * 10000)]. *)
Definition codeSpace : nat := 10000.

(** A 4-digit zero-padded numeric string. *)
Definition isCode4 (s : string) : bool :=
  ((String.length s =? 4)%nat && forallb isDigit (list_ascii_of_string s)).

(** ** Sockets, events and the effect monad *)

Definition WebSocket := nat.

Inductive ReadyState := CONNECTING | OPEN | CLOSING | CLOSED.

#[global] Instance ReadyState_eq_dec : EqDecision ReadyState.
Proof. solve_decision. Defined.

(** What a handler does to the sockets: [Send ws payload] is
    [ws.send(JSON.stringify(payload))]. *)
Inductive Event : Type :=
  | Send (to : WebSocket) (payload : value)
  | Close (ws : WebSocket)
  | Destroy (socket : WebSocket).

(** The surroundings of a handler run: the successive readings of
    [Date.now()], the successive values of
    [Math.floor(Math.random() * 10000)], the transport state of every socket
    and the token [randomUUID()] would return. *)
Record Env := {
  Date_clock : nat -> Z;
  Math_draws : nat -> nat;
  readyState : WebSocket -> ReadyState;
  randomUUID : string
}.

(** How far the clock and the random source have been read, and what was
    written to the sockets so far. *)
Record Sys := {
  nowReads : nat;
  rndReads : nat;
  out : list Event
}.

Definition M (A : Type) : Type := Env -> Sys -> A * Sys.

Definition ret {A} (a : A) : M A := fun _ s => (a, s).

Definition bind {A B} (m : M A) (k : A -> M B) : M B :=
  fun e s => let (a, s') := m e s in k a e s'.

Notation "'do' x <- m ; k" := (bind m (fun x => k))
  (at level 10, x name, m at level 100, k at level 200).
Notation "m ;; k" := (bind m (fun _ => k))
  (at level 100, k at level 200, right associativity).

Definition Date_now : M Z :=
  fun e s => (Date_clock e (nowReads s),
              {| nowReads := S (nowReads s); rndReads := rndReads s; out := out s |}).

Definition Math_floor_random_10000 : M nat :=
  fun e s => (Math_draws e (rndReads s),
              {| nowReads := nowReads s; rndReads := S (rndReads s); out := out s |}).

Definition emit (ev : Event) : M unit :=
  fun _ s => (tt, {| nowReads := nowReads s; rndReads := rndReads s;
                     out := out s ++ [ev] |}).

Definition ws_send (ws : WebSocket) (payload : value) : M unit := emit (Send ws payload).
Definition ws_close (ws : WebSocket) : M unit := emit (Close ws).
Definition socket_destroy (socket : WebSocket) : M unit := emit (Destroy socket).

Definition isOpen (ws : WebSocket) : M bool :=
  fun e s => (bool_decide (readyState e ws = OPEN), s).

Definition crypto_randomUUID : M string :=
  fun e s => (randomUUID e, s).

(** [for (const x of xs) body(x)]. *)
Fixpoint forEach {A} (xs : list A) (body : A -> M unit) : M unit :=
  match xs with
  | [] => ret tt
  | x :: rest => body x ;; forEach rest body
  end.

(** ** [Set<WebSocket>]: members in insertion order *)

Definition Set_add (ws : WebSocket) (s : list WebSocket) : list WebSocket :=
  if decide (ws ∈ s) then s else s ++ [ws].

Definition Set_delete (ws : WebSocket) (s : list WebSocket) : list WebSocket :=
  filter (fun x => x ≠ ws) s.

Definition Set_size (s : list WebSocket) : nat := length s.

(** [broadcast(room, payload)], on the room's client set. *)
Definition broadcast (clients : list WebSocket) (payload : value) : M unit :=
  forEach clients (fun client =>
    do o <- isOpen client;
    if o then ws_send client payload else ret tt).

(** [rooms.has(code)] on a [Map] keyed by room codes. *)
Definition Map_has {R} (rooms : gmap string R) (code : string) : bool :=
  bool_decide (is_Some (rooms !! code)).

(** The loop of [createCode] and [createRoom],

      do { code = Math.floor(Math.random() * 10000).toString().padStart(4, "0") }
      while (rooms.has(code))

    with at most [fuel] draws: [None] when it has not ended by then. *)
Fixpoint drawCode {R} (fuel : nat) (rooms : gmap string R) : M (option string) :=
  match fuel with
  | O => ret None
  | S fuel' =>
      do n <- Math_floor_random_10000;
      let code := codeOf n in
      if Map_has rooms code then drawCode fuel' rooms else ret (Some code)
  end.

(** The messages the server writes. *)
Definition errorMsg (text : string) : value :=
  VObj [("type", VStr "error"); ("message", VStr text)].

Definition joinedMsg (code : value) : value :=
  VObj [("type", VStr "joined"); ("code", code)].

Definition historyMsg (messages : list value) : value :=
  VObj [("type", VStr "history"); ("messages", VArr messages)].

(** ** The stand-alone servers: what both share *)

(** A room of the stand-alone servers:
    [{ clients: Set<WebSocket>, lastActive: number, messages: any[] }]. *)
Record Room := {
  clients : list WebSocket;
  lastActive : Z;
  messages : list value
}.

Definition setLastActive (t : Z) (room : Room) : Room :=
  {| clients := clients room; lastActive := t; messages := messages room |}.

Definition addClient (ws : WebSocket) (room : Room) : Room :=
  {| clients := Set_add ws (clients room); lastActive := lastActive room;
     messages := messages room |}.

Definition deleteClient (ws : WebSocket) (room : Room) : Room :=
  {| clients := Set_delete ws (clients room); lastActive := lastActive room;
     messages := messages room |}.

Definition pushMessage (msg : value) (room : Room) : Room :=
  {| clients := clients room; lastActive := lastActive room;
     messages := messages room ++ [msg] |}.

(** [{ clients: new Set(), lastActive: t, messages: [] }]. *)
Definition newRoom (t : Z) : Room :=
  {| clients := []; lastActive := t; messages := [] |}.

(** [validate(code)]. *)
Definition validate (rooms : gmap string Room) (code : string) : bool :=
  Map_has rooms code.

Definition systemJoined (userId : string) (ts : Z) : value :=
  VObj [("type", VStr "system");
        ("message", VStr ("User " ++ slice0 4 userId ++ " joined"));
        ("ts", VNum ts)].

(** The record a chat or image frame is turned into. *)
Definition relayed (type : string) (roomCode userId : string) (field : string)
    (content : value) (ts : Z) : value :=
  VObj [("type", VStr type); ("code", VStr roomCode); ("userId", VStr userId);
        (field, content); ("ts", VNum ts)].

(** [wss.on("connection", (ws, request, roomCode, userId) => ...)] up to
    the registration of the [message] and [close] listeners; the two
    servers differ in the number of seats only. *)
Definition connection (seats : nat) (rooms : gmap string Room) (ws : WebSocket)
    (roomCode userId : string) : M (gmap string Room) :=
  match rooms !! roomCode with
  | None =>
      ws_send ws (errorMsg "Room not found") ;;
      ws_close ws ;;
      ret rooms
  | Some room =>
      if (seats <=? Set_size (clients room))%nat then
        ws_send ws (errorMsg "Room is full") ;;
        ws_close ws ;;
        ret rooms
      else
        let room := addClient ws room in
        do t <- Date_now;
        let room := setLastActive t room in
        ws_send ws (joinedMsg (VStr roomCode)) ;;
        (if (0 <? length (messages room))%nat
         then ws_send ws (historyMsg (messages room))
         else ret tt) ;;
        do ts <- Date_now;
        broadcast (clients room) (systemJoined userId ts) ;;
        ret (<[roomCode := room]> rooms)
  end.

(** [ws.on("close", ...)], on the room the connection joined. *)
Definition onClose (ws : WebSocket) (room : Room) : M Room :=
  let room := deleteClient ws room in
  do t <- Date_now;
  ret (setLastActive t room).

(** The accepted branch of the [message] listener: stamp the room, build
    the record, push it on the log, write a line to the console and
    broadcast the record.  [logThrows] tells whether the [console.log]
    between the push and the broadcast throws: the [catch] of the listener
    swallows the error, and the broadcast is then not reached. *)
Definition relay (type field : string) (roomCode userId : string)
    (content : value) (logThrows : bool) (room : Room) : M Room :=
  do t <- Date_now;
  let room := setLastActive t room in
  do ts <- Date_now;
  let msg := relayed type roomCode userId field content ts in
  let room := pushMessage msg room in
  if logThrows then ret room
  else broadcast (clients room) msg ;; ret room.

(** [server.on("upgrade", ...)] from the point where [new URL(...)] has
    returned, for a request [wss.handleUpgrade] accepts: [pathname] is
    [url.pathname], [code] and [userIdParam] are [url.searchParams.get] of
    ["code"] and ["userId"] ([None] for [null]).  The handler with its other
    two outcomes is [onUpgrade] below. *)
Definition upgrade (seats : nat) (rooms : gmap string Room) (socket : WebSocket)
    (pathname : string) (code userIdParam : option string) : M (gmap string Room) :=
  if negb (String.eqb pathname "/ws") then
    socket_destroy socket ;; ret rooms
  else
    do userId <- match userIdParam with
              | Some u => if String.eqb u "" then crypto_randomUUID else ret u
              | None => crypto_randomUUID
              end;
    match code with
    | Some c =>
        if negb (String.eqb c "") && validate rooms c
        then connection seats rooms socket c userId
        else socket_destroy socket ;; ret rooms
    | None => socket_destroy socket ;; ret rooms
    end.

(** ** The server with a TTL *)

Module Expiring.

Definition ttlMs : Z := 10 * 60 * 1000.

Definition seats : nat := 2.

(** [createCode()]: the code and the registry after the call, or [None]
    when the loop has not ended within [fuel] draws. *)
Definition createCode (fuel : nat) (rooms : gmap string Room)
    : M (option (string * gmap string Room)) :=
  do r <- drawCode fuel rooms;
  match r with
  | None => ret None
  | Some code =>
      do t <- Date_now;
      ret (Some (code, <[code := newRoom t]> rooms))
  end.

(** The test of the sweep. *)
Definition stale (now : Z) (room : Room) : bool :=
  (Set_size (clients room) =? 0)%nat && (ttlMs <? now - lastActive room).

(** [cleanup()]: the entries of the map are visited, a stale one is
    deleted from the map as it is met. *)
Definition cleanup (rooms : gmap string Room) : M (gmap string Room) :=
  do now <- Date_now;
  ret (map_fold (fun code room acc => if stale now room then delete code acc else acc)
                rooms rooms).

Definition connection := connection seats.
Definition upgrade := upgrade seats.

(** [ws.on("message", (data) => ...)] of a connection that joined [room]
    as [userId] under [roomCode]: the listener closes over these three and
    touches nothing else, so it is a function of the state of that room
    object.  The two properties are read up front; reading a property of a
    parsed value has no effect.  The console line of a chat interpolates
    [msg.message]. *)
Definition onMessage (roomCode userId : string) (room : Room) (data : Frame) : M Room :=
  match data with
  | Unparseable => ret room
  | Parsed payload =>
      match getProp payload "type", getProp payload "message" with
      | Some type, Some message =>
          if isStr type "chat" && truthy message
          then relay "chat" "message" roomCode userId message
                     (toStringThrows message) room
          else ret room
      | _, _ => ret room
      end
  end.

End Expiring.

(** ** The server whose rooms never expire *)

Module Persistent.

Definition seats : nat := 10.

(** [createCode()]: always "0000"; the room is made on the first call. *)
Definition createCode (rooms : gmap string Room) : M (string * gmap string Room) :=
  let code := "0000" in
  if negb (Map_has rooms code) then
    do t <- Date_now;
    ret (code, <[code := newRoom t]> rooms)
  else ret (code, rooms).

Definition connection := connection seats.
Definition upgrade := upgrade seats.

(** [ws.on("message", (data) => ...)], as above; a [join] frame is logged
    to the console and otherwise ignored, and the console line of an image
    interpolates nothing of the frame. *)
Definition onMessage (roomCode userId : string) (room : Room) (data : Frame) : M Room :=
  match data with
  | Unparseable => ret room
  | Parsed payload =>
      match getProp payload "type", getProp payload "message", getProp payload "image" with
      | Some type, Some message, Some image =>
          if isStr type "join" then ret room
          else if isStr type "chat" && truthy message
          then relay "chat" "message" roomCode userId message
                     (toStringThrows message) room
          else if isStr type "image" && truthy image
          then relay "image" "image" roomCode userId image false room
          else ret room
      | _, _, _ => ret room
      end
  end.

End Persistent.

(** ** The in-process service *)

Module RoomService.

Inductive Status := active | closed.

#[global] Instance Status_eq_dec : EqDecision Status.
Proof. solve_decision. Defined.

Record Room := {
  code : string;
  createdAt : Z;
  lastActive : Z;
  clients : list WebSocket;
  status : Status
}.

(** The fields of the service the room logic reads and writes, and the
    [__roomCode] and [__userId] attached to the sockets.  The keys of
    [userRoom] are whatever [userId] the join frames carried. *)
Record State := {
  rooms : gmap string Room;
  userRoom : list (value * value);
  meta : gmap WebSocket (value * value)
}.

Definition ttlMs : Z := 10 * 60 * 1000.

Definition setRooms (r : gmap string Room) (st : State) : State :=
  {| rooms := r; userRoom := userRoom st; meta := meta st |}.

Definition setLastActive (t : Z) (room : Room) : Room :=
  {| code := code room; createdAt := createdAt room; lastActive := t;
     clients := clients room; status := status room |}.

Definition addClient (ws : WebSocket) (room : Room) : Room :=
  {| code := code room; createdAt := createdAt room; lastActive := lastActive room;
     clients := Set_add ws (clients room); status := status room |}.

(** [this.rooms.get(code)]: the keys of [rooms] are strings. *)
Definition rooms_get (st : State) (code : value) : option (string * Room) :=
  match code with
  | VStr c => match rooms st !! c with Some room => Some (c, room) | None => None end
  | _ => None
  end.

(** [this.userRoom.get(userId)] and [this.userRoom.set(userId, code)]. *)
Fixpoint Map_get (k : value) (m : list (value * value)) : value :=
  match m with
  | [] => VUndefined
  | (k', v) :: rest => if sameValueZero k k' then v else Map_get k rest
  end.

Fixpoint Map_set (k v : value) (m : list (value * value)) : list (value * value) :=
  match m with
  | [] => [(k, v)]
  | (k', v') :: rest =>
      if sameValueZero k k' then (k', v) :: rest else (k', v') :: Map_set k v rest
  end.

(** [this.userRoom.delete(userId)].  A [Map] holds a key once; every entry
    under the key goes. *)
Fixpoint Map_delete (k : value) (m : list (value * value)) : list (value * value) :=
  match m with
  | [] => []
  | (k', v) :: rest =>
      if sameValueZero k k' then Map_delete k rest else (k', v) :: Map_delete k rest
  end.

(** [a !== b] where [b] is a string. *)
Definition differs (a : value) (b : string) : bool := negb (isStr a b).

(** [createRoom()], once the socket server runs. *)
Definition createRoom (fuel : nat) (st : State) : M (option (string * State)) :=
  do r <- drawCode fuel (rooms st);
  match r with
  | None => ret None
  | Some code =>
      do now <- Date_now;
      let room := {| code := code; createdAt := now; lastActive := now;
                     clients := []; status := active |} in
      ret (Some (code, setRooms (<[code := room]> (rooms st)) st))
  end.

Definition validateRoom (st : State) (code : string) : bool :=
  match rooms st !! code with
  | Some room => bool_decide (status room = active)
  | None => false
  end.

Definition notFound : value := errorMsg "Room not found or inactive.".

(** [handleJoin(ws, payload)]; [payload] is an object. *)
Definition handleJoin (ws : WebSocket) (payload : value) (st : State) : M State :=
  let code := orUndefined (getProp payload "code") in
  let userId := orUndefined (getProp payload "userId") in
  match rooms_get st code with
  | None => ws_send ws notFound ;; ret st
  | Some (c, room) =>
      if negb (bool_decide (status room = active)) then ws_send ws notFound ;; ret st
      else
        let existing := Map_get userId (userRoom st) in
        if truthy existing && differs existing c then
          ws_send ws (errorMsg "User already in another room.") ;; ret st
        else
          let room := addClient ws room in
          do t <- Date_now;
          let room := setLastActive t room in
          ws_send ws (joinedMsg code) ;;
          broadcast (clients room)
            (VObj [("type", VStr "system");
                   ("message", VStr ("User joined room " ++ c))]) ;;
          ret {| rooms := <[c := room]> (rooms st);
                 userRoom := Map_set userId code (userRoom st);
                 meta := <[ws := (code, userId)]> (meta st) |}
  end.

(** [handleChat(ws, payload)]; [payload] is an object. *)
Definition handleChat (ws : WebSocket) (payload : value) (st : State) : M State :=
  let code := orUndefined (getProp payload "code") in
  let userId := orUndefined (getProp payload "userId") in
  let message := orUndefined (getProp payload "message") in
  match rooms_get st code with
  | None => ws_send ws notFound ;; ret st
  | Some (c, room) =>
      if negb (bool_decide (status room = active)) then ws_send ws notFound ;; ret st
      else if differs (orUndefined (fst <$> meta st !! ws)) c then
        ws_send ws (errorMsg "You are not in this room.") ;; ret st
      else
        do t <- Date_now;
        let room := setLastActive t room in
        do ts <- Date_now;
        broadcast (clients room)
          (VObj [("type", VStr "chat"); ("userId", userId);
                 ("message", message); ("ts", VNum ts)]) ;;
        ret (setRooms (<[c := room]> (rooms st)) st)
  end.

(** The [message] listener installed by [handleConnection(ws)]. *)
Definition onMessage (ws : WebSocket) (data : Frame) (st : State) : M State :=
  match data with
  | Unparseable => ret st
  | Parsed payload =>
      match getProp payload "type" with
      | None => ret st
      | Some type =>
          if isStr type "join" then handleJoin ws payload st
          else if isStr type "chat" then handleChat ws payload st
          else ret st
      end
  end.

Definition stale (now : Z) (room : Room) : bool :=
  (Set_size (clients room) =? 0)%nat && (ttlMs <? now - lastActive room).

(** [cleanup()]: the stale codes are collected, then deleted. *)
Definition cleanup (st : State) : M State :=
  do now <- Date_now;
  let stale_codes :=
    map_fold (fun code room (acc : list string) =>
                if stale now room then (acc ++ [code])%list else acc)
             [] (rooms st) in
  ret (setRooms (foldl (fun acc code => delete code acc) (rooms st) stale_codes) st).

End RoomService.

(** ** Reading a trace *)

(** What the handlers of one run did to the world: the clock readings and
    draws consumed and the events appended. *)
Definition advance (dn dr : nat) (evs : list Event) (s : Sys) : Sys :=
  {| nowReads := (nowReads s + dn)%nat; rndReads := (rndReads s + dr)%nat;
     out := out s ++ evs |}.

(** The sockets a broadcast writes to: the members that are open. *)
Definition recipients (e : Env) (clients : list WebSocket) : list WebSocket :=
  filter (fun c => readyState e c = OPEN) clients.

(** The payloads written to [ws], in the order they were written. *)
Fixpoint received (ws : WebSocket) (evs : list Event) : list value :=
  match evs with
  | [] => []
  | Send to payload :: rest =>
      if decide (to = ws) then payload :: received ws rest else received ws rest
  | _ :: rest => received ws rest
  end.

(** The replay a joiner is sent: the whole log in one [history] message,
    and nothing when the log is empty. *)
Definition historyIfAny (room : Room) : list value :=
  match messages room with
  | [] => []
  | _ :: _ => [historyMsg (messages room)]
  end.

(** The notice the service broadcasts on a join. *)
Definition serviceJoinNotice (c : string) : value :=
  VObj [("type", VStr "system"); ("message", VStr ("User joined room " ++ c))].

(** The identity a handshake binds: the [userId] parameter, or a fresh
    token when it is absent or empty. *)
Definition handshakeUserId (e : Env) (userIdParam : option string) : string :=
  match userIdParam with
  | Some u => if String.eqb u "" then randomUUID e else u
  | None => randomUUID e
  end.

(** What accepting a frame does to a room of the stand-alone servers:
    [lastActive] is the first clock reading and the record is appended to
    the log. *)
Definition accepted (t : Z) (msg : value) (room : Room) : Room :=
  {| clients := clients room; lastActive := t; messages := messages room ++ [msg] |}.

(** ** The HTTP control plane of the stand-alone servers *)

(** What [json(res, status, body)] passes to [res.writeHead] and
    [res.end]: the status, the headers and the value whose
    [JSON.stringify] is the body.  What of the body reaches the wire is
    [sentBody] below. *)
Record Response := {
  statusCode : nat;
  headers : list (string * string);
  body : value
}.

Definition json (status : nat) (body : value) : Response :=
  {| statusCode := status;
     headers := [("Content-Type", "application/json");
                 ("Access-Control-Allow-Origin", "*");
                 ("Access-Control-Allow-Methods", "GET,POST,OPTIONS");
                 ("Access-Control-Allow-Headers",
                  "Content-Type, Accept, ngrok-skip-browser-warning")];
     body := body |}.

(** [s] without the prefix [p], when it starts with it. *)
Fixpoint stripPrefix (p s : string) : option string :=
  match p, s with
  | EmptyString, _ => Some s
  | String a p', String b s' => if Ascii.eqb a b then stripPrefix p' s' else None
  | String _ _, EmptyString => None
  end.

(** [url.match(/^\/api\/rooms\/(\d{4})$/)]: the captured group, or [None]
    for [null]. *)
Definition matchRoomUrl (url : string) : option string :=
  match stripPrefix "/api/rooms/" url with
  | Some rest => if isCode4 rest then Some rest else None
  | None => None
  end.

Definition notFound404 : Response := json 404 (VObj [("error", VStr "Not found")]).

Module ExpiringHttp.

(** The listener of [http.createServer] in the server with a TTL: the
    response and the registry after the request, or [None] when [createCode]
    has not returned within [fuel] draws. *)
Definition onRequest (fuel : nat) (rooms : gmap string Room) (method url : string)
    : M (option (Response * gmap string Room)) :=
  if String.eqb method "OPTIONS" then ret (Some (json 204 (VObj []), rooms))
  else if String.eqb method "POST" && String.eqb url "/api/rooms/create" then
    do r <- Expiring.createCode fuel rooms;
    match r with
    | None => ret None
    | Some (code, rooms') => ret (Some (json 200 (VObj [("code", VStr code)]), rooms'))
    end
  else
    match matchRoomUrl url with
    | Some code =>
        if String.eqb method "GET"
        then ret (Some (json 200 (VObj [("valid", VBool (validate rooms code))]), rooms))
        else ret (Some (notFound404, rooms))
    | None => ret (Some (notFound404, rooms))
    end.

End ExpiringHttp.

Module PersistentHttp.

(** The listener of [http.createServer] in the server whose rooms never
    expire. *)
Definition onRequest (rooms : gmap string Room) (method url : string)
    : M (Response * gmap string Room) :=
  if String.eqb method "OPTIONS" then ret (json 204 (VObj []), rooms)
  else if String.eqb method "POST" && String.eqb url "/api/rooms/create" then
    do r <- Persistent.createCode rooms;
    ret (json 200 (VObj [("code", VStr (fst r))]), snd r)
  else
    match matchRoomUrl url with
    | Some code =>
        if String.eqb method "GET"
        then ret (json 200 (VObj [("valid", VBool (validate rooms code))]), rooms)
        else ret (notFound404, rooms)
    | None => ret (notFound404, rooms)
    end.

End PersistentHttp.

(** ** Closing a socket of the service *)

(** [removeClient(ws)] of the service, as far as the rooms go: the registry
    after the call.  Its other effect, [this.userRoom.delete(userId)], does
    not bear on the rooms; [removeClient] below has both. *)
Definition removeClientRooms (ws : WebSocket) (st : RoomService.State)
    : M (gmap string RoomService.Room) :=
  let (code, userId) :=
    match RoomService.meta st !! ws with
    | Some marks => marks
    | None => (VUndefined, VUndefined)
    end in
  if negb (truthy code) || negb (truthy userId) then ret (RoomService.rooms st)
  else
    match RoomService.rooms_get st code with
    | None => ret (RoomService.rooms st)
    | Some (c, room) =>
        let room :=
          {| RoomService.code := RoomService.code room;
             RoomService.createdAt := RoomService.createdAt room;
             RoomService.lastActive := RoomService.lastActive room;
             RoomService.clients := Set_delete ws (RoomService.clients room);
             RoomService.status := RoomService.status room |} in
        if (Set_size (RoomService.clients room) =? 0)%nat then
          do t <- Date_now;
          ret (<[c := RoomService.setLastActive t room]> (RoomService.rooms st))
        else ret (<[c := room]> (RoomService.rooms st))
    end.

(** [removeClient(ws)], the whole state after the call.  The marks
    [__roomCode] and [__userId] stay on the socket. *)
Definition removeClient (ws : WebSocket) (st : RoomService.State)
    : M RoomService.State :=
  let (code, userId) :=
    match RoomService.meta st !! ws with
    | Some marks => marks
    | None => (VUndefined, VUndefined)
    end in
  if negb (truthy code) || negb (truthy userId) then ret st
  else
    match RoomService.rooms_get st code with
    | None => ret st
    | Some (c, room) =>
        let room :=
          {| RoomService.code := RoomService.code room;
             RoomService.createdAt := RoomService.createdAt room;
             RoomService.lastActive := RoomService.lastActive room;
             RoomService.clients := Set_delete ws (RoomService.clients room);
             RoomService.status := RoomService.status room |} in
        let userRoom := RoomService.Map_delete userId (RoomService.userRoom st) in
        if (Set_size (RoomService.clients room) =? 0)%nat then
          do t <- Date_now;
          ret {| RoomService.rooms :=
                   <[c := RoomService.setLastActive t room]> (RoomService.rooms st);
                 RoomService.userRoom := userRoom;
                 RoomService.meta := RoomService.meta st |}
        else
          ret {| RoomService.rooms := <[c := room]> (RoomService.rooms st);
                 RoomService.userRoom := userRoom;
                 RoomService.meta := RoomService.meta st |}
    end.

(** What Node puts on the wire as the body of a response written with
    [res.writeHead] and [res.end]: nothing when the status is 204 or 304 or
    the request is a [HEAD], whatever was passed to [res.end]. *)
Definition sentBody (method : string) (response : Response) : option value :=
  if (statusCode response =? 204)%nat || (statusCode response =? 304)%nat
     || String.eqb method "HEAD"
  then None else Some (body response).

(** ** The handshake in full *)

(** An upgrade request as the handler meets it: what
    [new URL(request.url, ...)] yields, [None] when it throws and else
    [url.pathname] and [url.searchParams.get] of ["code"] and ["userId"], and
    whether [wss.handleUpgrade] completes the handshake and calls back
    (otherwise the library answers the request itself). *)
Record UpgradeRequest := {
  parsedUrl : option (string * option string * option string);
  handshakes : bool
}.

(** How a handler ends: it returns, or it throws an error nothing catches,
    which ends the process. *)
Inductive Outcome (A : Type) : Type :=
  | Thrown
  | Returned (a : A).
Arguments Thrown {A}.
Arguments Returned {A} a.

(** Whether [connection] gets as far as [ws.on("message", ...)]: it returns
    before when the room is not found or is full. *)
Definition registers (seats : nat) (rooms : gmap string Room) (roomCode : string) : bool :=
  match rooms !! roomCode with
  | Some room => negb (seats <=? Set_size (clients room))%nat
  | None => false
  end.

(** [server.on("upgrade", (request, socket, head) => ...)]: the registry
    after the handler and, when the connection listener registered the
    [message] and [close] listeners on the socket, the [roomCode] and
    [userId] these close over. *)
Definition onUpgrade (seats : nat) (rooms : gmap string Room) (socket : WebSocket)
    (request : UpgradeRequest)
    : M (Outcome (gmap string Room * option (string * string))) :=
  match parsedUrl request with
  | None => ret Thrown
  | Some (pathname, code, userIdParam) =>
      if negb (String.eqb pathname "/ws") then
        socket_destroy socket ;; ret (Returned (rooms, None))
      else
        do userId <- match userIdParam with
                     | Some u => if String.eqb u "" then crypto_randomUUID else ret u
                     | None => crypto_randomUUID
                     end;
        match code with
        | Some c =>
            if negb (String.eqb c "") && validate rooms c then
              if handshakes request then
                do rooms' <- connection seats rooms socket c userId;
                ret (Returned (rooms', if registers seats rooms c
                                       then Some (c, userId) else None))
              else ret (Returned (rooms, None))
            else socket_destroy socket ;; ret (Returned (rooms, None))
        | None => socket_destroy socket ;; ret (Returned (rooms, None))
        end
  end.

(** ** Invariants of the registries *)

(** No room holds more clients than there are seats. *)
Definition withinSeats (seats : nat) (rooms : gmap string Room) : Prop :=
  forall code room, rooms !! code = Some room -> (Set_size (clients room) <= seats)%nat.

(** Every room of the service is active and filed under its own code. *)
Definition serviceRoomsSound (st : RoomService.State) : Prop :=
  forall c room, RoomService.rooms st !! c = Some room ->
    RoomService.status room = RoomService.active /\ RoomService.code room = c.

(** ** Sample surroundings, used to run the handlers *)

Definition env0 : Env :=
  {| Date_clock := fun k => 1700000000000 + Z.of_nat k;
     Math_draws := fun k => ((4821 + k) mod codeSpace)%nat;
     readyState := fun _ => OPEN;
     randomUUID := "3f2a9c1e-0000-4000-8000-000000000000" |}.

Definition sys0 : Sys := {| nowReads := 0; rndReads := 0; out := [] |}.

Definition chatHi : value :=
  VObj [("type", VStr "chat"); ("code", VStr "4821"); ("userId", VStr "u1");
        ("message", VStr "hi"); ("ts", VNum 1699999990000)].

Definition roomHi : Room :=
  {| clients := [1%nat]; lastActive := 1699999990000; messages := [chatHi] |}.

Definition roomsOne : gmap string Room := {[ "4821" := roomHi ]}.

Definition roomZero : Room :=
  {| clients := [1%nat; 2%nat]; lastActive := 1699999990000;
     messages := [VObj [("type", VStr "chat"); ("code", VStr "0000");
                        ("userId", VStr "u1"); ("message", VStr "hi");
                        ("ts", VNum 1699999990000)]] |}.

Definition roomsZero : gmap string Room := {[ "0000" := roomZero ]}.

(** Three rooms at the time of a sweep: idle and empty, idle but occupied,
    empty but fresh. *)
Definition roomsSweep : gmap string Room :=
  <["0007" := {| clients := []; lastActive := 1699999000000; messages := [] |}]>
  (<["0042" := {| clients := [3%nat]; lastActive := 1699999000000; messages := [] |}]>
   {[ "4821" := {| clients := []; lastActive := 1699999990000; messages := [] |} ]}).

(** A room of the service with two members, both joined as themselves. *)
Definition serviceOne : RoomService.State :=
  {| RoomService.rooms :=
       {[ "4821" := {| RoomService.code := "4821";
                       RoomService.createdAt := 1699999980000;
                       RoomService.lastActive := 1699999990000;
                       RoomService.clients := [1%nat; 2%nat];
                       RoomService.status := RoomService.active |} ]};
     RoomService.userRoom := [(VStr "u1", VStr "4821"); (VStr "u2", VStr "4821")];
     RoomService.meta := <[1%nat := (VStr "4821", VStr "u1")]>
                         {[ 2%nat := (VStr "4821", VStr "u2") ]} |}.

Definition chatFrame (message : string) : value :=
  VObj [("type", VStr "chat"); ("code", VStr "4821"); ("userId", VStr "u1");
        ("message", VStr message)].

Definition imageFrame : value :=
  VObj [("type", VStr "image"); ("image", VStr "data:image/png;base64,iVBORw0KGgo=")].

(** Two chat frames that differ in [userId], [code] and [ts] only. *)
Definition plainFrame : list (string * value) :=
  [("type", VStr "chat"); ("message", VStr "hi")].

Definition forgedFrame : list (string * value) :=
  [("userId", VStr "u2"); ("type", VStr "chat"); ("code", VStr "0000");
   ("message", VStr "hi"); ("ts", VNum 1)].

(** An empty room that, read at the first clock reading of [env0], has
    been idle for exactly [ttlMs]. *)
Definition roomsEdge : gmap string Room :=
  {[ "1234" := {| clients := []; lastActive := 1699999400000; messages := [] |} ]}.

(** A join frame of a third user for the room of [serviceOne], and a
    second room beside it. *)
Definition joinFrame (code userId : string) : value :=
  VObj [("type", VStr "join"); ("code", VStr code); ("userId", VStr userId)].

Definition serviceTwo : RoomService.State :=
  {| RoomService.rooms :=
       <["0007" := {| RoomService.code := "0007";
                      RoomService.createdAt := 1699999985000;
                      RoomService.lastActive := 1699999985000;
                      RoomService.clients := [];
                      RoomService.status := RoomService.active |}]>
       (RoomService.rooms serviceOne);
     RoomService.userRoom := RoomService.userRoom serviceOne;
     RoomService.meta := RoomService.meta serviceOne |}.

(** A registry in which every code is taken. *)
Definition roomsAll : gmap string Room :=
  list_to_map (map (fun n => (codeOf n, newRoom 0)) (seq 0 codeSpace)).

(** Surroundings in which socket 2 is closing and every other one is open. *)
Definition envClosing : Env :=
  {| Date_clock := Date_clock env0;
     Math_draws := Math_draws env0;
     readyState := fun ws => if decide (ws = 2%nat) then CLOSING else OPEN;
     randomUUID := randomUUID env0 |}.

(** A room of the service with ten members, each joined as itself. *)
Definition serviceTen : RoomService.State :=
  {| RoomService.rooms :=
       {[ "4821" := {| RoomService.code := "4821";
                       RoomService.createdAt := 1699999980000;
                       RoomService.lastActive := 1699999990000;
                       RoomService.clients := seq 1 10;
                       RoomService.status := RoomService.active |} ]};
     RoomService.userRoom :=
       map (fun n => (VStr ("u" ++ Number_toString n), VStr "4821")) (seq 1 10);
     RoomService.meta :=
       list_to_map (map (fun n : nat => (n, (VStr "4821", VStr ("u" ++ Number_toString n))))
                        (seq 1 10)) |}.

(** A well-formed request to join room "4821" as "u2". *)
Definition requestJoin : UpgradeRequest :=
  {| parsedUrl := Some ("/ws", Some "4821", Some "u2"); handshakes := true |}.

(** A chat frame whose message cannot be converted to a string. *)
Definition unprintableFrame : value :=
  VObj [("type", VStr "chat"); ("message", VObj [("toString", VNum 1)])].

Definition serviceEmpty : RoomService.State :=
  {| RoomService.rooms := ∅; RoomService.userRoom := []; RoomService.meta := ∅ |}.

(** * Properties *)

(** ** The effect monad *)

Lemma advance_0 s : advance 0 0 [] s = s.
Proof.
  destruct s; unfold advance; simpl. by rewrite !Nat.add_0_r, app_nil_r.
Qed.

Lemma advance_advance a b evs a' b' evs' s :
  advance a' b' evs' (advance a b evs s) = advance (a + a') (b + b') (evs ++ evs') s.
Proof.
  unfold advance; simpl. by rewrite !Nat.add_assoc, app_assoc.
Qed.

Lemma Date_now_run e s :
  Date_now e s = (Date_clock e (nowReads s), advance 1 0 [] s).
Proof.
  unfold Date_now, advance. by rewrite Nat.add_1_r, Nat.add_0_r, app_nil_r.
Qed.

Lemma draw_run e s :
  Math_floor_random_10000 e s = (Math_draws e (rndReads s), advance 0 1 [] s).
Proof.
  unfold Math_floor_random_10000, advance.
  by rewrite Nat.add_1_r, Nat.add_0_r, app_nil_r.
Qed.

Lemma emit_run ev e s : emit ev e s = (tt, advance 0 0 [ev] s).
Proof. unfold emit, advance. by rewrite !Nat.add_0_r. Qed.

Lemma broadcast_run e clients payload s :
  broadcast clients payload e s
  = (tt, advance 0 0 (map (fun c => Send c payload) (recipients e clients)) s).
Proof.
  unfold broadcast, recipients. revert s.
  induction clients as [|c rest IH]; intros s; simpl.
  - by rewrite advance_0.
  - unfold bind at 1. unfold bind at 1. unfold isOpen.
    rewrite filter_cons. case_bool_decide as Hopen.
    + rewrite decide_True by done. unfold ws_send. rewrite emit_run, IH.
      by rewrite advance_advance.
    + rewrite decide_False by done. unfold ret at 1. apply IH.
Qed.

(** ** Room codes *)

Lemma codeOf_isCode4 n : (n < codeSpace)%nat -> isCode4 (codeOf n) = true.
Proof.
  intros Hn.
  assert (Hall : forallb (fun n => isCode4 (codeOf n)) (seq 0 codeSpace) = true)
    by (vm_compute; reflexivity).
  rewrite forallb_forall in Hall. apply Hall, in_seq. lia.
Qed.

(** The loop stops at the first draw whose code is free: with a free code
    at the [k]-th coming draw, [S k] draws are enough. *)
Lemma drawCode_finds {R} e (rooms : gmap string R) k : forall s,
  rooms !! codeOf (Math_draws e (rndReads s + k)) = None ->
  exists j, (j <= k)%nat /\
    rooms !! codeOf (Math_draws e (rndReads s + j)) = None /\
    drawCode (S k) rooms e s
    = (Some (codeOf (Math_draws e (rndReads s + j))), advance 0 (S j) [] s).
Proof.
  induction k as [|k IH]; intros s Hfree.
  - exists 0%nat. rewrite Nat.add_0_r in *. split; [lia|]. split; [done|].
    cbn [drawCode]. unfold bind. rewrite draw_run.
    unfold Map_has. rewrite bool_decide_eq_false_2; [done|].
    rewrite Hfree. by intros [? ?].
  - cbn [drawCode]. unfold bind at 1. rewrite draw_run.
    unfold Map_has at 1. case_bool_decide as Htaken.
    + destruct (IH (advance 0 1 [] s)) as (j & Hj & Hnone & Hrun).
      { cbn [advance rndReads]. by replace (rndReads s + 1 + k)%nat
          with (rndReads s + S k)%nat by lia. }
      exists (S j). cbn [advance rndReads] in Hnone, Hrun.
      replace (rndReads s + 1 + j)%nat with (rndReads s + S j)%nat in * by lia.
      split; [lia|]. split; [done|].
      cbn [drawCode] in Hrun. rewrite Hrun, advance_advance.
      do 2 f_equal.
    + exists 0%nat. rewrite Nat.add_0_r. split; [lia|].
      split; [by apply eq_None_not_Some|]. done.
Qed.

(** Whatever the number of draws allowed, a code the loop returns is that of
    a draw and is free. *)
Lemma drawCode_sound {R} e (rooms : gmap string R) fuel : forall s code s',
  drawCode fuel rooms e s = (Some code, s') ->
  exists j, code = codeOf (Math_draws e (rndReads s + j)) /\
            rooms !! code = None /\ s' = advance 0 (S j) [] s.
Proof.
  induction fuel as [|fuel IH]; intros s code s' Hrun; [discriminate|].
  cbn [drawCode] in Hrun. unfold bind in Hrun. rewrite draw_run in Hrun.
  unfold Map_has in Hrun. case_bool_decide as Htaken.
  - apply IH in Hrun as (j & -> & Hnone & ->). exists (S j).
    cbn [advance rndReads] in *.
    replace (rndReads s + 1 + j)%nat with (rndReads s + S j)%nat in * by lia.
    split; [done|]. split; [done|]. rewrite advance_advance. do 2 f_equal.
  - injection Hrun as <- <-. exists 0%nat. rewrite Nat.add_0_r.
    split; [done|]. split; [by apply eq_None_not_Some|done].
Qed.

Lemma Expiring_createCode_finds e rooms k s :
  (forall i, (Math_draws e i < codeSpace)%nat) ->
  rooms !! codeOf (Math_draws e (rndReads s + k)) = None ->
  exists code s',
    Expiring.createCode (S k) rooms e s
    = (Some (code, <[code := newRoom (Date_clock e (nowReads s))]> rooms), s')
    /\ isCode4 code = true /\ rooms !! code = None.
Proof.
  intros Hrange Hfree.
  destruct (drawCode_finds e rooms k s Hfree) as (j & _ & Hnone & Hrun).
  eexists _, _. unfold Expiring.createCode, bind. rewrite Hrun, Date_now_run.
  cbn [advance nowReads]. rewrite Nat.add_0_r.
  split; [reflexivity|]. split; [by apply codeOf_isCode4|done].
Qed.

Lemma Expiring_createCode_sound e rooms fuel s code rooms' s' :
  (forall i, (Math_draws e i < codeSpace)%nat) ->
  Expiring.createCode fuel rooms e s = (Some (code, rooms'), s') ->
  isCode4 code = true /\ rooms !! code = None /\
  rooms' = <[code := newRoom (Date_clock e (nowReads s))]> rooms.
Proof.
  intros Hrange. unfold Expiring.createCode, bind.
  destruct (drawCode fuel rooms e s) as [[c|] s1] eqn:Hdraw; [|discriminate].
  apply drawCode_sound in Hdraw as (j & -> & Hnone & ->).
  rewrite Date_now_run. intros [= <- <- <-].
  split; [by apply codeOf_isCode4|]. split; [done|]. simpl.
  by rewrite Nat.add_0_r.
Qed.

Lemma RoomService_createRoom_finds e st k s :
  (forall i, (Math_draws e i < codeSpace)%nat) ->
  RoomService.rooms st !! codeOf (Math_draws e (rndReads s + k)) = None ->
  exists code st' s',
    RoomService.createRoom (S k) st e s = (Some (code, st'), s')
    /\ isCode4 code = true /\ RoomService.rooms st !! code = None
    /\ RoomService.rooms st'
       = <[code := {| RoomService.code := code;
                      RoomService.createdAt := Date_clock e (nowReads s);
                      RoomService.lastActive := Date_clock e (nowReads s);
                      RoomService.clients := [];
                      RoomService.status := RoomService.active |}]>
           (RoomService.rooms st).
Proof.
  intros Hrange Hfree.
  destruct (drawCode_finds e _ k s Hfree) as (j & _ & Hnone & Hrun).
  eexists _, _, _. unfold RoomService.createRoom, bind. rewrite Hrun, Date_now_run.
  split; [reflexivity|]. split; [by apply codeOf_isCode4|].
  split; [done|]. simpl. by rewrite Nat.add_0_r.
Qed.

Lemma RoomService_createRoom_sound e st fuel s code st' s' :
  (forall i, (Math_draws e i < codeSpace)%nat) ->
  RoomService.createRoom fuel st e s = (Some (code, st'), s') ->
  isCode4 code = true /\ RoomService.rooms st !! code = None /\
  is_Some (RoomService.rooms st' !! code).
Proof.
  intros Hrange. unfold RoomService.createRoom, bind.
  destruct (drawCode fuel _ e s) as [[c|] s1] eqn:Hdraw; [|discriminate].
  apply drawCode_sound in Hdraw as (j & -> & Hnone & ->).
  rewrite Date_now_run. intros [= <- <- <-].
  split; [by apply codeOf_isCode4|]. split; [done|]. simpl.
  rewrite lookup_insert_eq. eauto.
Qed.

Lemma Persistent_createCode_code rooms e s :
  fst (fst (Persistent.createCode rooms e s)) = "0000".
Proof.
  unfold Persistent.createCode. destruct (Map_has rooms "0000"); [done|].
  cbn [negb]. unfold bind. by rewrite Date_now_run.
Qed.

Lemma Persistent_createCode_existing rooms room e s :
  rooms !! "0000" = Some room ->
  Persistent.createCode rooms e s = ("0000", rooms, s).
Proof.
  intros Hroom. unfold Persistent.createCode, Map_has.
  rewrite bool_decide_eq_true_2 by (rewrite Hroom; eauto). done.
Qed.

Lemma Persistent_createCode_missing rooms e s :
  rooms !! "0000" = None ->
  Persistent.createCode rooms e s
  = ("0000", <["0000" := newRoom (Date_clock e (nowReads s))]> rooms, advance 1 0 [] s).
Proof.
  intros Hroom. unfold Persistent.createCode, Map_has.
  rewrite bool_decide_eq_false_2 by (rewrite Hroom; by intros [? ?]).
  cbn [negb]. unfold bind. by rewrite Date_now_run.
Qed.

(** C1, as the code has it.  With the random source in its range
    (every draw below 10000) and a free code among the coming draws,
    [createCode] of the server with a TTL and [createRoom] of the service
    return: the code is a 4-digit zero-padded numeric string, no room of the
    registry had it before the call, and it now names a new empty room;
    whatever the number of draws allowed, a returned code has these
    properties.  [createCode] of the server whose rooms never expire
    returns the 4-digit string "0000" whether or not it is registered. *)
Theorem createCode_four_digits_and_fresh_where_drawn
    (e : Env) (s : Sys) (k k' : nat) (rooms : gmap string Room)
    (st : RoomService.State)
    (Hrange : forall i, (Math_draws e i < codeSpace)%nat)
    (Hfree : rooms !! codeOf (Math_draws e (rndReads s + k)) = None)
    (Hfree' : RoomService.rooms st !! codeOf (Math_draws e (rndReads s + k')) = None) :
  (exists code s',
      Expiring.createCode (S k) rooms e s
      = (Some (code, <[code := newRoom (Date_clock e (nowReads s))]> rooms), s')
      /\ isCode4 code = true /\ rooms !! code = None)
  /\ (forall fuel code rooms' s',
      Expiring.createCode fuel rooms e s = (Some (code, rooms'), s') ->
      isCode4 code = true /\ rooms !! code = None /\
      rooms' = <[code := newRoom (Date_clock e (nowReads s))]> rooms)
  /\ (exists code st' s',
      RoomService.createRoom (S k') st e s = (Some (code, st'), s')
      /\ isCode4 code = true /\ RoomService.rooms st !! code = None
      /\ is_Some (RoomService.rooms st' !! code))
  /\ (forall fuel code st' s',
      RoomService.createRoom fuel st e s = (Some (code, st'), s') ->
      isCode4 code = true /\ RoomService.rooms st !! code = None /\
      is_Some (RoomService.rooms st' !! code))
  /\ fst (fst (Persistent.createCode rooms e s)) = "0000"
  /\ isCode4 "0000" = true.
Proof.
  split; [by apply Expiring_createCode_finds|].
  split; [intros; by eapply Expiring_createCode_sound|].
  split.
  { destruct (RoomService_createRoom_finds e st k' s Hrange Hfree')
      as (code & st' & s' & Hrun & Hcode & Hnone & Hins).
    exists code, st', s'. repeat split; try done.
    rewrite Hins, lookup_insert_eq. eauto. }
  split; [intros; by eapply RoomService_createRoom_sound|].
  split; [apply Persistent_createCode_code|reflexivity].
Qed.

Lemma env0_range i : (Math_draws env0 i < codeSpace)%nat.
Proof. cbn [env0 Math_draws]. apply Nat.mod_upper_bound. discriminate. Qed.

Lemma createCode_four_digits_and_fresh_where_drawn_witness :
  (forall i, (Math_draws env0 i < codeSpace)%nat)
  /\ roomsOne !! codeOf (Math_draws env0 (rndReads sys0 + 1)) = None
  /\ exists code s',
      Expiring.createCode 2 roomsOne env0 sys0
      = (Some (code, <[code := newRoom 1700000000000]> roomsOne), s')
      /\ isCode4 code = true /\ roomsOne !! code = None.
Proof.
  split; [exact env0_range|].
  split; [vm_compute; reflexivity|].
  refine (proj1 (createCode_four_digits_and_fresh_where_drawn
                   env0 sys0 1 0 roomsOne serviceEmpty env0_range _ _)).
  - vm_compute; reflexivity.
  - apply lookup_empty.
Defined.

(** C1 fails on the server whose rooms never expire: with room "0000"
    registered and two clients connected to it, [createCode] returns "0000",
    the code of that room. *)
Lemma createCode_persistent_returns_registered_code :
  exists room,
    roomsZero !! fst (fst (Persistent.createCode roomsZero env0 sys0)) = Some room
    /\ clients room = [1%nat; 2%nat].
Proof.
  exists roomZero. rewrite Persistent_createCode_code. split; [|done].
  apply lookup_singleton_eq.
Qed.

(** C10.  [createCode] of the server whose rooms never expire always
    returns "0000"; when a room "0000" is registered the call changes
    nothing: the registry, and so the clients, the log and [lastActive] of
    that room, are as before, the clock is not read and nothing is sent.
    A second call therefore returns what the first returned and leaves its
    registry as it is; rooms under other codes are never touched. *)
Theorem createCode_persistent_idempotent (rooms : gmap string Room) (e : Env) (s : Sys) :
  fst (fst (Persistent.createCode rooms e s)) = "0000"
  /\ (forall room, rooms !! "0000" = Some room ->
       Persistent.createCode rooms e s = ("0000", rooms, s))
  /\ (forall code rooms1 s1, Persistent.createCode rooms e s = (code, rooms1, s1) ->
       Persistent.createCode rooms1 e s1 = (code, rooms1, s1))
  /\ (forall code, code <> "0000" ->
       snd (fst (Persistent.createCode rooms e s)) !! code = rooms !! code).
Proof.
  split; [apply Persistent_createCode_code|].
  split; [intros room; apply Persistent_createCode_existing|].
  split.
  - intros code rooms1 s1. destruct (rooms !! "0000") as [room|] eqn:Hroom.
    + rewrite (Persistent_createCode_existing _ _ _ _ Hroom). intros [= <- <- <-].
      by apply Persistent_createCode_existing with room.
    + rewrite (Persistent_createCode_missing _ _ _ Hroom). intros [= <- <- <-].
      eapply Persistent_createCode_existing, lookup_insert_eq.
  - intros code Hne. destruct (rooms !! "0000") as [room|] eqn:Hroom.
    + by rewrite (Persistent_createCode_existing _ _ _ _ Hroom).
    + rewrite (Persistent_createCode_missing _ _ _ Hroom). simpl.
      by rewrite lookup_insert_ne.
Qed.

Lemma createCode_persistent_idempotent_witness :
  roomsZero !! "0000" = Some roomZero
  /\ Persistent.createCode roomsZero env0 sys0 = ("0000", roomsZero, sys0).
Proof.
  split; [apply lookup_singleton_eq|].
  apply (proj1 (proj2 (createCode_persistent_idempotent roomsZero env0 sys0)) roomZero).
  apply lookup_singleton_eq.
Defined.

(** ** The sweep *)

(** Deleting the marked entries of a map while visiting them leaves, under
    each key, nothing if its entry is marked and what was there otherwise. *)
Lemma sweep_lookup {R} (mark : R -> bool) (base m : gmap string R) k :
  map_fold (fun code room acc => if mark room then delete code acc else acc) base m !! k
  = match m !! k with
    | Some room => if mark room then None else base !! k
    | None => base !! k
    end.
Proof.
  revert k.
  apply (map_fold_weak_ind (fun r m => forall k,
    r !! k = match m !! k with
             | Some room => if mark room then None else base !! k
             | None => base !! k
             end)); [intros k; by rewrite lookup_empty|].
  intros i x m' r Hi IH k. destruct (decide (i = k)) as [->|Hne].
  - rewrite lookup_insert_eq. destruct (mark x).
    + apply lookup_delete_eq.
    + by rewrite IH, Hi.
  - rewrite lookup_insert_ne by done. destruct (mark x); [|apply IH].
    rewrite lookup_delete_ne by done. apply IH.
Qed.

Lemma Expiring_cleanup_lookup rooms e s code :
  fst (Expiring.cleanup rooms e s) !! code
  = match rooms !! code with
    | Some room =>
        if Expiring.stale (Date_clock e (nowReads s)) room then None else Some room
    | None => None
    end.
Proof.
  unfold Expiring.cleanup, bind. rewrite Date_now_run. cbn [ret fst].
  rewrite sweep_lookup. by destruct (rooms !! code) as [room|] eqn:Hroom.
Qed.

Lemma collect_elem {R} (mark : R -> bool) (m : gmap string R) k :
  k ∈ map_fold (fun code room (acc : list string) =>
                  if mark room then (acc ++ [code])%list else acc) [] m
  <-> exists room, m !! k = Some room /\ mark room = true.
Proof.
  revert k.
  apply (map_fold_weak_ind (fun (r : list string) m => forall k,
    k ∈ r <-> exists room, m !! k = Some room /\ mark room = true)).
  - intros k. rewrite elem_of_nil. split; [done|].
    intros (room & Hroom & _). by rewrite lookup_empty in Hroom.
  - intros i x m' r Hi IH k. destruct (decide (i = k)) as [->|Hne].
    + rewrite lookup_insert_eq. destruct (mark x) eqn:Hx.
      * rewrite elem_of_app, list_elem_of_singleton. split; [eauto|]. by right.
      * rewrite IH, Hi. split; [by intros (? & ? & ?)|].
        intros (room & [= <-] & Hroom). congruence.
    + rewrite lookup_insert_ne by done. destruct (mark x); [|apply IH].
      rewrite elem_of_app, list_elem_of_singleton, IH. split; [|eauto].
      intros [?|?]; [done|congruence].
Qed.

Lemma foldl_delete_lookup {R} (codes : list string) : forall (m : gmap string R) k,
  foldl (fun acc code => delete code acc) m codes !! k
  = if decide (k ∈ codes) then None else m !! k.
Proof.
  induction codes as [|c codes IH]; intros m k; cbn [foldl].
  - rewrite decide_False; [done|apply not_elem_of_nil].
  - rewrite IH. destruct (decide (k ∈ codes)) as [Hin|Hnin].
    + rewrite decide_True; [done|by right].
    + destruct (decide (c = k)) as [->|Hne].
      * rewrite lookup_delete_eq, decide_True; [done|by left].
      * rewrite lookup_delete_ne by done. rewrite decide_False; [done|].
        rewrite elem_of_cons. intros [?|?]; congruence.
Qed.

Lemma RoomService_cleanup_lookup st e s code :
  RoomService.rooms (fst (RoomService.cleanup st e s)) !! code
  = match RoomService.rooms st !! code with
    | Some room =>
        if RoomService.stale (Date_clock e (nowReads s)) room then None else Some room
    | None => None
    end.
Proof.
  unfold RoomService.cleanup, bind. rewrite Date_now_run.
  cbn [ret fst RoomService.setRooms RoomService.rooms].
  rewrite foldl_delete_lookup. case_decide as Hin.
  - apply collect_elem in Hin as (room & -> & ->). done.
  - destruct (RoomService.rooms st !! code) as [room|] eqn:Hroom; [|done].
    destruct (RoomService.stale _ room) eqn:Hstale; [|done].
    exfalso. apply Hin, collect_elem. eauto.
Qed.

(** C2.  A sweep that reads the clock at [now], in the server with a TTL
    and in the service alike: a room with no client whose [lastActive] is
    older than [now - ttlMs] is no longer registered afterwards, and a room
    with at least one client is still registered, unchanged, however old
    its [lastActive]. *)
Theorem cleanup_removes_idle_empty_keeps_occupied
    (e : Env) (s : Sys) (rooms : gmap string Room) (st : RoomService.State) :
  let now := Date_clock e (nowReads s) in
  (forall code room, rooms !! code = Some room ->
     clients room = [] -> lastActive room < now - Expiring.ttlMs ->
     fst (Expiring.cleanup rooms e s) !! code = None)
  /\ (forall code room, rooms !! code = Some room ->
     clients room <> [] ->
     fst (Expiring.cleanup rooms e s) !! code = Some room)
  /\ (forall code room, RoomService.rooms st !! code = Some room ->
     RoomService.clients room = [] ->
     RoomService.lastActive room < now - RoomService.ttlMs ->
     RoomService.rooms (fst (RoomService.cleanup st e s)) !! code = None)
  /\ (forall code room, RoomService.rooms st !! code = Some room ->
     RoomService.clients room <> [] ->
     RoomService.rooms (fst (RoomService.cleanup st e s)) !! code = Some room).
Proof.
  intros now. repeat split; intros code room Hroom.
  - intros Hempty Hold. rewrite Expiring_cleanup_lookup, Hroom.
    unfold Expiring.stale. rewrite Hempty. cbn [Set_size length Nat.eqb andb].
    by rewrite (proj2 (Z.ltb_lt _ _)) by (fold now; lia).
  - intros Hocc. rewrite Expiring_cleanup_lookup, Hroom.
    unfold Expiring.stale. by destruct (clients room).
  - intros Hempty Hold. rewrite RoomService_cleanup_lookup, Hroom.
    unfold RoomService.stale. rewrite Hempty. cbn [Set_size length Nat.eqb andb].
    by rewrite (proj2 (Z.ltb_lt _ _)) by (fold now; lia).
  - intros Hocc. rewrite RoomService_cleanup_lookup, Hroom.
    unfold RoomService.stale. by destruct (RoomService.clients room).
Qed.

Lemma cleanup_removes_idle_empty_keeps_occupied_witness :
  roomsSweep !! "0007"
    = Some {| clients := []; lastActive := 1699999000000; messages := [] |}
  /\ 1699999000000 < Date_clock env0 (nowReads sys0) - Expiring.ttlMs
  /\ fst (Expiring.cleanup roomsSweep env0 sys0) !! "0007" = None.
Proof.
  assert (Hroom : roomsSweep !! "0007"
    = Some {| clients := []; lastActive := 1699999000000; messages := [] |})
    by apply lookup_insert_eq.
  assert (Hold : 1699999000000 < Date_clock env0 (nowReads sys0) - Expiring.ttlMs)
    by (vm_compute; reflexivity).
  split; [exact Hroom|]. split; [exact Hold|].
  exact (proj1 (cleanup_removes_idle_empty_keeps_occupied env0 sys0 roomsSweep serviceEmpty)
           "0007" _ Hroom eq_refl Hold).
Defined.

(** ** Client sets and what a socket receives *)

Lemma Set_add_NoDup ws s : NoDup s -> NoDup (Set_add ws s).
Proof.
  intros Hs. unfold Set_add. case_decide as Hin; [done|].
  apply NoDup_app. split; [done|]. split; [|apply NoDup_singleton].
  intros x Hx Hx'. apply list_elem_of_singleton in Hx'. by subst.
Qed.

Lemma Set_add_elem ws s : ws ∈ Set_add ws s.
Proof.
  unfold Set_add. case_decide as Hin; [done|].
  apply elem_of_app. right. by apply list_elem_of_singleton.
Qed.

Lemma Set_delete_NoDup ws s : NoDup s -> NoDup (Set_delete ws s).
Proof. apply NoDup_filter. Qed.

Lemma received_app ws evs evs' :
  received ws (evs ++ evs') = (received ws evs ++ received ws evs')%list.
Proof.
  induction evs as [|[to p| |] evs IH]; simpl; [done| |done|done].
  case_decide; [|done]. by rewrite IH.
Qed.

Lemma received_fanout_absent ws payload (l : list WebSocket) :
  ws ∉ l -> received ws (map (fun c => Send c payload) l) = [].
Proof.
  induction l as [|c l IH]; intros Hnin; simpl; [done|].
  apply not_elem_of_cons in Hnin as [Hne Hnin].
  rewrite decide_False by done. by apply IH.
Qed.

(** A socket that is a member once is written to once. *)
Lemma received_fanout_member ws payload (l : list WebSocket) :
  NoDup l -> ws ∈ l -> received ws (map (fun c => Send c payload) l) = [payload].
Proof.
  induction l as [|c l IH]; intros Hnd Hin; [by apply elem_of_nil in Hin|].
  apply NoDup_cons in Hnd as [Hc Hnd]. simpl. case_decide as Heq.
  - subst c. by rewrite received_fanout_absent.
  - apply elem_of_cons in Hin as [->|Hin]; [done|]. by apply IH.
Qed.

Lemma received_broadcast e ws payload clients :
  NoDup clients -> ws ∈ clients -> readyState e ws = OPEN ->
  received ws (map (fun c => Send c payload) (recipients e clients)) = [payload].
Proof.
  intros Hnd Hin Hopen. apply received_fanout_member.
  - by apply NoDup_filter.
  - unfold recipients. by apply list_elem_of_filter.
Qed.

(** ** The connection listener of the stand-alone servers *)

Lemma connection_not_found seats rooms ws roomCode userId e s :
  rooms !! roomCode = None ->
  connection seats rooms ws roomCode userId e s
  = (rooms, advance 0 0 [Send ws (errorMsg "Room not found"); Close ws] s).
Proof.
  intros Hroom. unfold connection. rewrite Hroom. unfold bind, ws_send, ws_close.
  by rewrite !emit_run, advance_advance.
Qed.

Lemma connection_full seats rooms ws roomCode userId room e s :
  rooms !! roomCode = Some room ->
  (seats <= Set_size (clients room))%nat ->
  connection seats rooms ws roomCode userId e s
  = (rooms, advance 0 0 [Send ws (errorMsg "Room is full"); Close ws] s).
Proof.
  intros Hroom Hfull. unfold connection. rewrite Hroom.
  rewrite (proj2 (Nat.leb_le _ _)) by done. unfold bind, ws_send, ws_close.
  by rewrite !emit_run, advance_advance.
Qed.

Lemma connection_admitted seats rooms ws roomCode userId room e s :
  rooms !! roomCode = Some room ->
  (Set_size (clients room) < seats)%nat ->
  connection seats rooms ws roomCode userId e s
  = (<[roomCode := setLastActive (Date_clock e (nowReads s)) (addClient ws room)]> rooms,
     advance 2 0
       (Send ws (joinedMsg (VStr roomCode))
        :: map (Send ws) (historyIfAny room)
        ++ map (fun c => Send c (systemJoined userId (Date_clock e (S (nowReads s)))))
               (recipients e (Set_add ws (clients room)))) s).
Proof.
  intros Hroom Hfree. unfold connection. rewrite Hroom.
  rewrite (proj2 (Nat.leb_gt _ _)) by done.
  unfold bind at 1. rewrite Date_now_run.
  unfold bind at 1. unfold ws_send at 1. rewrite emit_run.
  unfold bind at 1. unfold historyIfAny.
  cbn [setLastActive addClient messages clients].
  destruct (messages room) as [|m log]; cbn [length Nat.ltb Nat.leb]; cycle 1.
  - unfold ws_send at 1. rewrite emit_run. unfold bind at 1. rewrite Date_now_run.
    unfold bind. rewrite broadcast_run. unfold ret.
    rewrite !advance_advance. cbn [advance nowReads]. do 3 f_equal.
    by rewrite Nat.add_1_r.
  - unfold ret at 1. unfold bind at 1. rewrite Date_now_run.
    unfold bind. rewrite broadcast_run. unfold ret.
    rewrite !advance_advance. cbn [advance nowReads]. do 3 f_equal.
    by rewrite Nat.add_1_r.
Qed.

(** No client set ever lists a socket twice: the listener keeps it so. *)
Lemma connection_keeps_NoDup seats rooms ws roomCode userId e s :
  (forall c r, rooms !! c = Some r -> NoDup (clients r)) ->
  forall c r, fst (connection seats rooms ws roomCode userId e s) !! c = Some r ->
              NoDup (clients r).
Proof.
  intros Hinv c r. destruct (rooms !! roomCode) as [room|] eqn:Hroom.
  - destruct (le_lt_dec seats (Set_size (clients room))) as [Hfull|Hfree].
    + rewrite (connection_full _ _ _ _ _ _ _ _ Hroom Hfull). apply Hinv.
    + rewrite (connection_admitted _ _ _ _ _ _ _ _ Hroom Hfree). cbn [fst].
      destruct (decide (roomCode = c)) as [->|Hne].
      * rewrite lookup_insert_eq. intros [= <-]. cbn [setLastActive addClient clients].
        apply Set_add_NoDup. by apply Hinv with c.
      * rewrite lookup_insert_ne by done. apply Hinv.
  - rewrite (connection_not_found _ _ _ _ _ _ _ Hroom). apply Hinv.
Qed.

Lemma onClose_keeps_NoDup ws room e s :
  NoDup (clients room) -> NoDup (clients (fst (onClose ws room e s))).
Proof.
  intros Hnd. unfold onClose, bind. rewrite Date_now_run.
  cbn [ret fst setLastActive deleteClient clients]. by apply Set_delete_NoDup.
Qed.

(** ** Joining through the service *)

Lemma handleJoin_admitted ws payload st c room e s :
  getProp payload "code" = Some (VStr c) ->
  RoomService.rooms st !! c = Some room ->
  RoomService.status room = RoomService.active ->
  truthy (RoomService.Map_get (orUndefined (getProp payload "userId"))
            (RoomService.userRoom st))
  && RoomService.differs
       (RoomService.Map_get (orUndefined (getProp payload "userId"))
          (RoomService.userRoom st)) c = false ->
  RoomService.handleJoin ws payload st e s
  = ({| RoomService.rooms :=
          <[c := RoomService.setLastActive (Date_clock e (nowReads s))
                   (RoomService.addClient ws room)]> (RoomService.rooms st);
        RoomService.userRoom :=
          RoomService.Map_set (orUndefined (getProp payload "userId")) (VStr c)
            (RoomService.userRoom st);
        RoomService.meta :=
          <[ws := (VStr c, orUndefined (getProp payload "userId"))]>
            (RoomService.meta st) |},
     advance 1 0
       (Send ws (joinedMsg (VStr c))
        :: map (fun client => Send client (serviceJoinNotice c))
               (recipients e (Set_add ws (RoomService.clients room)))) s).
Proof.
  intros Hcode Hroom Hactive Hexisting. unfold RoomService.handleJoin.
  rewrite Hcode. cbn [orUndefined RoomService.rooms_get]. rewrite Hroom, Hactive.
  rewrite bool_decide_eq_true_2 by done. cbn [negb]. rewrite Hexisting.
  unfold bind at 1. rewrite Date_now_run.
  unfold bind at 1. unfold ws_send. rewrite emit_run.
  unfold bind. rewrite broadcast_run. unfold ret.
  by rewrite !advance_advance.
Qed.

(** ** C3, C4: joining *)

Lemma connection_received seats rooms ws roomCode userId room e s :
  readyState e ws = OPEN ->
  rooms !! roomCode = Some room ->
  NoDup (clients room) ->
  (Set_size (clients room) < seats)%nat ->
  exists rooms' evs,
    connection seats rooms ws roomCode userId e s = (rooms', advance 2 0 evs s)
    /\ received ws evs
       = joinedMsg (VStr roomCode)
         :: (historyIfAny room
             ++ [systemJoined userId (Date_clock e (S (nowReads s)))])%list.
Proof.
  intros Hopen Hroom Hnd Hfree. eexists _, _.
  rewrite (connection_admitted _ _ _ _ _ _ _ _ Hroom Hfree). split; [reflexivity|].
  cbn [received]. rewrite decide_True by done. f_equal.
  rewrite received_app. f_equal.
  - unfold historyIfAny. destruct (messages room); [done|].
    cbn [map received]. by rewrite decide_True.
  - apply received_broadcast; [by apply Set_add_NoDup|apply Set_add_elem|done].
Qed.

(** C3.  A connection that is open and is admitted to a room receives,
    in this order: [{type: "joined", code}] with the room code; then,
    exactly when the log of the room is not empty, one
    [{type: "history", messages}] carrying the whole log in order; then,
    once, as one of the recipients of the broadcast, the notice of its own
    join, [{type: "system", message: "User <the first four UTF-16 units of
    its userId> joined", ts}] with the second clock reading of the join.
    This holds in both stand-alone servers.  The service keeps no log:
    there the joiner receives [{type: "joined", code}] and then
    [{type: "system", message: "User joined room <code>"}]. *)
Theorem join_receives_joined_history_system
    (e : Env) (s : Sys) (ws : WebSocket) (Hopen : readyState e ws = OPEN) :
  (forall rooms roomCode userId room,
     rooms !! roomCode = Some room -> NoDup (clients room) ->
     (Set_size (clients room) < Expiring.seats)%nat ->
     exists rooms' evs,
       Expiring.connection rooms ws roomCode userId e s = (rooms', advance 2 0 evs s)
       /\ received ws evs
          = (VObj [("type", VStr "joined"); ("code", VStr roomCode)]
             :: match messages room with
                | [] => []
                | _ :: _ => [VObj [("type", VStr "history");
                                   ("messages", VArr (messages room))]]
                end
             ++ [VObj [("type", VStr "system");
                       ("message", VStr ("User " ++ slice0 4 userId ++ " joined"));
                       ("ts", VNum (Date_clock e (S (nowReads s))))]])%list)
  /\ (forall rooms roomCode userId room,
     rooms !! roomCode = Some room -> NoDup (clients room) ->
     (Set_size (clients room) < Persistent.seats)%nat ->
     exists rooms' evs,
       Persistent.connection rooms ws roomCode userId e s = (rooms', advance 2 0 evs s)
       /\ received ws evs
          = (VObj [("type", VStr "joined"); ("code", VStr roomCode)]
             :: match messages room with
                | [] => []
                | _ :: _ => [VObj [("type", VStr "history");
                                   ("messages", VArr (messages room))]]
                end
             ++ [VObj [("type", VStr "system");
                       ("message", VStr ("User " ++ slice0 4 userId ++ " joined"));
                       ("ts", VNum (Date_clock e (S (nowReads s))))]])%list)
  /\ (forall st payload c room,
     getProp payload "code" = Some (VStr c) ->
     RoomService.rooms st !! c = Some room ->
     RoomService.status room = RoomService.active ->
     NoDup (RoomService.clients room) ->
     truthy (RoomService.Map_get (orUndefined (getProp payload "userId"))
               (RoomService.userRoom st))
     && RoomService.differs
          (RoomService.Map_get (orUndefined (getProp payload "userId"))
             (RoomService.userRoom st)) c = false ->
     exists st' evs,
       RoomService.handleJoin ws payload st e s = (st', advance 1 0 evs s)
       /\ received ws evs
          = [VObj [("type", VStr "joined"); ("code", VStr c)];
             VObj [("type", VStr "system");
                   ("message", VStr ("User joined room " ++ c))]]).
Proof.
  split; [intros; by apply connection_received|].
  split; [intros; by apply connection_received|].
  intros st payload c room Hcode Hroom Hactive Hnd Hexisting. eexists _, _.
  rewrite (handleJoin_admitted _ _ _ _ _ _ _ Hcode Hroom Hactive Hexisting).
  split; [reflexivity|]. cbn [received]. rewrite decide_True by done. f_equal.
  apply received_broadcast; [by apply Set_add_NoDup|apply Set_add_elem|done].
Qed.

Lemma join_receives_joined_history_system_witness :
  readyState env0 2%nat = OPEN
  /\ roomsOne !! "4821" = Some roomHi
  /\ (Set_size (clients roomHi) < Expiring.seats)%nat
  /\ exists rooms' evs,
      Expiring.connection roomsOne 2%nat "4821" "u2-7f3a" env0 sys0
      = (rooms', advance 2 0 evs sys0)
      /\ received 2%nat evs
         = [VObj [("type", VStr "joined"); ("code", VStr "4821")];
            VObj [("type", VStr "history"); ("messages", VArr [chatHi])];
            VObj [("type", VStr "system"); ("message", VStr "User u2-7 joined");
                  ("ts", VNum 1700000000001)]].
Proof.
  assert (Hroom : roomsOne !! "4821" = Some roomHi) by apply lookup_singleton_eq.
  assert (Hnd : NoDup (clients roomHi)) by apply NoDup_singleton.
  assert (Hfree : (Set_size (clients roomHi) < Expiring.seats)%nat)
    by (vm_compute; lia).
  split; [reflexivity|]. split; [exact Hroom|]. split; [exact Hfree|].
  exact (proj1 (join_receives_joined_history_system env0 sys0 2%nat eq_refl)
           roomsOne "4821" "u2-7f3a" roomHi Hroom Hnd Hfree).
Defined.

(** [slice(0, 4)] counts UTF-16 code units: a character of two or three
    bytes counts for one; of an identifier whose fourth character lies
    outside the basic plane it keeps the three characters before and the
    high surrogate of the fourth, and all of that character when it comes
    third. *)
Example slice0_counts_code_units :
  slice0 4 "u2-7f3a" = "u2-7"
  /\ slice0 4 "u2" = "u2"
  /\ slice0 4 (String "h" (String "195" (String "169" "llo!")))
     = String "h" (String "195" (String "169" "ll"))
  /\ slice0 4 (String "226" (String "130" (String "172" "uro!")))
     = String "226" (String "130" (String "172" "uro"))
  /\ slice0 4 ("abc" ++ String "240" (String "159" (String "152" (String "128" "d"))))
     = "abc" ++ String "237" (String "160" (String "189" ""))
  /\ slice0 4 ("ab" ++ String "240" (String "159" (String "152" (String "128" "d"))))
     = "ab" ++ String "240" (String "159" (String "152" (String "128" ""))).
Proof. repeat split. Qed.

(** C4 fails on the service: room "4821" has ten members, as many as the
    larger of the two limits of the stand-alone servers, and an eleventh
    joiner is admitted.  It is sent [joined], nobody is sent an error, no
    socket is closed, and the client set then has eleven members. *)
Lemma service_admits_an_eleventh_member :
  let notice := VObj [("type", VStr "system");
                      ("message", VStr "User joined room 4821")] in
  exists room st' room',
    RoomService.rooms serviceTen !! "4821" = Some room
    /\ Set_size (RoomService.clients room) = 10%nat
    /\ RoomService.handleJoin 11%nat (joinFrame "4821" "u11") serviceTen env0 sys0
       = (st', advance 1 0
                 (Send 11%nat (VObj [("type", VStr "joined"); ("code", VStr "4821")])
                  :: map (fun client => Send client notice) (seq 1 11)) sys0)
    /\ RoomService.rooms st' !! "4821" = Some room'
    /\ RoomService.clients room' = seq 1 11.
Proof.
  intros notice. eexists _, _, _.
  split; [apply lookup_singleton_eq|]. split; [reflexivity|].
  rewrite (handleJoin_admitted 11%nat (joinFrame "4821" "u11") serviceTen "4821" _ env0 sys0
             eq_refl (lookup_singleton_eq _ _) eq_refl eq_refl).
  split; [reflexivity|]. cbn [RoomService.rooms]. by rewrite lookup_insert_eq.
Qed.

(** C4, as the code has it.  With [N] the number of seats (2 in the server
    with a TTL, 10 in the other): a connection that arrives when the client
    set of its room has [N] members is sent
    [{type: "error", message: "Room is full"}] and closed, and the registry,
    hence the client set, is as before; a connection that arrives when the
    set has [N - 1] members is added to it, is sent [{type: "joined", code}]
    and, when the log is not empty, [{type: "history", messages}], and the
    notice [{type: "system", message: "User <first four UTF-16 units of the
    userId> joined", ts}] is broadcast.  The service has no limit: a join
    that passes its room and user checks is admitted whatever the size of
    the client set, and is sent [{type: "joined", code}]. *)
Theorem join_full_room_rejected_last_seat_admitted
    (e : Env) (s : Sys) (rooms : gmap string Room) (ws : WebSocket)
    (roomCode userId : string) (room : Room)
    (Hroom : rooms !! roomCode = Some room) :
  let full := [Send ws (VObj [("type", VStr "error"); ("message", VStr "Room is full")]);
               Close ws] in
  let admitted :=
    (Send ws (VObj [("type", VStr "joined"); ("code", VStr roomCode)])
     :: match messages room with
        | [] => []
        | _ :: _ => [Send ws (VObj [("type", VStr "history");
                                    ("messages", VArr (messages room))])]
        end
     ++ map (fun c => Send c (VObj [("type", VStr "system");
                                    ("message",
                                     VStr ("User " ++ slice0 4 userId ++ " joined"));
                                    ("ts", VNum (Date_clock e (S (nowReads s))))]))
            (recipients e (Set_add ws (clients room))))%list in
  (Set_size (clients room) = Expiring.seats ->
     Expiring.connection rooms ws roomCode userId e s = (rooms, advance 0 0 full s))
  /\ (S (Set_size (clients room)) = Expiring.seats ->
     Expiring.connection rooms ws roomCode userId e s
     = (<[roomCode := {| clients := Set_add ws (clients room);
                         lastActive := Date_clock e (nowReads s);
                         messages := messages room |}]> rooms,
        advance 2 0 admitted s)
     /\ ws ∈ Set_add ws (clients room))
  /\ (Set_size (clients room) = Persistent.seats ->
     Persistent.connection rooms ws roomCode userId e s = (rooms, advance 0 0 full s))
  /\ (S (Set_size (clients room)) = Persistent.seats ->
     Persistent.connection rooms ws roomCode userId e s
     = (<[roomCode := {| clients := Set_add ws (clients room);
                         lastActive := Date_clock e (nowReads s);
                         messages := messages room |}]> rooms,
        advance 2 0 admitted s)
     /\ ws ∈ Set_add ws (clients room))
  /\ (forall st payload c members,
     getProp payload "code" = Some (VStr c) ->
     RoomService.rooms st !! c = Some members ->
     RoomService.status members = RoomService.active ->
     RoomService.Map_get (orUndefined (getProp payload "userId"))
       (RoomService.userRoom st) = VUndefined ->
     exists st' members',
       RoomService.handleJoin ws payload st e s
       = (st', advance 1 0
            (Send ws (VObj [("type", VStr "joined"); ("code", VStr c)])
             :: map (fun client =>
                       Send client (VObj [("type", VStr "system");
                                          ("message", VStr ("User joined room " ++ c))]))
                    (recipients e (Set_add ws (RoomService.clients members)))) s)
       /\ RoomService.rooms st' !! c = Some members'
       /\ RoomService.clients members' = Set_add ws (RoomService.clients members)).
Proof.
  intros full admitted.
  assert (Hadmitted : forall seats, S (Set_size (clients room)) = seats ->
    connection seats rooms ws roomCode userId e s
    = (<[roomCode := {| clients := Set_add ws (clients room);
                        lastActive := Date_clock e (nowReads s);
                        messages := messages room |}]> rooms,
       advance 2 0 admitted s)).
  { intros seats Hlast. rewrite (connection_admitted seats rooms ws roomCode userId room e s)
      by (done || lia).
    unfold admitted, historyIfAny, setLastActive, addClient, joinedMsg, historyMsg,
      systemJoined.
    cbn [clients messages lastActive]. by destruct (messages room). }
  repeat split.
  - intros Hfull. apply connection_full with room; [done|lia].
  - by apply Hadmitted.
  - apply Set_add_elem.
  - intros Hfull. apply connection_full with room; [done|lia].
  - by apply Hadmitted.
  - apply Set_add_elem.
  - intros st payload c members Hcode Hmembers Hactive Hnone. eexists _, _.
    rewrite (handleJoin_admitted ws payload st c members e s Hcode Hmembers Hactive)
      by (by rewrite Hnone).
    split; [reflexivity|]. cbn [RoomService.rooms]. by rewrite lookup_insert_eq.
Qed.

Lemma join_full_room_rejected_last_seat_admitted_witness :
  roomsZero !! "0000" = Some roomZero
  /\ Set_size (clients roomZero) = Expiring.seats
  /\ Expiring.connection roomsZero 3%nat "0000" "u3" env0 sys0
     = (roomsZero,
        advance 0 0 [Send 3%nat (VObj [("type", VStr "error");
                                       ("message", VStr "Room is full")]);
                     Close 3%nat] sys0)
  /\ roomsOne !! "4821" = Some roomHi
  /\ S (Set_size (clients roomHi)) = Expiring.seats
  /\ Expiring.connection roomsOne 2%nat "4821" "u2-7f3a" env0 sys0
     = (<["4821" := {| clients := [1%nat; 2%nat]; lastActive := 1700000000000;
                       messages := [chatHi] |}]> roomsOne,
        advance 2 0
          (Send 2%nat (VObj [("type", VStr "joined"); ("code", VStr "4821")])
           :: Send 2%nat (VObj [("type", VStr "history"); ("messages", VArr [chatHi])])
           :: map (fun c => Send c (VObj [("type", VStr "system");
                                          ("message", VStr "User u2-7 joined");
                                          ("ts", VNum 1700000000001)]))
                  (recipients env0 [1%nat; 2%nat])) sys0).
Proof.
  assert (Hroom : roomsZero !! "0000" = Some roomZero) by apply lookup_singleton_eq.
  assert (Hroom' : roomsOne !! "4821" = Some roomHi) by apply lookup_singleton_eq.
  split; [exact Hroom|]. split; [reflexivity|]. split.
  - exact (proj1 (join_full_room_rejected_last_seat_admitted
                    env0 sys0 roomsZero 3%nat "0000" "u3" roomZero Hroom) eq_refl).
  - split; [exact Hroom'|]. split; [reflexivity|].
    exact (proj1 (proj1 (proj2 (join_full_room_rejected_last_seat_admitted
                                  env0 sys0 roomsOne 2%nat "4821" "u2-7f3a" roomHi Hroom'))
                    eq_refl)).
Defined.

(** The service has no seat limit: whatever the size of the client set, a
    join that passes the room and user checks is admitted. *)
Lemma handleJoin_has_no_seat_limit ws payload st c room e s :
  getProp payload "code" = Some (VStr c) ->
  RoomService.rooms st !! c = Some room ->
  RoomService.status room = RoomService.active ->
  RoomService.Map_get (orUndefined (getProp payload "userId"))
    (RoomService.userRoom st) = VUndefined ->
  exists st', RoomService.handleJoin ws payload st e s
    = (st', advance 1 0
         (Send ws (joinedMsg (VStr c))
          :: map (fun client => Send client (serviceJoinNotice c))
                 (recipients e (Set_add ws (RoomService.clients room)))) s).
Proof.
  intros Hcode Hroom Hactive Hnone. eexists.
  apply handleJoin_admitted; [done..|]. by rewrite Hnone.
Qed.

(** ** C8: the handshake *)

Lemma upgrade_userId userIdParam e s :
  match userIdParam with
  | Some u => if String.eqb u "" then crypto_randomUUID else ret u
  | None => crypto_randomUUID
  end e s = (handshakeUserId e userIdParam, s).
Proof.
  unfold handshakeUserId. destruct userIdParam as [u|]; [|done].
  by destruct (String.eqb u "").
Qed.

(** A code that is absent, empty or not registered: the socket is destroyed
    and nothing else happens. *)
Lemma upgrade_refused seats rooms socket code userIdParam e s :
  match code with
  | Some c => c = "" \/ rooms !! c = None
  | None => True
  end ->
  upgrade seats rooms socket "/ws" code userIdParam e s
  = (rooms, advance 0 0 [Destroy socket] s).
Proof.
  intros Hcode. unfold upgrade. cbn [String.eqb Ascii.eqb Bool.eqb negb].
  unfold bind at 1. rewrite upgrade_userId.
  assert (Hdestroy : (socket_destroy socket ;; ret rooms) e s
                     = (rooms, advance 0 0 [Destroy socket] s)).
  { unfold bind, socket_destroy. by rewrite emit_run. }
  destruct code as [c|]; [|done].
  destruct Hcode as [->|Hnone]; [done|].
  unfold validate, Map_has. rewrite (bool_decide_eq_false_2 (is_Some _)).
  - by rewrite andb_false_r.
  - rewrite Hnone. by intros [? ?].
Qed.

(** A registered code: the connection listener runs with the code and the
    identity of the handshake. *)
Lemma upgrade_accepted seats rooms socket c userIdParam room e s :
  c <> "" -> rooms !! c = Some room ->
  upgrade seats rooms socket "/ws" (Some c) userIdParam e s
  = connection seats rooms socket c (handshakeUserId e userIdParam) e s.
Proof.
  intros Hc Hroom. unfold upgrade. cbn [String.eqb Ascii.eqb Bool.eqb negb].
  unfold bind at 1. rewrite upgrade_userId.
  rewrite (proj2 (String.eqb_neq _ _) Hc). unfold validate, Map_has.
  rewrite bool_decide_eq_true_2 by (rewrite Hroom; eauto). done.
Qed.

Lemma handleJoin_not_found ws payload st e s :
  RoomService.rooms_get st (orUndefined (getProp payload "code")) = None ->
  RoomService.handleJoin ws payload st e s
  = (st, advance 0 0 [Send ws (errorMsg "Room not found or inactive.")] s).
Proof.
  intros Hnone. unfold RoomService.handleJoin. rewrite Hnone.
  unfold bind, ws_send. by rewrite emit_run.
Qed.

(** C8 fails on the handshake: a request to join "9999", which is not
    registered, has its socket destroyed; no error message is written. *)
Lemma upgrade_unknown_code_sends_no_error :
  roomsOne !! "9999" = None
  /\ out (snd (Expiring.upgrade roomsOne 9%nat "/ws" (Some "9999") (Some "u9") env0 sys0))
     = [Destroy 9%nat]
  /\ received 9%nat
       (out (snd (Expiring.upgrade roomsOne 9%nat "/ws" (Some "9999") (Some "u9") env0 sys0)))
     = [].
Proof.
  assert (Hnone : roomsOne !! "9999" = None) by (by apply lookup_singleton_ne).
  split; [exact Hnone|]. unfold Expiring.upgrade.
  rewrite upgrade_refused by (by right). done.
Qed.

(** C8, as the code has it.  In both stand-alone servers a handshake on
    [/ws] whose code is absent, empty or not registered ends with the socket
    destroyed before the upgrade: no message is written and the registry is
    as before.  The connection listener, when it does run for a code that is
    not registered, writes the error "Room not found" and then closes the
    connection.  The service answers a join frame for such a code with the
    error "Room not found or inactive." and leaves the connection open. *)
Theorem join_unknown_code_destroyed_at_handshake
    (e : Env) (s : Sys) (rooms : gmap string Room) (socket : WebSocket)
    (code userIdParam : option string)
    (Hcode : match code with
             | Some c => c = "" \/ rooms !! c = None
             | None => True
             end) :
  Expiring.upgrade rooms socket "/ws" code userIdParam e s
    = (rooms, advance 0 0 [Destroy socket] s)
  /\ Persistent.upgrade rooms socket "/ws" code userIdParam e s
    = (rooms, advance 0 0 [Destroy socket] s)
  /\ (forall roomCode userId, rooms !! roomCode = None ->
      Expiring.connection rooms socket roomCode userId e s
      = (rooms, advance 0 0 [Send socket (errorMsg "Room not found"); Close socket] s)
      /\ Persistent.connection rooms socket roomCode userId e s
      = (rooms, advance 0 0 [Send socket (errorMsg "Room not found"); Close socket] s))
  /\ (forall st payload,
      RoomService.rooms_get st (orUndefined (getProp payload "code")) = None ->
      RoomService.handleJoin socket payload st e s
      = (st, advance 0 0 [Send socket (errorMsg "Room not found or inactive.")] s)).
Proof.
  split; [by apply upgrade_refused|].
  split; [by apply upgrade_refused|].
  split.
  - intros roomCode userId Hnone. split; by apply connection_not_found.
  - intros st payload. apply handleJoin_not_found.
Qed.

Lemma join_unknown_code_destroyed_at_handshake_witness :
  roomsOne !! "9999" = None
  /\ Expiring.upgrade roomsOne 9%nat "/ws" (Some "9999") (Some "u9") env0 sys0
     = (roomsOne, advance 0 0 [Destroy 9%nat] sys0).
Proof.
  assert (Hnone : roomsOne !! "9999" = None) by (by apply lookup_singleton_ne).
  split; [exact Hnone|].
  exact (proj1 (join_unknown_code_destroyed_at_handshake env0 sys0 roomsOne 9%nat
                  (Some "9999") (Some "u9") (or_intror Hnone))).
Defined.

(** ** The message listeners *)

Lemma relay_run type field roomCode userId content logThrows room e s :
  relay type field roomCode userId content logThrows room e s
  = (accepted (Date_clock e (nowReads s))
       (relayed type roomCode userId field content (Date_clock e (S (nowReads s)))) room,
     advance 2 0
       (if logThrows then []
        else map (fun c => Send c (relayed type roomCode userId field content
                                     (Date_clock e (S (nowReads s)))))
                 (recipients e (clients room))) s).
Proof.
  unfold relay. unfold bind at 1. rewrite Date_now_run.
  unfold bind at 1. rewrite Date_now_run. destruct logThrows.
  - unfold ret. rewrite !advance_advance. cbn [advance nowReads].
    by rewrite (Nat.add_1_r (nowReads s)).
  - unfold bind. cbn [pushMessage setLastActive clients]. rewrite broadcast_run.
    unfold ret. rewrite !advance_advance. cbn [advance nowReads].
    by rewrite (Nat.add_1_r (nowReads s)).
Qed.

Lemma relay_sent type field roomCode userId content room e s :
  relay type field roomCode userId content false room e s
  = (accepted (Date_clock e (nowReads s))
       (relayed type roomCode userId field content (Date_clock e (S (nowReads s)))) room,
     advance 2 0
       (map (fun c => Send c (relayed type roomCode userId field content
                                (Date_clock e (S (nowReads s)))))
            (recipients e (clients room))) s).
Proof. apply relay_run. Qed.

Lemma Expiring_onMessage_chat roomCode userId room payload message e s :
  getProp payload "type" = Some (VStr "chat") ->
  getProp payload "message" = Some message ->
  truthy message = true ->
  Expiring.onMessage roomCode userId room (Parsed payload) e s
  = relay "chat" "message" roomCode userId message (toStringThrows message) room e s.
Proof.
  intros Htype Hmessage Htruthy. unfold Expiring.onMessage.
  by rewrite Htype, Hmessage, Htruthy.
Qed.

Lemma Persistent_onMessage_chat roomCode userId room payload message e s :
  getProp payload "type" = Some (VStr "chat") ->
  getProp payload "message" = Some message ->
  truthy message = true ->
  Persistent.onMessage roomCode userId room (Parsed payload) e s
  = relay "chat" "message" roomCode userId message (toStringThrows message) room e s.
Proof.
  intros Htype Hmessage Htruthy. unfold Persistent.onMessage.
  rewrite Htype, Hmessage, Htruthy.
  destruct payload; try discriminate. done.
Qed.

Lemma Persistent_onMessage_image roomCode userId room payload image e s :
  getProp payload "type" = Some (VStr "image") ->
  getProp payload "image" = Some image ->
  truthy image = true ->
  Persistent.onMessage roomCode userId room (Parsed payload) e s
  = relay "image" "image" roomCode userId image false room e s.
Proof.
  intros Htype Himage Htruthy. unfold Persistent.onMessage.
  rewrite Htype, Himage, Htruthy.
  destruct payload; try discriminate; done.
Qed.

(** The listener of the server with a TTL reads [type] and [message] only,
    and that of the other server [type], [message] and [image] only. *)
Lemma Expiring_onMessage_reads roomCode userId room p q e s :
  getProp p "type" = getProp q "type" ->
  getProp p "message" = getProp q "message" ->
  Expiring.onMessage roomCode userId room (Parsed p) e s
  = Expiring.onMessage roomCode userId room (Parsed q) e s.
Proof. intros Htype Hmessage. unfold Expiring.onMessage. by rewrite Htype, Hmessage. Qed.

Lemma Persistent_onMessage_reads roomCode userId room p q e s :
  getProp p "type" = getProp q "type" ->
  getProp p "message" = getProp q "message" ->
  getProp p "image" = getProp q "image" ->
  Persistent.onMessage roomCode userId room (Parsed p) e s
  = Persistent.onMessage roomCode userId room (Parsed q) e s.
Proof.
  intros Htype Hmessage Himage. unfold Persistent.onMessage.
  by rewrite Htype, Hmessage, Himage.
Qed.

Lemma truthy_nonempty m : m <> "" -> truthy (VStr m) = true.
Proof. intros Hm. cbn [truthy]. by rewrite (proj2 (String.eqb_neq _ _) Hm). Qed.

Lemma handleChat_member ws payload st c room e s :
  getProp payload "code" = Some (VStr c) ->
  RoomService.rooms st !! c = Some room ->
  RoomService.status room = RoomService.active ->
  fst <$> RoomService.meta st !! ws = Some (VStr c) ->
  RoomService.handleChat ws payload st e s
  = (RoomService.setRooms
       (<[c := RoomService.setLastActive (Date_clock e (nowReads s)) room]>
          (RoomService.rooms st)) st,
     advance 2 0
       (map (fun client =>
               Send client
                 (VObj [("type", VStr "chat");
                        ("userId", orUndefined (getProp payload "userId"));
                        ("message", orUndefined (getProp payload "message"));
                        ("ts", VNum (Date_clock e (S (nowReads s))))]))
            (recipients e (RoomService.clients room))) s).
Proof.
  intros Hcode Hroom Hactive Hmeta. unfold RoomService.handleChat.
  rewrite Hcode. cbn [orUndefined RoomService.rooms_get]. rewrite Hroom, Hactive.
  rewrite bool_decide_eq_true_2 by done. cbn [negb]. rewrite Hmeta.
  cbn [orUndefined]. unfold RoomService.differs. cbn [isStr].
  rewrite String.eqb_refl. cbn [negb].
  unfold bind at 1. rewrite Date_now_run.
  unfold bind at 1. rewrite Date_now_run.
  unfold bind. cbn [RoomService.setLastActive RoomService.clients].
  rewrite broadcast_run. unfold ret. rewrite !advance_advance.
  cbn [advance nowReads]. by rewrite (Nat.add_1_r (nowReads s)).
Qed.

Lemma RoomService_onMessage_chat ws payload st e s :
  getProp payload "type" = Some (VStr "chat") ->
  RoomService.onMessage ws (Parsed payload) st e s
  = RoomService.handleChat ws payload st e s.
Proof. intros Htype. unfold RoomService.onMessage. by rewrite Htype. Qed.

(** ** C5: chat frames *)

(** C5 fails on the service: a chat frame "hi" of member 1 of room "4821"
    is broadcast as a record of four fields, without [code], and the
    service has no log to append it to. *)
Lemma handleChat_record_has_no_code :
  exists record,
    out (snd (RoomService.onMessage 1%nat (Parsed (chatFrame "hi")) serviceOne env0 sys0))
    = [Send 1%nat record; Send 2%nat record]
    /\ record = VObj [("type", VStr "chat"); ("userId", VStr "u1");
                      ("message", VStr "hi"); ("ts", VNum 1700000000001)]
    /\ record <> relayed "chat" "4821" "u1" "message" (VStr "hi") 1700000000001.
Proof.
  eexists. split; [|split; [reflexivity|discriminate]].
  rewrite RoomService_onMessage_chat by reflexivity.
  rewrite (handleChat_member 1%nat (chatFrame "hi") serviceOne "4821" _ env0 sys0
             eq_refl (lookup_singleton_eq _ _) eq_refl).
  - reflexivity.
  - unfold serviceOne. cbn [RoomService.meta]. by rewrite lookup_insert_eq.
Qed.

(** C5, as the code has it.  In both stand-alone servers a chat frame
    with a non-empty [message] string, received on a connection that joined
    [room] as [userId] under [roomCode], sets [lastActive] to the clock,
    appends the record [{type: "chat", code, userId, message, ts}] to the
    log, [ts] being the next clock reading, and writes that record to every
    member of the room whose connection is open, in particular to the
    sender when it is.  The service keeps no log: for a chat frame of a
    member of an active room it sets [lastActive] and writes
    [{type: "chat", userId, message, ts}], with [userId] and [message] as
    the frame has them, to every member whose connection is open. *)
Theorem chat_stamped_logged_and_broadcast
    (e : Env) (s : Sys) (payload : value) (m : string)
    (Htype : getProp payload "type" = Some (VStr "chat"))
    (Hmessage : getProp payload "message" = Some (VStr m))
    (Hnonempty : m <> "") :
  (forall roomCode userId room,
     let record := VObj [("type", VStr "chat"); ("code", VStr roomCode);
                         ("userId", VStr userId); ("message", VStr m);
                         ("ts", VNum (Date_clock e (S (nowReads s))))] in
     let after := ({| clients := clients room;
                      lastActive := Date_clock e (nowReads s);
                      messages := messages room ++ [record] |},
                   advance 2 0 (map (fun c => Send c record)
                                    (recipients e (clients room))) s) in
     Expiring.onMessage roomCode userId room (Parsed payload) e s = after
     /\ Persistent.onMessage roomCode userId room (Parsed payload) e s = after
     /\ (forall ws, ws ∈ clients room -> readyState e ws = OPEN ->
         Send ws record ∈ map (fun c => Send c record) (recipients e (clients room))))
  /\ (forall ws st c room,
     getProp payload "code" = Some (VStr c) ->
     RoomService.rooms st !! c = Some room ->
     RoomService.status room = RoomService.active ->
     fst <$> RoomService.meta st !! ws = Some (VStr c) ->
     RoomService.onMessage ws (Parsed payload) st e s
     = (RoomService.setRooms
          (<[c := RoomService.setLastActive (Date_clock e (nowReads s)) room]>
             (RoomService.rooms st)) st,
        advance 2 0
          (map (fun client =>
                  Send client
                    (VObj [("type", VStr "chat");
                           ("userId", orUndefined (getProp payload "userId"));
                           ("message", VStr m);
                           ("ts", VNum (Date_clock e (S (nowReads s))))]))
               (recipients e (RoomService.clients room))) s)).
Proof.
  split.
  - intros roomCode userId room record after. split; [|split].
    + rewrite (Expiring_onMessage_chat _ _ _ _ _ _ _ Htype Hmessage (truthy_nonempty _ Hnonempty)).
      apply relay_sent.
    + rewrite (Persistent_onMessage_chat _ _ _ _ _ _ _ Htype Hmessage (truthy_nonempty _ Hnonempty)).
      apply relay_sent.
    + intros ws Hin Hopen. apply list_elem_of_fmap. exists ws. split; [done|].
      unfold recipients. by apply list_elem_of_filter.
  - intros ws st c room Hcode Hroom Hactive Hmeta.
    rewrite (RoomService_onMessage_chat _ _ _ _ _ Htype).
    rewrite (handleChat_member _ _ _ _ _ _ _ Hcode Hroom Hactive Hmeta).
    by rewrite Hmessage.
Qed.

Lemma chat_stamped_logged_and_broadcast_witness :
  getProp (chatFrame "hi") "type" = Some (VStr "chat")
  /\ getProp (chatFrame "hi") "message" = Some (VStr "hi")
  /\ "hi" <> ""
  /\ Expiring.onMessage "4821" "u1" roomHi (Parsed (chatFrame "hi")) env0 sys0
     = ({| clients := [1%nat]; lastActive := 1700000000000;
           messages := [chatHi;
                        VObj [("type", VStr "chat"); ("code", VStr "4821");
                              ("userId", VStr "u1"); ("message", VStr "hi");
                              ("ts", VNum 1700000000001)]] |},
        advance 2 0
          [Send 1%nat (VObj [("type", VStr "chat"); ("code", VStr "4821");
                             ("userId", VStr "u1"); ("message", VStr "hi");
                             ("ts", VNum 1700000000001)])] sys0).
Proof.
  assert (Hne : "hi" <> "") by discriminate.
  split; [reflexivity|]. split; [reflexivity|]. split; [exact Hne|].
  exact (proj1 (proj1 (chat_stamped_logged_and_broadcast env0 sys0 (chatFrame "hi") "hi"
                         eq_refl eq_refl Hne) "4821" "u1" roomHi)).
Defined.

(** ** C6: image frames *)

Lemma Expiring_onMessage_not_chat roomCode userId room payload type e s :
  getProp payload "type" = Some type ->
  isStr type "chat" = false ->
  Expiring.onMessage roomCode userId room (Parsed payload) e s = (room, s).
Proof.
  intros Htype Hnot. unfold Expiring.onMessage. rewrite Htype, Hnot.
  by destruct (getProp payload "message").
Qed.

Lemma RoomService_onMessage_other ws payload type st e s :
  getProp payload "type" = Some type ->
  isStr type "join" = false ->
  isStr type "chat" = false ->
  RoomService.onMessage ws (Parsed payload) st e s = (st, s).
Proof.
  intros Htype Hjoin Hchat. unfold RoomService.onMessage.
  by rewrite Htype, Hjoin, Hchat.
Qed.

(** C6 fails on the server with a TTL: an image frame of a member of room
    "4821" changes nothing and is sent to nobody. *)
Lemma image_frame_dropped_by_expiring_server :
  getProp imageFrame "image" = Some (VStr "data:image/png;base64,iVBORw0KGgo=")
  /\ Expiring.onMessage "4821" "u1" roomHi (Parsed imageFrame) env0 sys0 = (roomHi, sys0).
Proof.
  split; [reflexivity|].
  by apply Expiring_onMessage_not_chat with (VStr "image").
Qed.

(** C6, as the code has it.  In the server whose rooms never expire an
    image frame with a non-empty [image] string is handled as a chat frame
    is, with [type: "image"] and the field [image]: [lastActive] is set, the
    record [{type: "image", code, userId, image, ts}] is appended to the log
    and written to every member whose connection is open.  The server with a
    TTL and the service have no image handling: there the frame changes
    nothing and nothing is written. *)
Theorem image_relayed_by_persistent_server_only
    (e : Env) (s : Sys) (payload : value) (img : string)
    (Htype : getProp payload "type" = Some (VStr "image"))
    (Himage : getProp payload "image" = Some (VStr img))
    (Hnonempty : img <> "") :
  (forall roomCode userId room,
     let record := VObj [("type", VStr "image"); ("code", VStr roomCode);
                         ("userId", VStr userId); ("image", VStr img);
                         ("ts", VNum (Date_clock e (S (nowReads s))))] in
     Persistent.onMessage roomCode userId room (Parsed payload) e s
     = ({| clients := clients room;
           lastActive := Date_clock e (nowReads s);
           messages := messages room ++ [record] |},
        advance 2 0 (map (fun c => Send c record) (recipients e (clients room))) s)
     /\ Expiring.onMessage roomCode userId room (Parsed payload) e s = (room, s))
  /\ (forall ws st, RoomService.onMessage ws (Parsed payload) st e s = (st, s)).
Proof.
  split.
  - intros roomCode userId room record. split.
    + rewrite (Persistent_onMessage_image _ _ _ _ _ _ _ Htype Himage (truthy_nonempty _ Hnonempty)).
      apply relay_sent.
    + by apply Expiring_onMessage_not_chat with (VStr "image").
  - intros ws st. by apply RoomService_onMessage_other with (VStr "image").
Qed.

Lemma image_relayed_by_persistent_server_only_witness :
  getProp imageFrame "type" = Some (VStr "image")
  /\ getProp imageFrame "image" = Some (VStr "data:image/png;base64,iVBORw0KGgo=")
  /\ "data:image/png;base64,iVBORw0KGgo=" <> ""
  /\ Persistent.onMessage "0000" "u1" roomZero (Parsed imageFrame) env0 sys0
     = (accepted 1700000000000
          (relayed "image" "0000" "u1" "image"
             (VStr "data:image/png;base64,iVBORw0KGgo=") 1700000000001) roomZero,
        advance 2 0
          (map (fun c => Send c (relayed "image" "0000" "u1" "image"
                                   (VStr "data:image/png;base64,iVBORw0KGgo=")
                                   1700000000001)) [1%nat; 2%nat]) sys0).
Proof.
  assert (Hne : "data:image/png;base64,iVBORw0KGgo=" <> "") by discriminate.
  split; [reflexivity|]. split; [reflexivity|]. split; [exact Hne|].
  exact (proj1 (proj1 (image_relayed_by_persistent_server_only env0 sys0 imageFrame _
                         eq_refl eq_refl Hne) "0000" "u1" roomZero)).
Defined.

(** ** C7: frames that are not accepted *)

Lemma Persistent_onMessage_unknown roomCode userId room payload type e s :
  getProp payload "type" = Some type ->
  isStr type "chat" = false ->
  isStr type "image" = false ->
  Persistent.onMessage roomCode userId room (Parsed payload) e s = (room, s).
Proof.
  intros Htype Hchat Himage. unfold Persistent.onMessage.
  rewrite Htype, Hchat, Himage.
  destruct (getProp payload "message"), (getProp payload "image"); try done.
  by destruct (isStr type "join").
Qed.

Lemma Expiring_onMessage_falsy roomCode userId room payload e s :
  truthy (orUndefined (getProp payload "message")) = false ->
  Expiring.onMessage roomCode userId room (Parsed payload) e s = (room, s).
Proof.
  intros Hfalsy. unfold Expiring.onMessage.
  destruct (getProp payload "type") as [type|]; [|done].
  destruct (getProp payload "message") as [message|]; [|done].
  cbn [orUndefined] in Hfalsy. by rewrite Hfalsy, andb_false_r.
Qed.

Lemma Persistent_onMessage_falsy roomCode userId room payload e s :
  getProp payload "type" = Some (VStr "chat") ->
  truthy (orUndefined (getProp payload "message")) = false ->
  Persistent.onMessage roomCode userId room (Parsed payload) e s = (room, s).
Proof.
  intros Htype Hfalsy. unfold Persistent.onMessage. rewrite Htype.
  destruct (getProp payload "message") as [message|]; [|done].
  destruct (getProp payload "image") as [image|]; [|done].
  cbn [orUndefined] in Hfalsy. by rewrite Hfalsy.
Qed.

Lemma Persistent_onMessage_image_falsy roomCode userId room payload e s :
  getProp payload "type" = Some (VStr "image") ->
  truthy (orUndefined (getProp payload "image")) = false ->
  Persistent.onMessage roomCode userId room (Parsed payload) e s = (room, s).
Proof.
  intros Htype Hfalsy. unfold Persistent.onMessage. rewrite Htype.
  destruct (getProp payload "message") as [message|]; [|done].
  destruct (getProp payload "image") as [image|]; [|done].
  cbn [orUndefined] in Hfalsy. by rewrite Hfalsy.
Qed.

(** C7 fails on the service: a chat frame with an empty [message], sent by
    member 1 of room "4821", is broadcast to both members and moves
    [lastActive] of the room. *)
Lemma empty_chat_frame_relayed_by_service :
  exists st',
    RoomService.onMessage 1%nat (Parsed (chatFrame "")) serviceOne env0 sys0
    = (st', advance 2 0
              (map (fun c => Send c (VObj [("type", VStr "chat"); ("userId", VStr "u1");
                                           ("message", VStr "");
                                           ("ts", VNum 1700000000001)]))
                   [1%nat; 2%nat]) sys0)
    /\ RoomService.lastActive <$> RoomService.rooms serviceOne !! "4821"
       = Some 1699999990000
    /\ RoomService.lastActive <$> RoomService.rooms st' !! "4821"
       = Some 1700000000000.
Proof.
  eexists. rewrite RoomService_onMessage_chat by reflexivity.
  rewrite (handleChat_member 1%nat (chatFrame "") serviceOne "4821" _ env0 sys0
             eq_refl (lookup_singleton_eq _ _) eq_refl).
  - split; [reflexivity|]. split.
    + unfold serviceOne. cbn [RoomService.rooms]. by rewrite lookup_singleton_eq.
    + cbn [RoomService.setRooms RoomService.rooms]. by rewrite lookup_insert_eq.
  - unfold serviceOne. cbn [RoomService.meta]. by rewrite lookup_insert_eq.
Qed.

(** C7, as the code has it.  In both stand-alone servers a frame that
    cannot be parsed, a frame that parses to [null], a frame of a type the
    server does not relay, a chat frame whose [message] is empty or absent
    and an image frame whose [image] is empty or absent leave the room as it
    is, read no clock and write nothing: no
    broadcast, no error reply, no change of the log or of any other field.
    The service ignores, in the same sense, a frame that cannot be parsed,
    one that parses to [null] and one whose type is neither [join] nor
    [chat]. *)
Theorem malformed_frame_ignored (e : Env) (s : Sys) :
  (forall roomCode userId room,
     Expiring.onMessage roomCode userId room Unparseable e s = (room, s)
     /\ Persistent.onMessage roomCode userId room Unparseable e s = (room, s)
     /\ (forall payload, getProp payload "type" = None ->
         Expiring.onMessage roomCode userId room (Parsed payload) e s = (room, s)
         /\ Persistent.onMessage roomCode userId room (Parsed payload) e s = (room, s))
     /\ (forall payload type, getProp payload "type" = Some type ->
         isStr type "chat" = false ->
         Expiring.onMessage roomCode userId room (Parsed payload) e s = (room, s))
     /\ (forall payload type, getProp payload "type" = Some type ->
         isStr type "chat" = false -> isStr type "image" = false ->
         Persistent.onMessage roomCode userId room (Parsed payload) e s = (room, s))
     /\ (forall payload, getProp payload "type" = Some (VStr "chat") ->
         truthy (orUndefined (getProp payload "message")) = false ->
         Expiring.onMessage roomCode userId room (Parsed payload) e s = (room, s)
         /\ Persistent.onMessage roomCode userId room (Parsed payload) e s = (room, s))
     /\ (forall payload, getProp payload "type" = Some (VStr "image") ->
         truthy (orUndefined (getProp payload "image")) = false ->
         Persistent.onMessage roomCode userId room (Parsed payload) e s = (room, s)))
  /\ (forall ws st,
     RoomService.onMessage ws Unparseable st e s = (st, s)
     /\ (forall payload, getProp payload "type" = None ->
         RoomService.onMessage ws (Parsed payload) st e s = (st, s))
     /\ (forall payload type, getProp payload "type" = Some type ->
         isStr type "join" = false -> isStr type "chat" = false ->
         RoomService.onMessage ws (Parsed payload) st e s = (st, s))).
Proof.
  split.
  - intros roomCode userId room. split; [done|]. split; [done|].
    split; [|split; [|split; [|split]]].
    + intros payload Hnull. unfold Expiring.onMessage, Persistent.onMessage.
      by rewrite Hnull.
    + intros payload type. apply Expiring_onMessage_not_chat.
    + intros payload type. apply Persistent_onMessage_unknown.
    + intros payload Htype Hfalsy. split.
      * by apply Expiring_onMessage_falsy.
      * by apply Persistent_onMessage_falsy.
    + intros payload. apply Persistent_onMessage_image_falsy.
  - intros ws st. split; [done|]. split.
    + intros payload Hnull. unfold RoomService.onMessage. by rewrite Hnull.
    + intros payload type. apply RoomService_onMessage_other.
Qed.

Lemma malformed_frame_ignored_witness :
  getProp (chatFrame "") "type" = Some (VStr "chat")
  /\ truthy (orUndefined (getProp (chatFrame "") "message")) = false
  /\ Expiring.onMessage "4821" "u1" roomHi (Parsed (chatFrame "")) env0 sys0 = (roomHi, sys0)
  /\ Persistent.onMessage "4821" "u1" roomHi (Parsed (chatFrame "")) env0 sys0 = (roomHi, sys0).
Proof.
  split; [reflexivity|]. split; [reflexivity|].
  destruct (proj1 (malformed_frame_ignored env0 sys0) "4821" "u1" roomHi)
    as (_ & _ & _ & _ & _ & Hfalsy & _).
  exact (Hfalsy (chatFrame "") eq_refl eq_refl).
Defined.

(** ** C9: the identity of a record *)

(** What a listener of the stand-alone servers can do to its room: nothing,
    or accept one record whose [code] and [userId] are those the listener
    was installed with. *)
Lemma Expiring_onMessage_shape roomCode userId room data e s :
  Expiring.onMessage roomCode userId room data e s = (room, s)
  \/ exists content,
      Expiring.onMessage roomCode userId room data e s
      = relay "chat" "message" roomCode userId content (toStringThrows content) room e s.
Proof.
  unfold Expiring.onMessage. destruct data as [|payload]; [by left|].
  destruct (getProp payload "type") as [type|]; [|by left].
  destruct (getProp payload "message") as [message|]; [|by left].
  destruct (isStr type "chat" && truthy message); [right; eauto|by left].
Qed.

Lemma Persistent_onMessage_shape roomCode userId room data e s :
  Persistent.onMessage roomCode userId room data e s = (room, s)
  \/ (exists content,
      Persistent.onMessage roomCode userId room data e s
      = relay "chat" "message" roomCode userId content (toStringThrows content) room e s)
  \/ (exists content,
      Persistent.onMessage roomCode userId room data e s
      = relay "image" "image" roomCode userId content false room e s).
Proof.
  unfold Persistent.onMessage. destruct data as [|payload]; [by left|].
  destruct (getProp payload "type") as [type|]; [|by left].
  destruct (getProp payload "message") as [message|]; [|by left].
  destruct (getProp payload "image") as [image|]; [|by left].
  destruct (isStr type "join"); [by left|].
  destruct (isStr type "chat" && truthy message); [right; left; eauto|].
  destruct (isStr type "image" && truthy image); [right; right; eauto|by left].
Qed.

Lemma getProp_agree (f1 f2 : list (string * value)) k :
  assoc k f1 = assoc k f2 -> getProp (VObj f1) k = getProp (VObj f2) k.
Proof. intros Hk. cbn [getProp]. by rewrite Hk. Qed.

(** A handshake that leaves listeners registered on the socket registered
    them for the code and the user of the request. *)
Lemma onUpgrade_registered seats rooms socket request rooms' roomCode userId e s s' :
  onUpgrade seats rooms socket request e s
  = (Returned (rooms', Some (roomCode, userId)), s') ->
  exists userIdParam,
    parsedUrl request = Some ("/ws", Some roomCode, userIdParam)
    /\ userId = handshakeUserId e userIdParam
    /\ handshakes request = true
    /\ registers seats rooms roomCode = true.
Proof.
  unfold onUpgrade. destruct (parsedUrl request) as [[[pathname code] userIdParam]|];
    [|discriminate].
  destruct (String.eqb_spec pathname "/ws") as [->|Hpath]; cbn [negb].
  2: { unfold bind, socket_destroy. rewrite emit_run. discriminate. }
  unfold bind at 1. rewrite upgrade_userId.
  assert (Hdestroy : (socket_destroy socket ;; ret (Returned (rooms, None))) e s
                     = (Returned (rooms, @None (string * string)), advance 0 0 [Destroy socket] s)).
  { unfold bind, socket_destroy. by rewrite emit_run. }
  destruct code as [c|]; [|rewrite Hdestroy; discriminate].
  destruct (negb (String.eqb c "") && validate rooms c); [|rewrite Hdestroy; discriminate].
  destruct (handshakes request) eqn:Hhandshake; [|discriminate].
  unfold bind. destruct (connection seats rooms socket c _ e s) as [rooms1 s1].
  destruct (registers seats rooms c) eqn:Hregisters; [|discriminate].
  intros [= <- <- <- <-]. by exists userIdParam.
Qed.

(** C9.  In both stand-alone servers, whenever a handshake has left a
    [message] listener registered on a socket, the [roomCode] and [userId]
    that listener closes over are the code of the request and the identity
    of the handshake (its [userId] parameter, or a random token when that is
    absent or empty).  The listener treats alike two frames whose objects
    differ in [userId], [code] and [ts] only: the room after, the clock
    readings and every message written are the same.  Whatever the frame,
    it either does nothing or pushes on the log one chat (or, in the server
    whose rooms never expire, image) record whose [code] and [userId] are
    those of the handshake, and broadcasts that same record to the members
    that are open; or, for a chat whose [message] cannot be converted to a
    string (an object with a [toString] property of its own, or an array
    with such an element), broadcasts nothing. *)
Theorem record_identity_is_that_of_the_handshake (e : Env) :
  (forall rooms socket request rooms' roomCode userId s0 s1,
     onUpgrade Expiring.seats rooms socket request e s0
     = (Returned (rooms', Some (roomCode, userId)), s1) ->
     (exists userIdParam,
        parsedUrl request = Some ("/ws", Some roomCode, userIdParam)
        /\ userId = handshakeUserId e userIdParam)
     /\ (forall room f1 f2 e' s,
         (forall k, k <> "userId" -> k <> "code" -> k <> "ts" ->
                    assoc k f1 = assoc k f2) ->
         Expiring.onMessage roomCode userId room (Parsed (VObj f1)) e' s
         = Expiring.onMessage roomCode userId room (Parsed (VObj f2)) e' s)
     /\ (forall room data e' s,
         Expiring.onMessage roomCode userId room data e' s = (room, s)
         \/ exists content,
             let record := VObj [("type", VStr "chat"); ("code", VStr roomCode);
                                 ("userId", VStr userId); ("message", content);
                                 ("ts", VNum (Date_clock e' (S (nowReads s))))] in
             let silent := match content with
                           | VObj fields => bool_decide (is_Some (assoc "toString" fields))
                           | VArr items => existsb toStringThrows items
                           | _ => false
                           end in
             Expiring.onMessage roomCode userId room data e' s
             = ({| clients := clients room;
                   lastActive := Date_clock e' (nowReads s);
                   messages := messages room ++ [record] |},
                advance 2 0
                  (if silent then []
                   else map (fun c => Send c record)
                            (filter (fun c => readyState e' c = OPEN) (clients room))) s)))
  /\ (forall rooms socket request rooms' roomCode userId s0 s1,
     onUpgrade Persistent.seats rooms socket request e s0
     = (Returned (rooms', Some (roomCode, userId)), s1) ->
     (exists userIdParam,
        parsedUrl request = Some ("/ws", Some roomCode, userIdParam)
        /\ userId = handshakeUserId e userIdParam)
     /\ (forall room f1 f2 e' s,
         (forall k, k <> "userId" -> k <> "code" -> k <> "ts" ->
                    assoc k f1 = assoc k f2) ->
         Persistent.onMessage roomCode userId room (Parsed (VObj f1)) e' s
         = Persistent.onMessage roomCode userId room (Parsed (VObj f2)) e' s)
     /\ (forall room data e' s,
         Persistent.onMessage roomCode userId room data e' s = (room, s)
         \/ exists type field content silent,
             let record := VObj [("type", VStr type); ("code", VStr roomCode);
                                 ("userId", VStr userId); (field, content);
                                 ("ts", VNum (Date_clock e' (S (nowReads s))))] in
             (type = "chat" /\ field = "message"
              /\ silent = match content with
                          | VObj fields => bool_decide (is_Some (assoc "toString" fields))
                          | VArr items => existsb toStringThrows items
                          | _ => false
                          end
              \/ type = "image" /\ field = "image" /\ silent = false)
             /\ Persistent.onMessage roomCode userId room data e' s
                = ({| clients := clients room;
                      lastActive := Date_clock e' (nowReads s);
                      messages := messages room ++ [record] |},
                   advance 2 0
                     (if silent then []
                      else map (fun c => Send c record)
                               (filter (fun c => readyState e' c = OPEN) (clients room))) s))).
Proof.
  assert (Hagree : forall (f1 f2 : list (string * value)),
    (forall k, k <> "userId" -> k <> "code" -> k <> "ts" -> assoc k f1 = assoc k f2) ->
    getProp (VObj f1) "type" = getProp (VObj f2) "type"
    /\ getProp (VObj f1) "message" = getProp (VObj f2) "message"
    /\ getProp (VObj f1) "image" = getProp (VObj f2) "image").
  { intros f1 f2 Hsame. repeat split; apply getProp_agree, Hsame; discriminate. }
  assert (Hsilent : forall content,
    toStringThrows content
    = match content with
      | VObj fields => bool_decide (is_Some (assoc "toString" fields))
      | VArr items => existsb toStringThrows items
      | _ => false
      end).
  { intros [| | | | | |fields]; try reflexivity. cbn [toStringThrows].
    destruct (assoc "toString" fields); [by rewrite bool_decide_eq_true_2|].
    rewrite bool_decide_eq_false_2; [done|]. by intros [? ?]. }
  split.
  - intros rooms socket request rooms' roomCode userId s0 s1 Hhandshake.
    apply onUpgrade_registered in Hhandshake as (userIdParam & Hurl & Huser & _ & _).
    split; [by exists userIdParam|]. split.
    + intros room f1 f2 e' s Hsame. destruct (Hagree f1 f2 Hsame) as (Ht & Hm & _).
      by apply Expiring_onMessage_reads.
    + intros room data e' s.
      destruct (Expiring_onMessage_shape roomCode userId room data e' s)
        as [Hnone|[content Hrelay]]; [by left|].
      right. exists content. cbn zeta. rewrite Hrelay, relay_run, Hsilent. reflexivity.
  - intros rooms socket request rooms' roomCode userId s0 s1 Hhandshake.
    apply onUpgrade_registered in Hhandshake as (userIdParam & Hurl & Huser & _ & _).
    split; [by exists userIdParam|]. split.
    + intros room f1 f2 e' s Hsame. destruct (Hagree f1 f2 Hsame) as (Ht & Hm & Hi).
      by apply Persistent_onMessage_reads.
    + intros room data e' s.
      destruct (Persistent_onMessage_shape roomCode userId room data e' s)
        as [Hnone|[[content Hrelay]|[content Hrelay]]]; [by left| |].
      * right. exists "chat", "message", content, (toStringThrows content). cbn zeta.
        split; [left; by rewrite Hsilent|]. rewrite Hrelay. apply relay_run.
      * right. exists "image", "image", content, false. cbn zeta.
        split; [by right|]. rewrite Hrelay. apply relay_run.
Qed.

Lemma requestJoin_registers :
  exists rooms' s1,
    onUpgrade Expiring.seats roomsOne 2%nat requestJoin env0 sys0
    = (Returned (rooms', Some ("4821", "u2")), s1).
Proof.
  unfold onUpgrade, requestJoin. cbn [parsedUrl handshakes String.eqb Ascii.eqb Bool.eqb negb].
  unfold bind at 1. cbn [ret]. unfold validate, Map_has, registers.
  replace (roomsOne !! "4821") with (Some roomHi) by (symmetry; apply lookup_singleton_eq).
  rewrite bool_decide_eq_true_2 by eauto. cbn [andb].
  unfold bind. destruct (connection Expiring.seats roomsOne 2%nat "4821" "u2" env0 sys0)
    as [rooms' s1]. by exists rooms', s1.
Qed.

Lemma record_identity_is_that_of_the_handshake_witness :
  (exists rooms' s1,
     onUpgrade Expiring.seats roomsOne 2%nat requestJoin env0 sys0
     = (Returned (rooms', Some ("4821", "u2")), s1))
  /\ (forall k, k <> "userId" -> k <> "code" -> k <> "ts" ->
                assoc k plainFrame = assoc k forgedFrame)
  /\ "u2" = handshakeUserId env0 (Some "u2")
  /\ Expiring.onMessage "4821" "u2" roomZero (Parsed (VObj plainFrame)) env0 sys0
     = Expiring.onMessage "4821" "u2" roomZero (Parsed (VObj forgedFrame)) env0 sys0.
Proof.
  assert (Hsame : forall k, k <> "userId" -> k <> "code" -> k <> "ts" ->
                            assoc k plainFrame = assoc k forgedFrame).
  { intros k Huser Hcode Hts. unfold plainFrame, forgedFrame. cbn [assoc].
    rewrite (proj2 (String.eqb_neq k "userId") Huser).
    rewrite (proj2 (String.eqb_neq k "code") Hcode).
    rewrite (proj2 (String.eqb_neq k "ts") Hts).
    destruct (String.eqb k "type"); [reflexivity|].
    destruct (String.eqb k "message"); reflexivity. }
  split; [exact requestJoin_registers|]. split; [exact Hsame|]. split; [reflexivity|].
  destruct requestJoin_registers as (rooms' & s1 & Hhandshake).
  exact (proj1 (proj2 (proj1 (record_identity_is_that_of_the_handshake env0)
                         roomsOne 2%nat requestJoin rooms' "4821" "u2" sys0 s1 Hhandshake))
           roomZero plainFrame forgedFrame env0 sys0 Hsame).
Defined.

(** A chat whose message has an own [toString] is pushed on the log and
    sent to nobody. *)
Example unprintable_chat_is_logged_not_sent :
  Expiring.onMessage "4821" "u1" roomHi (Parsed unprintableFrame) env0 sys0
  = (accepted 1700000000000
       (relayed "chat" "4821" "u1" "message" (VObj [("toString", VNum 1)]) 1700000000001)
       roomHi,
     advance 2 0 [] sys0).
Proof.
  rewrite (Expiring_onMessage_chat "4821" "u1" roomHi unprintableFrame
             (VObj [("toString", VNum 1)])) by reflexivity.
  apply relay_run.
Qed.

(** The forged frame is logged and broadcast under the identity of the
    handshake, "u1", not under the "u2" it carries. *)
Example forged_frame_keeps_handshake_identity :
  Persistent.onMessage "0000" "u1" roomZero (Parsed (VObj forgedFrame)) env0 sys0
  = (accepted 1700000000000
       (relayed "chat" "0000" "u1" "message" (VStr "hi") 1700000000001) roomZero,
     advance 2 0
       (map (fun c => Send c (relayed "chat" "0000" "u1" "message" (VStr "hi")
                                1700000000001)) [1%nat; 2%nat]) sys0).
Proof.
  rewrite (Persistent_onMessage_chat "0000" "u1" roomZero (VObj forgedFrame) (VStr "hi"))
    by reflexivity.
  apply relay_sent.
Qed.

(** * Further properties of the code *)

(** ** The HTTP control plane *)

Lemma stripPrefix_app p s : stripPrefix p (p ++ s) = Some s.
Proof.
  induction p as [|a p IH]; [by destruct s|].
  simpl. by rewrite Ascii.eqb_refl.
Qed.

Lemma matchRoomUrl_room c :
  matchRoomUrl ("/api/rooms/" ++ c) = if isCode4 c then Some c else None.
Proof. unfold matchRoomUrl. by rewrite stripPrefix_app. Qed.

Lemma ExpiringHttp_get fuel rooms c e s :
  ExpiringHttp.onRequest fuel rooms "GET" ("/api/rooms/" ++ c) e s
  = (Some (if isCode4 c
           then json 200 (VObj [("valid", VBool (bool_decide (is_Some (rooms !! c))))])
           else notFound404, rooms), s).
Proof.
  unfold ExpiringHttp.onRequest. cbn [String.eqb Ascii.eqb Bool.eqb andb].
  rewrite matchRoomUrl_room. by destruct (isCode4 c).
Qed.

Lemma PersistentHttp_get rooms c e s :
  PersistentHttp.onRequest rooms "GET" ("/api/rooms/" ++ c) e s
  = (if isCode4 c
     then json 200 (VObj [("valid", VBool (bool_decide (is_Some (rooms !! c))))])
     else notFound404, rooms, s).
Proof.
  unfold PersistentHttp.onRequest. cbn [String.eqb Ascii.eqb Bool.eqb andb].
  rewrite matchRoomUrl_room. by destruct (isCode4 c).
Qed.

(** X1.  A code handed out by [POST /api/rooms/create] is reported valid
    by [GET /api/rooms/<code>] on the registry the creation left, in both
    stand-alone servers: the codes that are generated are exactly of the
    shape the route of the lookup accepts. *)
Theorem http_created_code_is_reported_valid
    (e : Env) (s : Sys) (k : nat) (rooms : gmap string Room)
    (Hrange : forall i, (Math_draws e i < codeSpace)%nat)
    (Hfree : rooms !! codeOf (Math_draws e (rndReads s + k)) = None) :
  (exists code rooms' s',
     ExpiringHttp.onRequest (S k) rooms "POST" "/api/rooms/create" e s
     = (Some (json 200 (VObj [("code", VStr code)]), rooms'), s')
     /\ forall fuel e' s'',
        ExpiringHttp.onRequest fuel rooms' "GET" ("/api/rooms/" ++ code) e' s''
        = (Some (json 200 (VObj [("valid", VBool true)]), rooms'), s''))
  /\ (exists rooms' s',
     PersistentHttp.onRequest rooms "POST" "/api/rooms/create" e s
     = (json 200 (VObj [("code", VStr "0000")]), rooms', s')
     /\ forall e' s'',
        PersistentHttp.onRequest rooms' "GET" "/api/rooms/0000" e' s''
        = (json 200 (VObj [("valid", VBool true)]), rooms', s'')).
Proof.
  split.
  - destruct (Expiring_createCode_finds e rooms k s Hrange Hfree)
      as (code & s' & Hrun & Hcode & Hnone).
    eexists code, _, s'. split.
    + unfold ExpiringHttp.onRequest. cbn [String.eqb Ascii.eqb Bool.eqb andb].
      unfold bind. by rewrite Hrun.
    + intros fuel e' s''. rewrite ExpiringHttp_get, Hcode.
      rewrite bool_decide_eq_true_2; [done|]. rewrite lookup_insert_eq. eauto.
  - assert (Hpost : forall rooms' s', Persistent.createCode rooms e s = ("0000", rooms', s') ->
        PersistentHttp.onRequest rooms "POST" "/api/rooms/create" e s
        = (json 200 (VObj [("code", VStr "0000")]), rooms', s')).
    { intros rooms' s' Hrun. unfold PersistentHttp.onRequest.
      cbn [String.eqb Ascii.eqb Bool.eqb andb]. unfold bind. by rewrite Hrun. }
    assert (Hget : forall rooms' room, rooms' !! "0000" = Some room -> forall e' s'',
        PersistentHttp.onRequest rooms' "GET" "/api/rooms/0000" e' s''
        = (json 200 (VObj [("valid", VBool true)]), rooms', s'')).
    { intros rooms' room Hroom e' s''.
      change "/api/rooms/0000" with ("/api/rooms/" ++ "0000").
      rewrite PersistentHttp_get. cbn [isCode4]. 
      rewrite bool_decide_eq_true_2; [done|]. rewrite Hroom. eauto. }
    destruct (rooms !! "0000") as [room|] eqn:Hroom.
    + exists rooms, s. split.
      * apply Hpost. by apply Persistent_createCode_existing with room.
      * by apply Hget with room.
    + eexists _, _. split.
      * apply Hpost. by apply Persistent_createCode_missing.
      * eapply Hget. apply lookup_insert_eq.
Qed.

Lemma http_created_code_is_reported_valid_witness :
  (forall i, (Math_draws env0 i < codeSpace)%nat)
  /\ roomsOne !! codeOf (Math_draws env0 (rndReads sys0 + 1)) = None
  /\ exists code rooms' s',
     ExpiringHttp.onRequest 2 roomsOne "POST" "/api/rooms/create" env0 sys0
     = (Some (json 200 (VObj [("code", VStr code)]), rooms'), s')
     /\ forall fuel e' s'',
        ExpiringHttp.onRequest fuel rooms' "GET" ("/api/rooms/" ++ code) e' s''
        = (Some (json 200 (VObj [("valid", VBool true)]), rooms'), s'').
Proof.
  assert (Hfree : roomsOne !! codeOf (Math_draws env0 (rndReads sys0 + 1)) = None)
    by (vm_compute; reflexivity).
  split; [exact env0_range|]. split; [exact Hfree|].
  exact (proj1 (http_created_code_is_reported_valid env0 sys0 1 roomsOne env0_range Hfree)).
Defined.

(** X2.  [GET /api/rooms/<c>]: when [c] is four digits the answer is 200
    with [valid] telling whether [c] is registered; for any other [c] (too
    short, too long, not numeric) it is the 404 answer.  Either way the
    registry is as before, the clock is not read and no socket is written
    to. *)
Theorem http_get_reports_registration
    (rooms : gmap string Room) (c : string) (fuel : nat) (e : Env) (s : Sys) :
  ExpiringHttp.onRequest fuel rooms "GET" ("/api/rooms/" ++ c) e s
  = (Some (if isCode4 c
           then json 200 (VObj [("valid", VBool (bool_decide (is_Some (rooms !! c))))])
           else json 404 (VObj [("error", VStr "Not found")]), rooms), s)
  /\ PersistentHttp.onRequest rooms "GET" ("/api/rooms/" ++ c) e s
  = (if isCode4 c
     then json 200 (VObj [("valid", VBool (bool_decide (is_Some (rooms !! c))))])
     else json 404 (VObj [("error", VStr "Not found")]), rooms, s).
Proof. split; [apply ExpiringHttp_get|apply PersistentHttp_get]. Qed.

(** X3.  A request that is not [POST /api/rooms/create] never changes the
    registry, reads no clock, draws no number and writes to no socket, and
    both servers answer it alike; an [OPTIONS] request is answered with
    status 204, the four headers of every answer and no body on the wire,
    whatever its URL, the creation URL included. *)
Theorem http_only_create_changes_registry
    (rooms : gmap string Room) (method url : string) (fuel : nat) (e : Env) (s : Sys)
    (Hother : method <> "POST" \/ url <> "/api/rooms/create") :
  exists response,
    ExpiringHttp.onRequest fuel rooms method url e s = (Some (response, rooms), s)
    /\ PersistentHttp.onRequest rooms method url e s = (response, rooms, s)
    /\ (method = "OPTIONS" ->
        statusCode response = 204%nat
        /\ headers response
           = [("Content-Type", "application/json");
              ("Access-Control-Allow-Origin", "*");
              ("Access-Control-Allow-Methods", "GET,POST,OPTIONS");
              ("Access-Control-Allow-Headers",
               "Content-Type, Accept, ngrok-skip-browser-warning")]
        /\ sentBody method response = None).
Proof.
  unfold ExpiringHttp.onRequest, PersistentHttp.onRequest.
  destruct (String.eqb_spec method "OPTIONS") as [->|Hopt].
  - by exists (json 204 (VObj [])).
  - assert (Hcreate : String.eqb method "POST" && String.eqb url "/api/rooms/create" = false).
    { apply andb_false_iff. destruct Hother as [Hm|Hu]; [left|right];
        by apply String.eqb_neq. }
    rewrite Hcreate. destruct (matchRoomUrl url) as [code|].
    + destruct (String.eqb method "GET"); eexists; by repeat split.
    + eexists; by repeat split.
Qed.

Lemma http_only_create_changes_registry_witness :
  ("OPTIONS" <> "POST" \/ "/api/rooms/create" <> "/api/rooms/create")
  /\ exists response,
    ExpiringHttp.onRequest 5 roomsOne "OPTIONS" "/api/rooms/create" env0 sys0
    = (Some (response, roomsOne), sys0)
    /\ PersistentHttp.onRequest roomsOne "OPTIONS" "/api/rooms/create" env0 sys0
    = (response, roomsOne, sys0)
    /\ ("OPTIONS" = "OPTIONS" ->
        statusCode response = 204%nat
        /\ headers response
           = [("Content-Type", "application/json");
              ("Access-Control-Allow-Origin", "*");
              ("Access-Control-Allow-Methods", "GET,POST,OPTIONS");
              ("Access-Control-Allow-Headers",
               "Content-Type, Accept, ngrok-skip-browser-warning")]
        /\ sentBody "OPTIONS" response = None).
Proof.
  assert (Hother : "OPTIONS" <> "POST" \/ "/api/rooms/create" <> "/api/rooms/create")
    by (left; discriminate).
  split; [exact Hother|].
  exact (http_only_create_changes_registry roomsOne "OPTIONS" "/api/rooms/create" 5
           env0 sys0 Hother).
Defined.

(** ** Leaving a room *)

Lemma Set_delete_add ws s : ws ∉ s -> Set_delete ws (Set_add ws s) = s.
Proof.
  intros Hnin. unfold Set_add, Set_delete. rewrite decide_False by done.
  rewrite filter_app, filter_cons, decide_False, filter_nil, app_nil_r by tauto.
  induction s as [|x s IH]; [done|].
  apply not_elem_of_cons in Hnin as [Hne Hnin].
  rewrite filter_cons, decide_True by done. by rewrite IH.
Qed.

Lemma recipients_Set_delete e ws s :
  recipients e (Set_delete ws s) = Set_delete ws (recipients e s).
Proof.
  unfold recipients, Set_delete. induction s as [|x s IH]; [done|].
  rewrite !filter_cons.
  destruct (decide (x ≠ ws)), (decide (readyState e x = OPEN));
    rewrite ?filter_cons, ?decide_True, ?decide_False by done; by rewrite ?IH.
Qed.

Lemma onClose_run ws room e s :
  onClose ws room e s
  = ({| clients := Set_delete ws (clients room);
        lastActive := Date_clock e (nowReads s);
        messages := messages room |}, advance 1 0 [] s).
Proof. unfold onClose, bind. by rewrite Date_now_run. Qed.

(** X4.  Once the [close] listener of a connection has run, a broadcast
    to its room writes to the open members that remain, in their order, and
    no longer to the closed socket; the log of the room is untouched and
    [lastActive] is the time of the close. *)
Theorem close_takes_socket_out_of_broadcasts
    (ws : WebSocket) (room : Room) (payload : value) (e : Env) (s s1 : Sys) :
  let after := fst (onClose ws room e s) in
  broadcast (clients after) payload e s1
  = (tt, advance 0 0 (map (fun c => Send c payload)
                          (filter (fun c => c ≠ ws) (recipients e (clients room)))) s1)
  /\ received ws (map (fun c => Send c payload) (recipients e (clients after))) = []
  /\ messages after = messages room
  /\ lastActive after = Date_clock e (nowReads s).
Proof.
  intros after. unfold after. rewrite onClose_run. cbn [fst clients messages lastActive].
  rewrite broadcast_run, recipients_Set_delete. split; [done|]. split; [|done].
  apply received_fanout_absent. unfold Set_delete.
  rewrite list_elem_of_filter. tauto.
Qed.

(** X5.  A connection that is admitted and then closes gives its seat
    back: the client set of the room is what it was before the join, so is
    the log, and the room is again below its limit. *)
Theorem join_then_close_restores_clients
    (seats : nat) (rooms : gmap string Room) (ws : WebSocket)
    (roomCode userId : string) (room : Room) (e : Env) (s : Sys)
    (Hroom : rooms !! roomCode = Some room)
    (Hfree : (Set_size (clients room) < seats)%nat)
    (Hnew : ws ∉ clients room) :
  exists joined,
    fst (connection seats rooms ws roomCode userId e s) !! roomCode = Some joined
    /\ ws ∈ clients joined
    /\ forall e' s', clients (fst (onClose ws joined e' s')) = clients room
                     /\ messages (fst (onClose ws joined e' s')) = messages room.
Proof.
  rewrite (connection_admitted _ _ _ _ _ _ _ _ Hroom Hfree). cbn [fst].
  rewrite lookup_insert_eq. eexists. split; [reflexivity|].
  split; [apply Set_add_elem|]. intros e' s'. rewrite onClose_run.
  cbn [fst clients messages setLastActive addClient]. split; [|done].
  by apply Set_delete_add.
Qed.

Lemma join_then_close_restores_clients_witness :
  roomsOne !! "4821" = Some roomHi
  /\ (Set_size (clients roomHi) < Expiring.seats)%nat
  /\ (2%nat ∉ clients roomHi)
  /\ exists joined,
    fst (connection Expiring.seats roomsOne 2%nat "4821" "u2" env0 sys0) !! "4821"
    = Some joined
    /\ 2%nat ∈ clients joined
    /\ forall e' s', clients (fst (onClose 2%nat joined e' s')) = clients roomHi
                     /\ messages (fst (onClose 2%nat joined e' s')) = messages roomHi.
Proof.
  assert (Hroom : roomsOne !! "4821" = Some roomHi) by apply lookup_singleton_eq.
  assert (Hfree : (Set_size (clients roomHi) < Expiring.seats)%nat) by (vm_compute; lia).
  assert (Hnew : 2%nat ∉ clients roomHi).
  { cbn [roomHi clients]. rewrite list_elem_of_singleton. discriminate. }
  split; [exact Hroom|]. split; [exact Hfree|]. split; [exact Hnew|].
  exact (join_then_close_restores_clients Expiring.seats roomsOne 2%nat "4821" "u2" roomHi
           env0 sys0 Hroom Hfree Hnew).
Defined.

(** ** What a handshake can lead to *)

Lemma upgrade_cases seats rooms socket pathname code userIdParam e s :
  upgrade seats rooms socket pathname code userIdParam e s
  = (rooms, advance 0 0 [Destroy socket] s)
  \/ exists c room,
      pathname = "/ws" /\ code = Some c /\ c <> "" /\ rooms !! c = Some room
      /\ upgrade seats rooms socket pathname code userIdParam e s
         = connection seats rooms socket c (handshakeUserId e userIdParam) e s.
Proof.
  destruct (String.eqb_spec pathname "/ws") as [->|Hpath].
  - destruct code as [c|]; [|left; by apply upgrade_refused].
    destruct (String.eqb_spec c "") as [->|Hc]; [left; apply upgrade_refused; by left|].
    destruct (rooms !! c) as [room|] eqn:Hroom.
    + right. exists c, room. repeat split; try done. by apply upgrade_accepted with room.
    + left. apply upgrade_refused. by right.
  - left. unfold upgrade. rewrite (proj2 (String.eqb_neq _ _) Hpath). cbn [negb].
    unfold bind, socket_destroy. by rewrite emit_run.
Qed.

Lemma connection_cases seats rooms ws roomCode userId e s :
  (rooms !! roomCode = None
   /\ connection seats rooms ws roomCode userId e s
      = (rooms, advance 0 0 [Send ws (errorMsg "Room not found"); Close ws] s))
  \/ (exists room, rooms !! roomCode = Some room
      /\ (seats <= Set_size (clients room))%nat
      /\ connection seats rooms ws roomCode userId e s
         = (rooms, advance 0 0 [Send ws (errorMsg "Room is full"); Close ws] s))
  \/ (exists room, rooms !! roomCode = Some room
      /\ (Set_size (clients room) < seats)%nat
      /\ connection seats rooms ws roomCode userId e s
         = (<[roomCode := setLastActive (Date_clock e (nowReads s)) (addClient ws room)]> rooms,
            advance 2 0
              (Send ws (joinedMsg (VStr roomCode))
               :: map (Send ws) (historyIfAny room)
               ++ map (fun c => Send c (systemJoined userId (Date_clock e (S (nowReads s)))))
                      (recipients e (Set_add ws (clients room)))) s)).
Proof.
  destruct (rooms !! roomCode) as [room|] eqn:Hroom.
  - destruct (le_lt_dec seats (Set_size (clients room))) as [Hfull|Hfree].
    + right; left. exists room. repeat split; try done. by apply connection_full with room.
    + right; right. exists room. repeat split; try done. by apply connection_admitted.
  - left. split; [done|]. by apply connection_not_found.
Qed.

Lemma Set_add_size ws s : (Set_size (Set_add ws s) <= S (Set_size s))%nat.
Proof.
  unfold Set_add, Set_size. case_decide; [lia|]. rewrite length_app. simpl. lia.
Qed.

Lemma connection_withinSeats seats rooms ws roomCode userId e s :
  withinSeats seats rooms ->
  withinSeats seats (fst (connection seats rooms ws roomCode userId e s)).
Proof.
  intros Hinv.
  destruct (connection_cases seats rooms ws roomCode userId e s)
    as [[_ ->]|[(room & _ & _ & ->)|(room & Hroom & Hfree & ->)]]; [done|done|].
  cbn [fst]. intros code r. destruct (decide (roomCode = code)) as [->|Hne].
  - rewrite lookup_insert_eq. intros [= <-]. cbn [setLastActive addClient clients].
    pose proof (Set_add_size ws (clients room)). lia.
  - rewrite lookup_insert_ne by done. apply Hinv.
Qed.

Lemma upgrade_withinSeats seats rooms socket pathname code userIdParam e s :
  withinSeats seats rooms ->
  withinSeats seats (fst (upgrade seats rooms socket pathname code userIdParam e s)).
Proof.
  intros Hinv.
  destruct (upgrade_cases seats rooms socket pathname code userIdParam e s)
    as [->|(c & room & _ & _ & _ & _ & ->)]; [done|].
  by apply connection_withinSeats.
Qed.

Lemma Expiring_onMessage_clients roomCode userId room data e s :
  clients (fst (Expiring.onMessage roomCode userId room data e s)) = clients room.
Proof.
  destruct (Expiring_onMessage_shape roomCode userId room data e s)
    as [->|[content ->]]; [done|]. by rewrite relay_run.
Qed.

Lemma Persistent_onMessage_clients roomCode userId room data e s :
  clients (fst (Persistent.onMessage roomCode userId room data e s)) = clients room.
Proof.
  destruct (Persistent_onMessage_shape roomCode userId room data e s)
    as [->|[[content ->]|[content ->]]]; [done| |]; by rewrite relay_run.
Qed.

(** X6.  No room ever holds more clients than its server has seats (2
    with a TTL, 10 without): if that is so of a registry, it is so after any
    handshake, after creating a code and after a sweep; and on a room the
    [message] listeners leave the client set as it is while the [close]
    listener can only make it smaller. *)
Theorem seats_never_exceeded (e : Env) (s : Sys) (rooms : gmap string Room) :
  (withinSeats Expiring.seats rooms ->
     (forall socket pathname code userIdParam,
        withinSeats Expiring.seats
          (fst (Expiring.upgrade rooms socket pathname code userIdParam e s)))
     /\ (forall fuel code rooms' s',
        Expiring.createCode fuel rooms e s = (Some (code, rooms'), s') ->
        withinSeats Expiring.seats rooms')
     /\ withinSeats Expiring.seats (fst (Expiring.cleanup rooms e s)))
  /\ (withinSeats Persistent.seats rooms ->
     (forall socket pathname code userIdParam,
        withinSeats Persistent.seats
          (fst (Persistent.upgrade rooms socket pathname code userIdParam e s)))
     /\ withinSeats Persistent.seats (snd (fst (Persistent.createCode rooms e s))))
  /\ (forall ws room roomCode userId data,
     (Set_size (clients (fst (onClose ws room e s))) <= Set_size (clients room))%nat
     /\ clients (fst (Expiring.onMessage roomCode userId room data e s)) = clients room
     /\ clients (fst (Persistent.onMessage roomCode userId room data e s)) = clients room).
Proof.
  split; [|split].
  - intros Hinv. split; [|split].
    + intros. by apply upgrade_withinSeats.
    + intros fuel code rooms' s'. unfold Expiring.createCode, bind.
      destruct (drawCode fuel rooms e s) as [[c|] s1]; [|discriminate].
      rewrite Date_now_run. intros [= <- <- <-] code' r.
      destruct (decide (c = code')) as [->|Hne].
      * rewrite lookup_insert_eq. intros [= <-]. cbn. lia.
      * rewrite lookup_insert_ne by done. apply Hinv.
    + intros code r. rewrite Expiring_cleanup_lookup.
      destruct (rooms !! code) as [room|] eqn:Hroom; [|done].
      destruct (Expiring.stale _ room); [done|]. intros [= <-]. by apply Hinv with code.
  - intros Hinv. split; [intros; by apply upgrade_withinSeats|].
    destruct (rooms !! "0000") as [room|] eqn:Hroom.
    + by rewrite (Persistent_createCode_existing _ _ _ _ Hroom).
    + rewrite (Persistent_createCode_missing _ _ _ Hroom). cbn [fst snd].
      intros code r. destruct (decide ("0000" = code)) as [<-|Hne].
      * rewrite lookup_insert_eq. intros [= <-]. cbn. lia.
      * rewrite lookup_insert_ne by done. apply Hinv.
  - intros ws room roomCode userId data. split; [|split].
    + rewrite onClose_run. cbn [fst clients]. unfold Set_delete, Set_size.
      apply length_filter.
    + apply Expiring_onMessage_clients.
    + apply Persistent_onMessage_clients.
Qed.

Lemma roomsOne_withinSeats : withinSeats Expiring.seats roomsOne.
Proof.
  intros code room Hroom. unfold roomsOne in Hroom.
  apply lookup_singleton_Some in Hroom as [_ <-]. vm_compute. lia.
Qed.

Lemma seats_never_exceeded_witness :
  withinSeats Expiring.seats roomsOne
  /\ withinSeats Expiring.seats
       (fst (Expiring.upgrade roomsOne 2%nat "/ws" (Some "4821") (Some "u2") env0 sys0)).
Proof.
  split; [exact roomsOne_withinSeats|].
  exact (proj1 (proj1 (seats_never_exceeded env0 sys0 roomsOne) roomsOne_withinSeats)
           2%nat "/ws" (Some "4821") (Some "u2")).
Defined.

Lemma upgrade_events_not_room_not_found seats rooms socket pathname code userIdParam e s ws :
  exists n evs,
    snd (upgrade seats rooms socket pathname code userIdParam e s) = advance n 0 evs s
    /\ Send ws (errorMsg "Room not found") ∉ evs.
Proof.
  destruct (upgrade_cases seats rooms socket pathname code userIdParam e s)
    as [->|(c & room & _ & _ & _ & Hroom & ->)].
  { eexists _, _. split; [reflexivity|]. rewrite list_elem_of_singleton. discriminate. }
  destruct (connection_cases seats rooms socket c (handshakeUserId e userIdParam) e s)
    as [[Hnone _]|[(room' & _ & _ & ->)|(room' & _ & _ & ->)]]; [congruence| |].
  - eexists _, _. split; [reflexivity|].
    rewrite !elem_of_cons, elem_of_nil. intros [?|[?|[]]]; discriminate.
  - eexists _, _. split; [reflexivity|].
    rewrite elem_of_cons, elem_of_app, !list_elem_of_fmap.
    intros [?|[(h & ? & Hh)|(x & ? & _)]]; try discriminate.
    unfold historyIfAny in Hh. destruct (messages room'); [by apply elem_of_nil in Hh|].
    apply list_elem_of_singleton in Hh. subst h. discriminate.
Qed.

(** X7.  No handshake is ever answered with the error "Room not found":
    whatever the path, the code and the user parameter, the events of
    [server.on("upgrade")] do not contain that message, because a code that
    is not registered is turned away before the connection listener runs. *)
Theorem handshake_never_answers_room_not_found
    (rooms : gmap string Room) (socket ws : WebSocket) (pathname : string)
    (code userIdParam : option string) (e : Env) (s : Sys) :
  (exists n evs,
     snd (Expiring.upgrade rooms socket pathname code userIdParam e s) = advance n 0 evs s
     /\ Send ws (errorMsg "Room not found") ∉ evs)
  /\ (exists n evs,
     snd (Persistent.upgrade rooms socket pathname code userIdParam e s) = advance n 0 evs s
     /\ Send ws (errorMsg "Room not found") ∉ evs).
Proof. split; apply upgrade_events_not_room_not_found. Qed.

Lemma isCode4_nonempty code : isCode4 code = true -> code <> "".
Proof. by intros Hcode ->. Qed.

Lemma upgrade_userId_bind {A} userIdParam (k : string -> M A) e s :
  (do userId <- match userIdParam with
                | Some u => if String.eqb u "" then crypto_randomUUID else ret u
                | None => crypto_randomUUID
                end;
   k userId) e s
  = k (handshakeUserId e userIdParam) e s.
Proof. unfold bind. by rewrite upgrade_userId. Qed.

(** The handler of an upgrade request: it throws when the URL does not
    parse; it returns with the registry untouched and nothing written when
    the library refuses a handshake the handler let through; in every other
    case it does what [upgrade] does. *)
Lemma onUpgrade_cases seats rooms socket request e s :
  (parsedUrl request = None /\ onUpgrade seats rooms socket request e s = (Thrown, s))
  \/ (exists registered,
        onUpgrade seats rooms socket request e s = (Returned (rooms, registered), s))
  \/ (exists pathname code userIdParam registered,
        parsedUrl request = Some (pathname, code, userIdParam)
        /\ onUpgrade seats rooms socket request e s
           = (Returned (fst (upgrade seats rooms socket pathname code userIdParam e s),
                        registered),
              snd (upgrade seats rooms socket pathname code userIdParam e s))).
Proof.
  destruct (parsedUrl request) as [[[pathname code] userIdParam]|] eqn:Hurl;
    [|left; split; [done|]; unfold onUpgrade; by rewrite Hurl].
  right.
  assert (Hdestroy : forall A (a : A), (socket_destroy socket ;; ret a) e s
                                       = (a, advance 0 0 [Destroy socket] s)).
  { intros A a. unfold bind, socket_destroy. by rewrite emit_run. }
  destruct (negb (String.eqb pathname "/ws")) eqn:Hpath.
  { right. exists pathname, code, userIdParam, None. split; [done|].
    unfold onUpgrade, upgrade. by rewrite Hurl, Hpath, !Hdestroy. }
  destruct code as [c|].
  2: { right. exists pathname, None, userIdParam, None. split; [done|].
       unfold onUpgrade, upgrade. rewrite Hurl, Hpath, !upgrade_userId_bind.
       by rewrite !Hdestroy. }
  destruct (negb (String.eqb c "") && validate rooms c) eqn:Hvalid.
  2: { right. exists pathname, (Some c), userIdParam, None. split; [done|].
       unfold onUpgrade, upgrade. rewrite Hurl, Hpath, !upgrade_userId_bind, Hvalid.
       by rewrite !Hdestroy. }
  destruct (handshakes request) eqn:Hhandshake.
  - right. exists pathname, (Some c), userIdParam,
      (if registers seats rooms c then Some (c, handshakeUserId e userIdParam) else None).
    split; [done|]. unfold onUpgrade, upgrade.
    rewrite Hurl, Hpath, Hhandshake, !upgrade_userId_bind, Hvalid. unfold bind.
    by destruct (connection seats rooms socket c _ e s).
  - left. exists None. unfold onUpgrade.
    by rewrite Hurl, Hpath, Hhandshake, upgrade_userId_bind, Hvalid.
Qed.

Lemma onUpgrade_into_empty_room seats rooms socket request code userIdParam t e s :
  (0 < seats)%nat -> code <> "" -> rooms !! code = Some (newRoom t) ->
  parsedUrl request = Some ("/ws", Some code, userIdParam) ->
  handshakes request = true ->
  exists evs,
    onUpgrade seats rooms socket request e s
    = (Returned (<[code := {| clients := [socket]; lastActive := Date_clock e (nowReads s);
                              messages := [] |}]> rooms,
                 Some (code, handshakeUserId e userIdParam)),
       advance 2 0 (Send socket (VObj [("type", VStr "joined"); ("code", VStr code)])
                    :: evs) s).
Proof.
  intros Hseats Hcode Hroom Hurl Hhandshake. unfold onUpgrade. rewrite Hurl, Hhandshake.
  cbn [String.eqb Ascii.eqb Bool.eqb negb]. unfold bind at 1. rewrite upgrade_userId.
  rewrite (proj2 (String.eqb_neq code "") Hcode). cbn [negb andb].
  unfold validate, Map_has. rewrite bool_decide_eq_true_2 by (rewrite Hroom; eauto).
  unfold bind. rewrite (connection_admitted _ _ _ _ _ _ _ _ Hroom) by (cbn; lia).
  unfold registers. rewrite Hroom. cbn [newRoom clients Set_size length].
  rewrite (proj2 (Nat.leb_gt _ _)) by lia. cbn [negb ret].
  eexists. reflexivity.
Qed.

(** X8.  A code that was just created can be joined.  On the registry the
    creation left, the handler of an upgrade request for [/ws] with that
    code, when the library completes the handshake, admits the socket: the
    first message written is [{type: "joined", code}], the socket is then
    the only client of the room, and the listeners registered on it are
    bound to that code and to the identity of the handshake.  In the server
    whose rooms never expire this is so when the creation made the room,
    that is when "0000" was not yet registered. *)
Theorem created_code_can_be_joined
    (e : Env) (s : Sys) (k : nat) (rooms : gmap string Room) (socket : WebSocket)
    (Hrange : forall i, (Math_draws e i < codeSpace)%nat)
    (Hfree : rooms !! codeOf (Math_draws e (rndReads s + k)) = None) :
  (exists code rooms1 s1,
     Expiring.createCode (S k) rooms e s = (Some (code, rooms1), s1)
     /\ forall request userIdParam,
        parsedUrl request = Some ("/ws", Some code, userIdParam) ->
        handshakes request = true ->
        exists rooms2 evs,
          onUpgrade Expiring.seats rooms1 socket request e s1
          = (Returned (rooms2, Some (code, handshakeUserId e userIdParam)),
             advance 2 0 (Send socket (VObj [("type", VStr "joined"); ("code", VStr code)])
                          :: evs) s1)
          /\ clients <$> rooms2 !! code = Some [socket])
  /\ (rooms !! "0000" = None ->
      exists rooms1 s1,
        Persistent.createCode rooms e s = ("0000", rooms1, s1)
        /\ forall request userIdParam,
           parsedUrl request = Some ("/ws", Some "0000", userIdParam) ->
           handshakes request = true ->
           exists rooms2 evs,
             onUpgrade Persistent.seats rooms1 socket request e s1
             = (Returned (rooms2, Some ("0000", handshakeUserId e userIdParam)),
                advance 2 0 (Send socket (VObj [("type", VStr "joined");
                                                ("code", VStr "0000")])
                             :: evs) s1)
             /\ clients <$> rooms2 !! "0000" = Some [socket]).
Proof.
  split.
  - destruct (Expiring_createCode_finds e rooms k s Hrange Hfree)
      as (code & s1 & Hrun & Hcode & _).
    eexists code, _, s1. split; [exact Hrun|]. intros request userIdParam Hurl Hhandshake.
    destruct (onUpgrade_into_empty_room Expiring.seats
                (<[code := newRoom (Date_clock e (nowReads s))]> rooms)
                socket request code userIdParam (Date_clock e (nowReads s)) e s1)
      as [evs Hup]; [unfold Expiring.seats; lia|by apply isCode4_nonempty
                    |apply lookup_insert_eq|done|done|].
    eexists _, evs. split; [exact Hup|]. by rewrite lookup_insert_eq.
  - intros Hnone. eexists _, _. split; [by apply Persistent_createCode_missing|].
    intros request userIdParam Hurl Hhandshake.
    destruct (onUpgrade_into_empty_room Persistent.seats
                (<["0000" := newRoom (Date_clock e (nowReads s))]> rooms)
                socket request "0000" userIdParam (Date_clock e (nowReads s)) e
                (advance 1 0 [] s))
      as [evs Hup]; [unfold Persistent.seats; lia|discriminate
                    |apply lookup_insert_eq|done|done|].
    eexists _, evs. split; [exact Hup|]. by rewrite lookup_insert_eq.
Qed.

Lemma created_code_can_be_joined_witness :
  (forall i, (Math_draws env0 i < codeSpace)%nat)
  /\ roomsOne !! codeOf (Math_draws env0 (rndReads sys0 + 1)) = None
  /\ exists code rooms1 s1,
     Expiring.createCode 2 roomsOne env0 sys0 = (Some (code, rooms1), s1)
     /\ forall request userIdParam,
        parsedUrl request = Some ("/ws", Some code, userIdParam) ->
        handshakes request = true ->
        exists rooms2 evs,
          onUpgrade Expiring.seats rooms1 7%nat request env0 s1
          = (Returned (rooms2, Some (code, handshakeUserId env0 userIdParam)),
             advance 2 0 (Send 7%nat (VObj [("type", VStr "joined"); ("code", VStr code)])
                          :: evs) s1)
          /\ clients <$> rooms2 !! code = Some [7%nat].
Proof.
  assert (Hfree : roomsOne !! codeOf (Math_draws env0 (rndReads sys0 + 1)) = None)
    by (vm_compute; reflexivity).
  split; [exact env0_range|]. split; [exact Hfree|].
  exact (proj1 (created_code_can_be_joined env0 sys0 1 roomsOne 7%nat env0_range Hfree)).
Defined.

(** X9.  In the server whose rooms never expire no handler that returns
    unregisters a room: a code that is registered is still registered after
    [createCode], after any HTTP request, and after any upgrade request
    whose handler returns.  That handler throws, which ends the process and
    with it the registry, exactly when the URL of the request does not
    parse. *)
Theorem persistent_rooms_stay_registered
    (rooms : gmap string Room) (c : string) (e : Env) (s : Sys)
    (Hc : is_Some (rooms !! c)) :
  is_Some (snd (fst (Persistent.createCode rooms e s)) !! c)
  /\ (forall socket request,
      (fst (onUpgrade Persistent.seats rooms socket request e s) = Thrown
       <-> parsedUrl request = None)
      /\ forall rooms' registered,
         fst (onUpgrade Persistent.seats rooms socket request e s)
         = Returned (rooms', registered) ->
         is_Some (rooms' !! c))
  /\ (forall method url,
      is_Some (snd (fst (PersistentHttp.onRequest rooms method url e s)) !! c)).
Proof.
  assert (Hcreate : is_Some (snd (fst (Persistent.createCode rooms e s)) !! c)).
  { destruct (rooms !! "0000") as [room|] eqn:Hroom.
    - by rewrite (Persistent_createCode_existing _ _ _ _ Hroom).
    - rewrite (Persistent_createCode_missing _ _ _ Hroom). cbn [fst snd].
      rewrite lookup_insert_is_Some. right. split; [|done]. intros <-.
      rewrite Hroom in Hc. by destruct Hc. }
  split; [exact Hcreate|]. split.
  - intros socket request.
    destruct (onUpgrade_cases Persistent.seats rooms socket request e s)
      as [[Hurl Hup]|[[registered Hup]
                     |(pathname & code & userIdParam & registered & Hurl & Hup)]];
      rewrite Hup; cbn [fst].
    + split; [done|]. discriminate.
    + split; [split; [discriminate|intros Hurl]|by intros rooms' reg [= <- _]].
      unfold onUpgrade in Hup. by rewrite Hurl in Hup.
    + split; [split; [discriminate|by rewrite Hurl]|]. intros rooms' reg [= <- _].
      destruct (upgrade_cases Persistent.seats rooms socket pathname code userIdParam e s)
        as [Hrun|(c' & room & _ & _ & _ & _ & Hrun)]; rewrite Hrun; [done|].
      destruct (connection_cases Persistent.seats rooms socket c'
                  (handshakeUserId e userIdParam) e s)
        as [[_ ->]|[(room' & _ & _ & ->)|(room' & _ & _ & ->)]]; [done|done|].
      cbn [fst]. rewrite lookup_insert_is_Some'. by right.
  - intros method url. unfold PersistentHttp.onRequest.
    destruct (String.eqb method "OPTIONS"); [done|].
    destruct (String.eqb method "POST" && String.eqb url "/api/rooms/create").
    + unfold bind. destruct (Persistent.createCode rooms e s) as [[code rooms'] s'].
      exact Hcreate.
    + destruct (matchRoomUrl url); [|done]. by destruct (String.eqb method "GET").
Qed.

Lemma persistent_rooms_stay_registered_witness :
  is_Some (roomsZero !! "0000")
  /\ forall rooms' registered,
       fst (onUpgrade Persistent.seats roomsZero 3%nat
              {| parsedUrl := Some ("/ws", Some "0000", None); handshakes := true |}
              env0 sys0)
       = Returned (rooms', registered) ->
       is_Some (rooms' !! "0000").
Proof.
  assert (Hc : is_Some (roomsZero !! "0000")).
  { unfold roomsZero. rewrite lookup_singleton_eq. eauto. }
  split; [exact Hc|].
  exact (proj2 (proj1 (proj2 (persistent_rooms_stay_registered roomsZero "0000" env0 sys0 Hc))
                  3%nat {| parsedUrl := Some ("/ws", Some "0000", None);
                           handshakes := true |})).
Defined.

(** ** What a message listener writes and keeps *)

Lemma fanout_to_open_members e payload clients :
  Forall (fun ev => exists c p, ev = Send c p /\ c ∈ clients /\ readyState e c = OPEN)
         (map (fun c => Send c payload) (recipients e clients)).
Proof.
  apply Forall_forall. intros ev Hev. apply list_elem_of_fmap in Hev as (c & -> & Hc).
  unfold recipients in Hc. apply list_elem_of_filter in Hc as [Hopen Hin].
  by exists c, payload.
Qed.

Lemma received_of_members ws (members : list WebSocket) evs :
  Forall (fun ev => exists c p, ev = Send c p /\ c ∈ members) evs ->
  ws ∉ members -> received ws evs = [].
Proof.
  intros Hall Hnin. induction Hall as [|ev evs (c & p & -> & Hc) _ IH]; [done|].
  cbn [received]. rewrite decide_False; [done|]. by intros ->.
Qed.

(** X10.  Whatever frame arrives, the [message] listener of a
    stand-alone server writes only to sockets that are members of its own
    room and are open, and never closes or destroys a connection; so a
    socket that is not in the room, in particular one in another room,
    receives nothing from it. *)
Theorem listener_writes_to_open_members_only
    (roomCode userId : string) (room : Room) (data : Frame) (e : Env) (s : Sys) :
  (exists n evs,
     snd (Expiring.onMessage roomCode userId room data e s) = advance n 0 evs s
     /\ Forall (fun ev => exists c p, ev = Send c p /\ c ∈ clients room
                                      /\ readyState e c = OPEN) evs
     /\ forall ws, ws ∉ clients room -> received ws evs = [])
  /\ (exists n evs,
     snd (Persistent.onMessage roomCode userId room data e s) = advance n 0 evs s
     /\ Forall (fun ev => exists c p, ev = Send c p /\ c ∈ clients room
                                      /\ readyState e c = OPEN) evs
     /\ forall ws, ws ∉ clients room -> received ws evs = []).
Proof.
  assert (Hrelay : forall type field content logThrows,
    exists n evs,
      snd (relay type field roomCode userId content logThrows room e s) = advance n 0 evs s
      /\ Forall (fun ev => exists c p, ev = Send c p /\ c ∈ clients room
                                       /\ readyState e c = OPEN) evs
      /\ forall ws, ws ∉ clients room -> received ws evs = []).
  { intros type field content logThrows. rewrite relay_run. eexists _, _.
    split; [reflexivity|]. destruct logThrows; [by split|].
    split; [apply fanout_to_open_members|].
    intros ws Hnin. apply received_of_members with (clients room); [|done].
    eapply Forall_impl; [apply fanout_to_open_members|].
    intros ev (c & p & ? & ? & ?). eauto. }
  assert (Hnone : exists n evs,
      snd (room, s) = advance n 0 evs s
      /\ Forall (fun ev => exists c p, ev = Send c p /\ c ∈ clients room
                                       /\ readyState e c = OPEN) evs
      /\ forall ws, ws ∉ clients room -> received ws evs = []).
  { exists 0%nat, []. split; [by rewrite advance_0|]. by split. }
  split.
  - destruct (Expiring_onMessage_shape roomCode userId room data e s)
      as [->|[content ->]]; [exact Hnone|apply Hrelay].
  - destruct (Persistent_onMessage_shape roomCode userId room data e s)
      as [->|[[content ->]|[content ->]]]; [exact Hnone|apply Hrelay..].
Qed.

Lemma listener_writes_to_open_members_only_witness :
  (9%nat ∉ clients roomHi)
  /\ exists n evs,
     snd (Expiring.onMessage "4821" "u1" roomHi (Parsed (chatFrame "hi")) env0 sys0)
     = advance n 0 evs sys0
     /\ received 9%nat evs = [].
Proof.
  assert (Hout : 9%nat ∉ clients roomHi).
  { cbn [roomHi clients]. rewrite list_elem_of_singleton. discriminate. }
  split; [exact Hout|].
  destruct (proj1 (listener_writes_to_open_members_only "4821" "u1" roomHi
                     (Parsed (chatFrame "hi")) env0 sys0))
    as (n & evs & Hrun & _ & Hnone).
  exists n, evs. split; [exact Hrun|]. exact (Hnone 9%nat Hout).
Defined.

Lemma connection_keeps_logs seats rooms ws roomCode userId e s code after :
  fst (connection seats rooms ws roomCode userId e s) !! code = Some after ->
  exists before, rooms !! code = Some before /\ messages after = messages before.
Proof.
  destruct (connection_cases seats rooms ws roomCode userId e s)
    as [[_ ->]|[(room & _ & _ & ->)|(room & Hroom & _ & ->)]]; cbn [fst]; [eauto..|].
  destruct (decide (roomCode = code)) as [->|Hne].
  - rewrite lookup_insert_eq. intros [= <-]. eauto.
  - rewrite lookup_insert_ne by done. eauto.
Qed.

(** X11.  The log of a room only grows, and by one record at a time: a
    [message] listener leaves the old log as a prefix and appends at most
    one record to it, and neither a join nor a close changes the log of any
    room.  Nothing in the servers trims the log. *)
Theorem log_is_append_only
    (roomCode userId : string) (room : Room) (data : Frame) (e : Env) (s : Sys) :
  (exists suffix,
     messages (fst (Expiring.onMessage roomCode userId room data e s))
     = (messages room ++ suffix)%list /\ (length suffix <= 1)%nat)
  /\ (exists suffix,
     messages (fst (Persistent.onMessage roomCode userId room data e s))
     = (messages room ++ suffix)%list /\ (length suffix <= 1)%nat)
  /\ (forall ws, messages (fst (onClose ws room e s)) = messages room)
  /\ (forall seats rooms ws code after,
      fst (connection seats rooms ws roomCode userId e s) !! code = Some after ->
      exists before, rooms !! code = Some before /\ messages after = messages before).
Proof.
  assert (Hnone : exists suffix,
    messages (fst (room, s)) = (messages room ++ suffix)%list /\ (length suffix <= 1)%nat).
  { exists []. split; [by rewrite app_nil_r|cbn; lia]. }
  assert (Hrelay : forall type field content logThrows, exists suffix,
    messages (fst (relay type field roomCode userId content logThrows room e s))
    = (messages room ++ suffix)%list /\ (length suffix <= 1)%nat).
  { intros. rewrite relay_run. eexists [_]. split; [reflexivity|cbn; lia]. }
  split; [|split; [|split]].
  - destruct (Expiring_onMessage_shape roomCode userId room data e s)
      as [->|[content ->]]; [exact Hnone|apply Hrelay].
  - destruct (Persistent_onMessage_shape roomCode userId room data e s)
      as [->|[[content ->]|[content ->]]]; [exact Hnone|apply Hrelay..].
  - intros ws. by rewrite onClose_run.
  - intros seats rooms ws code after. apply connection_keeps_logs.
Qed.

Lemma log_is_append_only_witness :
  fst (connection Expiring.seats roomsOne 2%nat "4821" "u2" env0 sys0) !! "4821"
    = Some (setLastActive 1700000000000 (addClient 2%nat roomHi))
  /\ exists before, roomsOne !! "4821" = Some before
       /\ messages (setLastActive 1700000000000 (addClient 2%nat roomHi)) = messages before.
Proof.
  assert (Hafter : fst (connection Expiring.seats roomsOne 2%nat "4821" "u2" env0 sys0)
                   !! "4821" = Some (setLastActive 1700000000000 (addClient 2%nat roomHi))).
  { rewrite (connection_admitted Expiring.seats roomsOne 2%nat "4821" "u2" roomHi env0 sys0)
      by (try apply lookup_singleton_eq; vm_compute; lia).
    cbn [fst]. by rewrite lookup_insert_eq. }
  split; [exact Hafter|].
  exact (proj2 (proj2 (proj2 (log_is_append_only "4821" "u2" roomHi Unparseable env0 sys0)))
           Expiring.seats roomsOne 2%nat "4821" _ Hafter).
Defined.

Lemma chat_then_join seats rooms roomCode userId joiner ws content logThrows room e s :
  rooms !! roomCode = Some room ->
  NoDup (clients room) ->
  (Set_size (clients room) < seats)%nat ->
  readyState e ws = OPEN ->
  exists room1 s1 rooms2 evs,
    relay "chat" "message" roomCode userId content logThrows room e s = (room1, s1)
    /\ connection seats (<[roomCode := room1]> rooms) ws roomCode joiner e s1
       = (rooms2, advance 2 0 evs s1)
    /\ received ws evs
       = [VObj [("type", VStr "joined"); ("code", VStr roomCode)];
          VObj [("type", VStr "history");
                ("messages",
                 VArr (messages room
                       ++ [VObj [("type", VStr "chat"); ("code", VStr roomCode);
                                 ("userId", VStr userId); ("message", content);
                                 ("ts", VNum (Date_clock e (S (nowReads s))))]]))];
          VObj [("type", VStr "system");
                ("message", VStr ("User " ++ slice0 4 joiner ++ " joined"));
                ("ts", VNum (Date_clock e (S (nowReads s1))))]].
Proof.
  intros Hroom Hnd Hfree Hopen. rewrite relay_run.
  set (room1 := accepted _ _ room). set (s1 := advance 2 0 _ s).
  destruct (connection_received seats (<[roomCode := room1]> rooms) ws roomCode joiner
              room1 e s1 Hopen (lookup_insert_eq _ _ _) Hnd Hfree)
    as (rooms2 & evs & Hrun & Hrecv).
  exists room1, s1, rooms2, evs. split; [reflexivity|]. split; [exact Hrun|].
  rewrite Hrecv. unfold historyIfAny, room1, accepted. cbn [messages].
  by destruct (messages room).
Qed.

(** X12.  A chat that was accepted is replayed to whoever joins next.  The
    next joiner receives exactly three messages: [{type: "joined", code}],
    then [{type: "history", messages}] whose [messages] is the log as it was
    before the chat followed by the record of that chat, with the code and
    user of its sender, then the notice
    [{type: "system", message: "User <first four UTF-16 units of the joiner's id> joined", ts}]. *)
Theorem accepted_chat_is_replayed_to_next_joiner
    (e : Env) (s : Sys) (rooms : gmap string Room) (roomCode userId joiner : string)
    (ws : WebSocket) (payload : value) (m : string) (room : Room)
    (Htype : getProp payload "type" = Some (VStr "chat"))
    (Hmessage : getProp payload "message" = Some (VStr m))
    (Hnonempty : m <> "")
    (Hroom : rooms !! roomCode = Some room)
    (Hnd : NoDup (clients room))
    (Hopen : readyState e ws = OPEN) :
  let record := VObj [("type", VStr "chat"); ("code", VStr roomCode);
                      ("userId", VStr userId); ("message", VStr m);
                      ("ts", VNum (Date_clock e (S (nowReads s))))] in
  ((Set_size (clients room) < Expiring.seats)%nat ->
     exists room1 s1 rooms2 evs,
       Expiring.onMessage roomCode userId room (Parsed payload) e s = (room1, s1)
       /\ Expiring.connection (<[roomCode := room1]> rooms) ws roomCode joiner e s1
          = (rooms2, advance 2 0 evs s1)
       /\ received ws evs
          = [VObj [("type", VStr "joined"); ("code", VStr roomCode)];
             VObj [("type", VStr "history"); ("messages", VArr (messages room ++ [record]))];
             VObj [("type", VStr "system");
                   ("message", VStr ("User " ++ slice0 4 joiner ++ " joined"));
                   ("ts", VNum (Date_clock e (S (nowReads s1))))]])
  /\ ((Set_size (clients room) < Persistent.seats)%nat ->
     exists room1 s1 rooms2 evs,
       Persistent.onMessage roomCode userId room (Parsed payload) e s = (room1, s1)
       /\ Persistent.connection (<[roomCode := room1]> rooms) ws roomCode joiner e s1
          = (rooms2, advance 2 0 evs s1)
       /\ received ws evs
          = [VObj [("type", VStr "joined"); ("code", VStr roomCode)];
             VObj [("type", VStr "history"); ("messages", VArr (messages room ++ [record]))];
             VObj [("type", VStr "system");
                   ("message", VStr ("User " ++ slice0 4 joiner ++ " joined"));
                   ("ts", VNum (Date_clock e (S (nowReads s1))))]]).
Proof.
  intros record. split; intros Hfree.
  - rewrite (Expiring_onMessage_chat _ _ _ _ _ _ _ Htype Hmessage
               (truthy_nonempty _ Hnonempty)).
    by apply chat_then_join.
  - rewrite (Persistent_onMessage_chat _ _ _ _ _ _ _ Htype Hmessage
               (truthy_nonempty _ Hnonempty)).
    by apply chat_then_join.
Qed.

Lemma accepted_chat_is_replayed_to_next_joiner_witness :
  getProp (chatFrame "hi") "type" = Some (VStr "chat")
  /\ getProp (chatFrame "hi") "message" = Some (VStr "hi")
  /\ "hi" <> ""
  /\ roomsOne !! "4821" = Some roomHi
  /\ readyState env0 2%nat = OPEN
  /\ (Set_size (clients roomHi) < Expiring.seats)%nat
  /\ exists room1 s1 rooms2 evs,
       Expiring.onMessage "4821" "u1" roomHi (Parsed (chatFrame "hi")) env0 sys0
       = (room1, s1)
       /\ Expiring.connection (<["4821" := room1]> roomsOne) 2%nat "4821" "u2-7f3a" env0 s1
          = (rooms2, advance 2 0 evs s1)
       /\ received 2%nat evs
          = [VObj [("type", VStr "joined"); ("code", VStr "4821")];
             VObj [("type", VStr "history");
                   ("messages",
                    VArr [chatHi;
                          VObj [("type", VStr "chat"); ("code", VStr "4821");
                                ("userId", VStr "u1"); ("message", VStr "hi");
                                ("ts", VNum 1700000000001)]])];
             VObj [("type", VStr "system"); ("message", VStr "User u2-7 joined");
                   ("ts", VNum (Date_clock env0 (S (nowReads s1))))]].
Proof.
  assert (Hne : "hi" <> "") by discriminate.
  assert (Hroom : roomsOne !! "4821" = Some roomHi) by apply lookup_singleton_eq.
  assert (Hnd : NoDup (clients roomHi)) by apply NoDup_singleton.
  assert (Hfree : (Set_size (clients roomHi) < Expiring.seats)%nat) by (vm_compute; lia).
  split; [reflexivity|]. split; [reflexivity|]. split; [exact Hne|].
  split; [exact Hroom|]. split; [reflexivity|]. split; [exact Hfree|].
  exact (proj1 (accepted_chat_is_replayed_to_next_joiner env0 sys0 roomsOne "4821" "u1" "u2-7f3a"
                  2%nat (chatFrame "hi") "hi" roomHi eq_refl eq_refl Hne Hroom Hnd eq_refl)
           Hfree).
Defined.

(** ** More on the sweep *)

(** X13.  The sweep evicts only what is strictly older than the TTL: a
    room whose [lastActive] lies at most [ttlMs] before the clock reading of
    the sweep is kept, unchanged, also when it has no client and also when
    the idle time is exactly [ttlMs]; in the server with a TTL and in the
    service alike. *)
Theorem sweep_keeps_rooms_idle_at_most_ttl
    (e : Env) (s : Sys) (rooms : gmap string Room) (st : RoomService.State) :
  let now := Date_clock e (nowReads s) in
  (forall code room, rooms !! code = Some room ->
     now - lastActive room <= Expiring.ttlMs ->
     fst (Expiring.cleanup rooms e s) !! code = Some room)
  /\ (forall code room, RoomService.rooms st !! code = Some room ->
     now - RoomService.lastActive room <= RoomService.ttlMs ->
     RoomService.rooms (fst (RoomService.cleanup st e s)) !! code = Some room).
Proof.
  intros now. split; intros code room Hroom Hfresh.
  - rewrite Expiring_cleanup_lookup, Hroom. unfold Expiring.stale.
    rewrite (proj2 (Z.ltb_ge _ _)) by (fold now; lia). by rewrite andb_false_r.
  - rewrite RoomService_cleanup_lookup, Hroom. unfold RoomService.stale.
    rewrite (proj2 (Z.ltb_ge _ _)) by (fold now; lia). by rewrite andb_false_r.
Qed.

Lemma sweep_keeps_rooms_idle_at_most_ttl_witness :
  roomsEdge !! "1234"
    = Some {| clients := []; lastActive := 1699999400000; messages := [] |}
  /\ Date_clock env0 (nowReads sys0) - 1699999400000 = Expiring.ttlMs
  /\ fst (Expiring.cleanup roomsEdge env0 sys0) !! "1234"
     = Some {| clients := []; lastActive := 1699999400000; messages := [] |}.
Proof.
  assert (Hroom : roomsEdge !! "1234"
    = Some {| clients := []; lastActive := 1699999400000; messages := [] |})
    by apply lookup_singleton_eq.
  assert (Hidle : Date_clock env0 (nowReads sys0) - 1699999400000 = Expiring.ttlMs)
    by reflexivity.
  split; [exact Hroom|]. split; [exact Hidle|].
  refine (proj1 (sweep_keeps_rooms_idle_at_most_ttl env0 sys0 roomsEdge serviceEmpty)
            "1234" _ Hroom _).
  cbn [lastActive]. rewrite Hidle. reflexivity.
Defined.

(** X14.  A sweep only removes: every room registered after it was
    registered before it, with the same clients, log and [lastActive].  It
    reads the clock once and writes to no socket, and in the service it
    leaves the user table and the marks on the sockets as they are. *)
Theorem sweep_only_removes
    (e : Env) (s : Sys) (rooms : gmap string Room) (st : RoomService.State) :
  (forall code room, fst (Expiring.cleanup rooms e s) !! code = Some room ->
     rooms !! code = Some room)
  /\ snd (Expiring.cleanup rooms e s) = advance 1 0 [] s
  /\ (forall code room,
     RoomService.rooms (fst (RoomService.cleanup st e s)) !! code = Some room ->
     RoomService.rooms st !! code = Some room)
  /\ RoomService.userRoom (fst (RoomService.cleanup st e s)) = RoomService.userRoom st
  /\ RoomService.meta (fst (RoomService.cleanup st e s)) = RoomService.meta st
  /\ snd (RoomService.cleanup st e s) = advance 1 0 [] s.
Proof.
  split; [|split; [|split; [|split; [|split]]]].
  - intros code room. rewrite Expiring_cleanup_lookup.
    destruct (rooms !! code) as [r|]; [|done]. by destruct (Expiring.stale _ r).
  - unfold Expiring.cleanup, bind. by rewrite Date_now_run.
  - intros code room. rewrite RoomService_cleanup_lookup.
    destruct (RoomService.rooms st !! code) as [r|]; [|done].
    by destruct (RoomService.stale _ r).
  - unfold RoomService.cleanup, bind. by rewrite Date_now_run.
  - unfold RoomService.cleanup, bind. by rewrite Date_now_run.
  - unfold RoomService.cleanup, bind. by rewrite Date_now_run.
Qed.

Lemma sweep_only_removes_witness :
  fst (Expiring.cleanup roomsEdge env0 sys0) !! "1234"
    = Some {| clients := []; lastActive := 1699999400000; messages := [] |}
  /\ roomsEdge !! "1234"
     = Some {| clients := []; lastActive := 1699999400000; messages := [] |}.
Proof.
  assert (Hkept : fst (Expiring.cleanup roomsEdge env0 sys0) !! "1234"
    = Some {| clients := []; lastActive := 1699999400000; messages := [] |}).
  { rewrite Expiring_cleanup_lookup. unfold roomsEdge. by rewrite lookup_singleton_eq. }
  split; [exact Hkept|].
  exact (proj1 (sweep_only_removes env0 sys0 roomsEdge serviceEmpty) "1234" _ Hkept).
Defined.

Lemma Set_add_nonempty ws s : Set_add ws s <> [].
Proof.
  intros Hempty. pose proof (Set_add_elem ws s) as Hin. rewrite Hempty in Hin.
  by apply elem_of_nil in Hin.
Qed.

(** X15.  A room somebody was admitted to cannot be swept away while
    that client is in it: after an admitted join, in either server with a
    sweep, a sweep at any later clock reading, however late, keeps the room
    as the join left it. *)
Theorem joined_room_survives_any_sweep (e : Env) (s : Sys) (ws : WebSocket) :
  (forall rooms roomCode userId room,
     rooms !! roomCode = Some room ->
     (Set_size (clients room) < Expiring.seats)%nat ->
     exists joined,
       fst (Expiring.connection rooms ws roomCode userId e s) !! roomCode = Some joined
       /\ ws ∈ clients joined
       /\ forall e' s',
          fst (Expiring.cleanup (fst (Expiring.connection rooms ws roomCode userId e s)) e' s')
            !! roomCode = Some joined)
  /\ (forall st payload c room,
     getProp payload "code" = Some (VStr c) ->
     RoomService.rooms st !! c = Some room ->
     RoomService.status room = RoomService.active ->
     RoomService.Map_get (orUndefined (getProp payload "userId"))
       (RoomService.userRoom st) = VUndefined ->
     exists joined,
       RoomService.rooms (fst (RoomService.handleJoin ws payload st e s)) !! c = Some joined
       /\ ws ∈ RoomService.clients joined
       /\ forall e' s',
          RoomService.rooms
            (fst (RoomService.cleanup (fst (RoomService.handleJoin ws payload st e s)) e' s'))
            !! c = Some joined).
Proof.
  split.
  - intros rooms roomCode userId room Hroom Hfree. unfold Expiring.connection.
    rewrite (connection_admitted _ _ _ _ _ _ _ _ Hroom Hfree). cbn [fst].
    eexists. split; [apply lookup_insert_eq|]. split; [apply Set_add_elem|].
    intros e' s'. rewrite Expiring_cleanup_lookup, lookup_insert_eq.
    unfold Expiring.stale. cbn [setLastActive addClient clients].
    pose proof (Set_add_nonempty ws (clients room)).
    by destruct (Set_add ws (clients room)).
  - intros st payload c room Hcode Hroom Hactive Hnone.
    rewrite (handleJoin_admitted _ _ _ _ _ _ _ Hcode Hroom Hactive)
      by (by rewrite Hnone).
    cbn [fst RoomService.rooms]. eexists. split; [apply lookup_insert_eq|].
    split; [apply Set_add_elem|]. intros e' s'.
    rewrite RoomService_cleanup_lookup. cbn [RoomService.rooms].
    rewrite lookup_insert_eq. unfold RoomService.stale.
    cbn [RoomService.setLastActive RoomService.addClient RoomService.clients].
    pose proof (Set_add_nonempty ws (RoomService.clients room)).
    by destruct (Set_add ws (RoomService.clients room)).
Qed.

Lemma joined_room_survives_any_sweep_witness :
  roomsOne !! "4821" = Some roomHi
  /\ (Set_size (clients roomHi) < Expiring.seats)%nat
  /\ exists joined,
       fst (Expiring.connection roomsOne 2%nat "4821" "u2" env0 sys0) !! "4821"
       = Some joined
       /\ 2%nat ∈ clients joined
       /\ forall e' s',
          fst (Expiring.cleanup
                 (fst (Expiring.connection roomsOne 2%nat "4821" "u2" env0 sys0)) e' s')
            !! "4821" = Some joined.
Proof.
  assert (Hroom : roomsOne !! "4821" = Some roomHi) by apply lookup_singleton_eq.
  assert (Hfree : (Set_size (clients roomHi) < Expiring.seats)%nat) by (vm_compute; lia).
  split; [exact Hroom|]. split; [exact Hfree|].
  exact (proj1 (joined_room_survives_any_sweep env0 sys0 2%nat)
           roomsOne "4821" "u2" roomHi Hroom Hfree).
Defined.

(** ** The service: what a frame can do *)

Lemma isStr_false v c : v <> VStr c -> isStr v c = false.
Proof.
  intros Hv. destruct v as [| | | |x| |]; try done. cbn [isStr].
  apply String.eqb_neq. congruence.
Qed.

Lemma rooms_get_Some st code c room :
  RoomService.rooms_get st code = Some (c, room) ->
  code = VStr c /\ RoomService.rooms st !! c = Some room.
Proof.
  unfold RoomService.rooms_get. destruct code as [| | | |x| |]; try done.
  destruct (RoomService.rooms st !! x) as [r|] eqn:Hr; [|done].
  by intros [= <- <-].
Qed.

Lemma orUndefined_getProp_Str payload k c :
  orUndefined (getProp payload k) = VStr c -> getProp payload k = Some (VStr c).
Proof. destruct (getProp payload k) as [v|]; cbn [orUndefined]; [by intros ->|done]. Qed.

(** A join frame is either turned down with one error message, the state
    staying as it is, or admitted. *)
Lemma handleJoin_cases ws payload st e s :
  (exists text, RoomService.handleJoin ws payload st e s
                = (st, advance 0 0 [Send ws (errorMsg text)] s))
  \/ (exists c room,
       getProp payload "code" = Some (VStr c)
       /\ RoomService.rooms st !! c = Some room
       /\ RoomService.status room = RoomService.active
       /\ RoomService.rooms (fst (RoomService.handleJoin ws payload st e s))
          = <[c := RoomService.setLastActive (Date_clock e (nowReads s))
                      (RoomService.addClient ws room)]> (RoomService.rooms st)).
Proof.
  assert (Herr : forall text, (ws_send ws (errorMsg text) ;; ret st) e s
                              = (st, advance 0 0 [Send ws (errorMsg text)] s)).
  { intros text. unfold bind, ws_send. by rewrite emit_run. }
  unfold RoomService.handleJoin.
  destruct (RoomService.rooms_get st _) as [[c room]|] eqn:Hget; [|left; eauto].
  apply rooms_get_Some in Hget as [Hcode Hroom].
  apply orUndefined_getProp_Str in Hcode.
  case_bool_decide as Hactive; cbn [negb]; [|left; eauto].
  destruct (truthy _ && RoomService.differs _ c) eqn:Hexisting; [left; eauto|].
  right. exists c, room. repeat split; try done.
  pose proof (handleJoin_admitted ws payload st c room e s Hcode Hroom Hactive Hexisting)
    as Hrun.
  unfold RoomService.handleJoin in Hrun. rewrite Hcode in Hrun.
  cbn [orUndefined RoomService.rooms_get] in Hrun. rewrite Hroom in Hrun.
  rewrite bool_decide_eq_true_2 in Hrun by done. cbn [negb] in Hrun.
  rewrite Hexisting in Hrun. rewrite Hcode. cbn [orUndefined]. by rewrite Hrun.
Qed.

(** A chat frame is either turned down with one error message, the state
    staying as it is, or relayed, which only stamps the room. *)
Lemma handleChat_cases ws payload st e s :
  (exists text, RoomService.handleChat ws payload st e s
                = (st, advance 0 0 [Send ws (errorMsg text)] s))
  \/ (exists c room,
       RoomService.rooms st !! c = Some room
       /\ RoomService.status room = RoomService.active
       /\ RoomService.rooms (fst (RoomService.handleChat ws payload st e s))
          = <[c := RoomService.setLastActive (Date_clock e (nowReads s)) room]>
              (RoomService.rooms st)).
Proof.
  assert (Herr : forall text, (ws_send ws (errorMsg text) ;; ret st) e s
                              = (st, advance 0 0 [Send ws (errorMsg text)] s)).
  { intros text. unfold bind, ws_send. by rewrite emit_run. }
  unfold RoomService.handleChat.
  destruct (RoomService.rooms_get st _) as [[c room]|] eqn:Hget; [|left; eauto].
  apply rooms_get_Some in Hget as [_ Hroom].
  case_bool_decide as Hactive; cbn [negb]; [|left; eauto].
  destruct (RoomService.differs _ c); [left; eauto|].
  right. exists c, room. repeat split; try done.
  unfold bind at 1. rewrite Date_now_run. unfold bind at 1. rewrite Date_now_run.
  unfold bind. by rewrite broadcast_run.
Qed.

Lemma serviceRoomsSound_insert st c room room' :
  serviceRoomsSound st ->
  RoomService.rooms st !! c = Some room ->
  RoomService.status room' = RoomService.status room ->
  RoomService.code room' = RoomService.code room ->
  forall c' r, <[c := room']> (RoomService.rooms st) !! c' = Some r ->
    RoomService.status r = RoomService.active /\ RoomService.code r = c'.
Proof.
  intros Hinv Hroom Hstatus Hcode c' r. destruct (decide (c = c')) as [->|Hne].
  - rewrite lookup_insert_eq. intros [= <-]. rewrite Hstatus, Hcode. by apply Hinv.
  - rewrite lookup_insert_ne by done. apply Hinv.
Qed.

Lemma onMessage_keeps_sound ws data st e s :
  serviceRoomsSound st -> serviceRoomsSound (fst (RoomService.onMessage ws data st e s)).
Proof.
  intros Hinv. unfold RoomService.onMessage. destruct data as [|payload]; [done|].
  destruct (getProp payload "type") as [type|]; [|done].
  destruct (isStr type "join").
  - destruct (handleJoin_cases ws payload st e s)
      as [[text ->]|(c & room & _ & Hroom & _ & Hrooms)]; [done|].
    unfold serviceRoomsSound. rewrite Hrooms.
    by apply serviceRoomsSound_insert with room.
  - destruct (isStr type "chat"); [|done].
    destruct (handleChat_cases ws payload st e s)
      as [[text ->]|(c & room & Hroom & _ & Hrooms)]; [done|].
    unfold serviceRoomsSound. rewrite Hrooms.
    by apply serviceRoomsSound_insert with room.
Qed.

(** X16.  In the service every room is active and filed under its own
    code, and stays so: the property survives any frame on any socket, the
    creation of a room and a sweep.  No code path sets a status to
    [closed]; so [validateRoom] answers exactly whether the code is
    registered. *)
Theorem service_rooms_stay_active_and_filed
    (st : RoomService.State) (e : Env) (s : Sys) (Hsound : serviceRoomsSound st) :
  (forall ws data, serviceRoomsSound (fst (RoomService.onMessage ws data st e s)))
  /\ (forall fuel code st' s',
      RoomService.createRoom fuel st e s = (Some (code, st'), s') ->
      serviceRoomsSound st')
  /\ serviceRoomsSound (fst (RoomService.cleanup st e s))
  /\ (forall c, RoomService.validateRoom st c = Map_has (RoomService.rooms st) c).
Proof.
  split; [intros; by apply onMessage_keeps_sound|]. split; [|split].
  - intros fuel code st' s'. unfold RoomService.createRoom, bind.
    destruct (drawCode fuel _ e s) as [[c|] s1]; [|discriminate].
    rewrite Date_now_run. intros [= <- <- <-] c' r.
    cbn [RoomService.setRooms RoomService.rooms].
    destruct (decide (c = c')) as [->|Hne].
    + rewrite lookup_insert_eq. by intros [= <-].
    + rewrite lookup_insert_ne by done. apply Hsound.
  - intros c r. rewrite RoomService_cleanup_lookup.
    destruct (RoomService.rooms st !! c) as [room|] eqn:Hroom; [|done].
    destruct (RoomService.stale _ room); [done|]. intros [= <-]. by apply Hsound.
  - intros c. unfold RoomService.validateRoom, Map_has.
    destruct (RoomService.rooms st !! c) as [room|] eqn:Hroom.
    + destruct (Hsound c room Hroom) as [-> _].
      rewrite !bool_decide_eq_true_2; eauto.
    + symmetry. apply bool_decide_eq_false_2. by intros [? ?].
Qed.

Lemma serviceOne_sound : serviceRoomsSound serviceOne.
Proof.
  intros c room Hroom. unfold serviceOne in Hroom. cbn [RoomService.rooms] in Hroom.
  by apply lookup_singleton_Some in Hroom as [<- <-].
Qed.

Lemma service_rooms_stay_active_and_filed_witness :
  serviceRoomsSound serviceOne
  /\ serviceRoomsSound
       (fst (RoomService.onMessage 3%nat (Parsed (joinFrame "4821" "u3")) serviceOne
               env0 sys0)).
Proof.
  split; [exact serviceOne_sound|].
  exact (proj1 (service_rooms_stay_active_and_filed serviceOne env0 sys0 serviceOne_sound)
           3%nat (Parsed (joinFrame "4821" "u3"))).
Defined.

(** X17.  A room the service just created answers [validateRoom] with
    true and admits a first joiner: a join frame for that code from a user
    the user table does not know is answered with [joined], and the socket
    is then the only client of the room. *)
Theorem service_created_room_validates_and_admits
    (e : Env) (s : Sys) (k : nat) (st : RoomService.State) (ws : WebSocket)
    (Hrange : forall i, (Math_draws e i < codeSpace)%nat)
    (Hfree : RoomService.rooms st !! codeOf (Math_draws e (rndReads s + k)) = None) :
  exists code st1 s1,
    RoomService.createRoom (S k) st e s = (Some (code, st1), s1)
    /\ RoomService.validateRoom st1 code = true
    /\ forall payload,
         getProp payload "code" = Some (VStr code) ->
         RoomService.Map_get (orUndefined (getProp payload "userId"))
           (RoomService.userRoom st1) = VUndefined ->
         exists st2 evs,
           RoomService.handleJoin ws payload st1 e s1
           = (st2, advance 1 0 (Send ws (joinedMsg (VStr code)) :: evs) s1)
           /\ RoomService.clients <$> RoomService.rooms st2 !! code = Some [ws].
Proof.
  destruct (RoomService_createRoom_finds e st k s Hrange Hfree)
    as (code & st1 & s1 & Hrun & _ & _ & Hrooms).
  exists code, st1, s1. split; [exact Hrun|].
  assert (Hroom : RoomService.rooms st1 !! code
                  = Some {| RoomService.code := code;
                            RoomService.createdAt := Date_clock e (nowReads s);
                            RoomService.lastActive := Date_clock e (nowReads s);
                            RoomService.clients := [];
                            RoomService.status := RoomService.active |})
    by (rewrite Hrooms; apply lookup_insert_eq).
  split; [unfold RoomService.validateRoom; by rewrite Hroom|].
  intros payload Hcode Hnone.
  rewrite (handleJoin_admitted _ _ _ _ _ _ _ Hcode Hroom eq_refl) by (by rewrite Hnone).
  eexists _, _. split; [reflexivity|]. cbn [RoomService.rooms].
  by rewrite lookup_insert_eq.
Qed.

Lemma service_created_room_validates_and_admits_witness :
  (forall i, (Math_draws env0 i < codeSpace)%nat)
  /\ RoomService.rooms serviceOne !! codeOf (Math_draws env0 (rndReads sys0 + 1)) = None
  /\ exists code st1 s1,
    RoomService.createRoom 2 serviceOne env0 sys0 = (Some (code, st1), s1)
    /\ RoomService.validateRoom st1 code = true.
Proof.
  assert (Hfree : RoomService.rooms serviceOne
                    !! codeOf (Math_draws env0 (rndReads sys0 + 1)) = None)
    by (vm_compute; reflexivity).
  split; [exact env0_range|]. split; [exact Hfree|].
  destruct (service_created_room_validates_and_admits env0 sys0 1 serviceOne 9%nat
              env0_range Hfree) as (code & st1 & s1 & Hrun & Hvalid & _).
  exists code, st1, s1. split; [exact Hrun|exact Hvalid].
Defined.

(** ** The service: users and members *)



(** [removeClient] leaves the registry [removeClientRooms] computes. *)
Lemma removeClient_rooms ws st e s :
  RoomService.rooms (fst (removeClient ws st e s)) = fst (removeClientRooms ws st e s)
  /\ snd (removeClient ws st e s) = snd (removeClientRooms ws st e s).
Proof.
  unfold removeClient, removeClientRooms.
  destruct (RoomService.meta st !! ws) as [[code userId]|]; [|done].
  destruct (negb (truthy code) || negb (truthy userId)); [done|].
  destruct (RoomService.rooms_get st code) as [[c room]|]; [|done].
  destruct (Set_size _ =? 0)%nat; [|done].
  unfold bind. by rewrite !Date_now_run.
Qed.



(** After the close of one of two sockets a user holds in room "4821", the
    user is admitted to room "0007" while the other socket is still a member
    of "4821". *)
Example service_close_of_one_socket_frees_the_user :
  let st := {| RoomService.rooms := RoomService.rooms serviceTwo;
               RoomService.userRoom := [(VStr "u1", VStr "4821")];
               RoomService.meta := <[1%nat := (VStr "4821", VStr "u1")]>
                                   {[ 2%nat := (VStr "4821", VStr "u1") ]} |} in
  let st1 := fst (removeClient 1%nat st env0 sys0) in
  (RoomService.clients <$> RoomService.rooms st1 !! "4821") = Some [2%nat]
  /\ exists st2 evs,
       RoomService.handleJoin 3%nat (joinFrame "0007" "u1") st1 env0 sys0
       = (st2, advance 1 0
                 (Send 3%nat (VObj [("type", VStr "joined"); ("code", VStr "0007")])
                  :: evs) sys0).
Proof.
  intros st st1.
  assert (HroomA : RoomService.rooms st !! "4821"
                   = Some {| RoomService.code := "4821";
                             RoomService.createdAt := 1699999980000;
                             RoomService.lastActive := 1699999990000;
                             RoomService.clients := [1%nat; 2%nat];
                             RoomService.status := RoomService.active |}).
  { unfold st, serviceTwo, serviceOne. cbn [RoomService.rooms].
    rewrite lookup_insert_ne by discriminate. apply lookup_singleton_eq. }
  assert (Hst1 : st1 = {| RoomService.rooms :=
                            <["4821" := {| RoomService.code := "4821";
                                           RoomService.createdAt := 1699999980000;
                                           RoomService.lastActive := 1699999990000;
                                           RoomService.clients := [2%nat];
                                           RoomService.status := RoomService.active |}]>
                            (RoomService.rooms st);
                          RoomService.userRoom := [];
                          RoomService.meta := RoomService.meta st |}).
  { unfold st1, removeClient.
    replace (RoomService.meta st !! 1%nat) with (Some (VStr "4821", VStr "u1"))
      by (symmetry; apply lookup_insert_eq).
    cbn [truthy String.eqb Ascii.eqb Bool.eqb negb orb RoomService.rooms_get].
    by rewrite HroomA. }
  rewrite Hst1. cbn [RoomService.rooms]. split; [by rewrite lookup_insert_eq|].
  assert (HroomB : RoomService.rooms st !! "0007"
                   = Some {| RoomService.code := "0007";
                             RoomService.createdAt := 1699999985000;
                             RoomService.lastActive := 1699999985000;
                             RoomService.clients := [];
                             RoomService.status := RoomService.active |}).
  { unfold st, serviceTwo. cbn [RoomService.rooms]. apply lookup_insert_eq. }
  eexists _, _.
  eapply (handleJoin_admitted 3%nat (joinFrame "0007" "u1") _ "0007" _ env0 sys0 eq_refl).
  - cbn [RoomService.rooms]. rewrite lookup_insert_ne by discriminate. exact HroomB.
  - reflexivity.
  - reflexivity.
Qed.

(** X19.  The service relays a chat frame only into the room the socket
    last joined.  A chat frame for a code that is not registered is answered
    with the error "Room not found or inactive."; one for a registered room
    from a socket whose last join was not for that room, or that never
    joined, with "You are not in this room.".  In both cases nothing is
    broadcast and the state is as before. *)
Theorem service_chat_outside_own_room_is_refused
    (e : Env) (s : Sys) (st : RoomService.State) (ws : WebSocket) (payload : value)
    (Htype : getProp payload "type" = Some (VStr "chat")) :
  (RoomService.rooms_get st (orUndefined (getProp payload "code")) = None ->
     RoomService.onMessage ws (Parsed payload) st e s
     = (st, advance 0 0 [Send ws (errorMsg "Room not found or inactive.")] s))
  /\ (forall c room,
     getProp payload "code" = Some (VStr c) ->
     RoomService.rooms st !! c = Some room ->
     RoomService.status room = RoomService.active ->
     fst <$> RoomService.meta st !! ws <> Some (VStr c) ->
     RoomService.onMessage ws (Parsed payload) st e s
     = (st, advance 0 0 [Send ws (errorMsg "You are not in this room.")] s)).
Proof.
  rewrite (RoomService_onMessage_chat _ _ _ _ _ Htype). unfold RoomService.handleChat.
  split.
  - intros ->. unfold bind, ws_send. by rewrite emit_run.
  - intros c room Hcode Hroom Hactive Hother. rewrite Hcode.
    cbn [orUndefined RoomService.rooms_get]. rewrite Hroom, Hactive.
    rewrite bool_decide_eq_true_2 by done. cbn [negb].
    unfold RoomService.differs. rewrite isStr_false.
    + cbn [negb]. unfold bind, ws_send. by rewrite emit_run.
    + destruct (RoomService.meta st !! ws) as [[mark user]|]; cbn in *; congruence.
Qed.

Lemma service_chat_outside_own_room_is_refused_witness :
  getProp (chatFrame "hi") "type" = Some (VStr "chat")
  /\ fst <$> RoomService.meta serviceOne !! 5%nat <> Some (VStr "4821")
  /\ RoomService.onMessage 5%nat (Parsed (chatFrame "hi")) serviceOne env0 sys0
     = (serviceOne, advance 0 0 [Send 5%nat (errorMsg "You are not in this room.")] sys0).
Proof.
  assert (Hother : fst <$> RoomService.meta serviceOne !! 5%nat <> Some (VStr "4821")).
  { unfold serviceOne. cbn [RoomService.meta].
    rewrite lookup_insert_ne by discriminate.
    rewrite lookup_singleton_ne by discriminate. discriminate. }
  split; [reflexivity|]. split; [exact Hother|].
  exact (proj2 (service_chat_outside_own_room_is_refused env0 sys0 serviceOne 5%nat
                  (chatFrame "hi") eq_refl)
           "4821" _ eq_refl (lookup_singleton_eq _ _) eq_refl Hother).
Defined.

(** X20.  The service has no seat limit: a join frame for an active room,
    from a user the user table does not know and on a socket that is not in
    the room, is admitted whatever the number of clients already there; the
    socket is appended to the client set, which grows by one. *)
Theorem service_admits_into_room_of_any_size
    (e : Env) (s : Sys) (st : RoomService.State) (ws : WebSocket) (payload : value)
    (c : string) (room : RoomService.Room)
    (Hcode : getProp payload "code" = Some (VStr c))
    (Hroom : RoomService.rooms st !! c = Some room)
    (Hactive : RoomService.status room = RoomService.active)
    (Hunknown : RoomService.Map_get (orUndefined (getProp payload "userId"))
                  (RoomService.userRoom st) = VUndefined)
    (Hnew : ws ∉ RoomService.clients room) :
  exists st' evs after,
    RoomService.handleJoin ws payload st e s
    = (st', advance 1 0 (Send ws (joinedMsg (VStr c)) :: evs) s)
    /\ RoomService.rooms st' !! c = Some after
    /\ RoomService.clients after = (RoomService.clients room ++ [ws])%list
    /\ Set_size (RoomService.clients after) = S (Set_size (RoomService.clients room)).
Proof.
  rewrite (handleJoin_admitted _ _ _ _ _ _ _ Hcode Hroom Hactive) by (by rewrite Hunknown).
  eexists _, _, _. split; [reflexivity|]. cbn [RoomService.rooms].
  split; [apply lookup_insert_eq|].
  cbn [RoomService.setLastActive RoomService.addClient RoomService.clients].
  unfold Set_add. rewrite decide_False by done. split; [done|].
  unfold Set_size. rewrite length_app. cbn [length]. lia.
Qed.

Lemma service_admits_into_room_of_any_size_witness :
  (3%nat ∉ [1%nat; 2%nat])
  /\ exists st' evs after,
    RoomService.handleJoin 3%nat (joinFrame "4821" "u3") serviceOne env0 sys0
    = (st', advance 1 0 (Send 3%nat (joinedMsg (VStr "4821")) :: evs) sys0)
    /\ RoomService.rooms st' !! "4821" = Some after
    /\ RoomService.clients after = [1%nat; 2%nat; 3%nat]
    /\ Set_size (RoomService.clients after) = 3%nat.
Proof.
  assert (Hnew : 3%nat ∉ [1%nat; 2%nat]).
  { rewrite !elem_of_cons, elem_of_nil. lia. }
  split; [exact Hnew|].
  exact (service_admits_into_room_of_any_size env0 sys0 serviceOne 3%nat
           (joinFrame "4821" "u3") "4821" _ eq_refl (lookup_singleton_eq _ _)
           eq_refl eq_refl Hnew).
Defined.

(** ** Broadcasting *)

(** X21.  A broadcast to a client set does nothing but write: every
    event is a write of the payload to a member whose connection is open,
    in the order of the set; no socket is closed or destroyed and no clock
    is read.  The payload is written exactly once to every member whose
    connection is open and not at all to anybody else: not to a member that
    is connecting, closing or closed, and not to a socket outside the set. *)
Theorem broadcast_reaches_each_open_member_once
    (e : Env) (s : Sys) (clients : list WebSocket) (payload : value)
    (Hnd : NoDup clients) :
  exists evs,
    broadcast clients payload e s = (tt, advance 0 0 evs s)
    /\ evs = map (fun c => Send c payload)
               (filter (fun c => readyState e c = OPEN) clients)
    /\ Forall (fun ev => exists c, ev = Send c payload
                                   /\ c ∈ clients /\ readyState e c = OPEN) evs
    /\ forall ws,
         received ws evs
         = if decide (ws ∈ clients /\ readyState e ws = OPEN) then [payload] else [].
Proof.
  rewrite broadcast_run. eexists. split; [reflexivity|]. split; [reflexivity|]. split.
  - apply Forall_forall. intros ev Hev. apply list_elem_of_fmap in Hev as (c & -> & Hc).
    unfold recipients in Hc. apply list_elem_of_filter in Hc as [Hopen Hin].
    by exists c.
  - intros ws. case_decide as Hws.
    + destruct Hws as [Hin Hopen]. by apply received_broadcast.
    + apply received_fanout_absent. unfold recipients. rewrite list_elem_of_filter. tauto.
Qed.

Lemma broadcast_reaches_each_open_member_once_witness :
  NoDup [1%nat; 2%nat; 3%nat]
  /\ exists evs,
    broadcast [1%nat; 2%nat; 3%nat] chatHi envClosing sys0 = (tt, advance 0 0 evs sys0)
    /\ evs = map (fun c => Send c chatHi)
               (filter (fun c => readyState envClosing c = OPEN) [1%nat; 2%nat; 3%nat])
    /\ Forall (fun ev => exists c, ev = Send c chatHi
                                   /\ c ∈ [1%nat; 2%nat; 3%nat]
                                   /\ readyState envClosing c = OPEN) evs
    /\ forall ws,
         received ws evs
         = if decide (ws ∈ [1%nat; 2%nat; 3%nat] /\ readyState envClosing ws = OPEN)
           then [chatHi] else [].
Proof.
  assert (Hnd : NoDup [1%nat; 2%nat; 3%nat]).
  { repeat (apply NoDup_cons; split; [rewrite ?elem_of_cons, ?elem_of_nil; lia|]).
    apply NoDup_nil_2. }
  split; [exact Hnd|].
  exact (broadcast_reaches_each_open_member_once envClosing sys0 [1%nat; 2%nat; 3%nat]
           chatHi Hnd).
Defined.

(** ** An exhausted code space *)

Lemma drawCode_exhausted {R} e (rooms : gmap string R) fuel : forall s,
  (forall i, (Math_draws e i < codeSpace)%nat) ->
  (forall n, (n < codeSpace)%nat -> is_Some (rooms !! codeOf n)) ->
  drawCode fuel rooms e s = (None, advance 0 fuel [] s).
Proof.
  induction fuel as [|fuel IH]; intros s Hrange Hall.
  - cbn [drawCode]. unfold ret. by rewrite advance_0.
  - cbn [drawCode]. unfold bind. rewrite draw_run. unfold Map_has.
    rewrite bool_decide_eq_true_2 by apply Hall, Hrange.
    rewrite IH by done. rewrite advance_advance. do 2 f_equal.
Qed.

(** X22.  When every one of the 10000 codes names a room, creating a room
    does not return: however many draws are allowed, the loop of
    [createCode], and of [createRoom] in the service, is still running after
    them, having used one draw each time, and the registry has not
    changed. *)
Theorem createCode_never_returns_when_all_codes_taken
    (e : Env) (s : Sys) (rooms : gmap string Room) (st : RoomService.State) (fuel : nat)
    (Hrange : forall i, (Math_draws e i < codeSpace)%nat) :
  ((forall n, (n < codeSpace)%nat -> is_Some (rooms !! codeOf n)) ->
     Expiring.createCode fuel rooms e s = (None, advance 0 fuel [] s))
  /\ ((forall n, (n < codeSpace)%nat -> is_Some (RoomService.rooms st !! codeOf n)) ->
     RoomService.createRoom fuel st e s = (None, advance 0 fuel [] s)).
Proof.
  split; intros Hall.
  - unfold Expiring.createCode, bind. by rewrite drawCode_exhausted.
  - unfold RoomService.createRoom, bind. by rewrite drawCode_exhausted.
Qed.

Lemma roomsAll_taken n : (n < codeSpace)%nat -> is_Some (roomsAll !! codeOf n).
Proof.
  intros Hn. apply not_eq_None_Some. intros Hnone.
  apply not_elem_of_list_to_map in Hnone. apply Hnone.
  apply list_elem_of_fmap. exists (codeOf n, newRoom 0). split; [done|].
  apply list_elem_of_fmap. exists n. split; [done|].
  apply list_elem_of_In, in_seq. lia.
Qed.

Lemma createCode_never_returns_when_all_codes_taken_witness :
  (forall i, (Math_draws env0 i < codeSpace)%nat)
  /\ (forall n, (n < codeSpace)%nat -> is_Some (roomsAll !! codeOf n))
  /\ Expiring.createCode 1000 roomsAll env0 sys0 = (None, advance 0 1000 [] sys0).
Proof.
  split; [exact env0_range|]. split; [exact roomsAll_taken|].
  exact (proj1 (createCode_never_returns_when_all_codes_taken env0 sys0 roomsAll
                  serviceEmpty 1000 env0_range) roomsAll_taken).
Defined.

(** ** Closing a socket of the service *)

Lemma Set_delete_not_elem ws s : ws ∉ Set_delete ws s.
Proof. unfold Set_delete. rewrite list_elem_of_filter. tauto. Qed.

(** X23.  In the service a socket that joined without a [userId], or with
    one that is falsy (the empty string, 0, [false], [null]), is admitted
    like any other, but it is not taken out of its room when it closes:
    [removeClient] returns before touching the rooms, so the registry is as
    the join left it and the socket is still in the client set. *)
Theorem service_socket_without_user_id_is_never_removed
    (e : Env) (s : Sys) (st : RoomService.State) (ws : WebSocket) (payload : value)
    (c : string) (room : RoomService.Room)
    (Hcode : getProp payload "code" = Some (VStr c))
    (Hroom : RoomService.rooms st !! c = Some room)
    (Hactive : RoomService.status room = RoomService.active)
    (Hfalsy : truthy (orUndefined (getProp payload "userId")) = false)
    (Hunknown : RoomService.Map_get (orUndefined (getProp payload "userId"))
                  (RoomService.userRoom st) = VUndefined) :
  exists st1 evs joined,
    RoomService.handleJoin ws payload st e s
    = (st1, advance 1 0 (Send ws (joinedMsg (VStr c)) :: evs) s)
    /\ RoomService.rooms st1 !! c = Some joined
    /\ ws ∈ RoomService.clients joined
    /\ forall e' s', removeClientRooms ws st1 e' s' = (RoomService.rooms st1, s').
Proof.
  rewrite (handleJoin_admitted _ _ _ _ _ _ _ Hcode Hroom Hactive) by (by rewrite Hunknown).
  eexists _, _, _. split; [reflexivity|]. cbn [RoomService.rooms].
  split; [apply lookup_insert_eq|]. split; [apply Set_add_elem|].
  intros e' s'. unfold removeClientRooms. cbn [RoomService.meta].
  rewrite lookup_insert_eq, Hfalsy. cbn [negb]. by rewrite orb_true_r.
Qed.

Lemma service_socket_without_user_id_is_never_removed_witness :
  exists st1 evs joined,
    RoomService.handleJoin 3%nat (VObj [("type", VStr "join"); ("code", VStr "4821")])
      serviceOne env0 sys0
    = (st1, advance 1 0 (Send 3%nat (joinedMsg (VStr "4821")) :: evs) sys0)
    /\ RoomService.rooms st1 !! "4821" = Some joined
    /\ 3%nat ∈ RoomService.clients joined
    /\ forall e' s', removeClientRooms 3%nat st1 e' s' = (RoomService.rooms st1, s').
Proof.
  exact (service_socket_without_user_id_is_never_removed env0 sys0 serviceOne 3%nat
           (VObj [("type", VStr "join"); ("code", VStr "4821")]) "4821" _
           eq_refl (lookup_singleton_eq _ _) eq_refl eq_refl eq_refl).
Defined.

(** X24.  In the service, closing a socket whose marks name a registered
    room and a truthy [userId] takes it out of the client set of that room
    and of no other; [lastActive] of the room is set to the clock only when
    the socket was the last client, and is left as it was while others
    remain. *)
Theorem service_close_removes_member
    (e : Env) (s : Sys) (st : RoomService.State) (ws : WebSocket)
    (c : string) (userId : value) (room : RoomService.Room)
    (Hmarks : RoomService.meta st !! ws = Some (VStr c, userId))
    (Hc : c <> "")
    (Huser : truthy userId = true)
    (Hroom : RoomService.rooms st !! c = Some room) :
  exists after,
    fst (removeClientRooms ws st e s) !! c = Some after
    /\ RoomService.clients after = Set_delete ws (RoomService.clients room)
    /\ (ws ∉ RoomService.clients after)
    /\ RoomService.lastActive after
       = (if decide (Set_delete ws (RoomService.clients room) = [])
          then Date_clock e (nowReads s) else RoomService.lastActive room)
    /\ RoomService.status after = RoomService.status room
    /\ forall c', c' <> c ->
         fst (removeClientRooms ws st e s) !! c' = RoomService.rooms st !! c'.
Proof.
  unfold removeClientRooms. rewrite Hmarks. cbn [truthy].
  rewrite (proj2 (String.eqb_neq c "") Hc), Huser. cbn [negb orb RoomService.rooms_get].
  rewrite Hroom. cbn [RoomService.clients].
  destruct (Set_delete ws (RoomService.clients room)) as [|x rest] eqn:Hrest.
  - cbn [Set_size length Nat.eqb]. unfold bind. rewrite Date_now_run. cbn [ret fst].
    rewrite lookup_insert_eq. eexists. split; [reflexivity|].
    cbn [RoomService.setLastActive RoomService.clients RoomService.lastActive
         RoomService.status].
    rewrite decide_True by done. repeat split; try done.
    + apply not_elem_of_nil.
    + intros c' Hne. by rewrite lookup_insert_ne.
  - cbn [Set_size length Nat.eqb ret fst]. rewrite lookup_insert_eq.
    eexists. split; [reflexivity|].
    cbn [RoomService.clients RoomService.lastActive RoomService.status].
    rewrite decide_False by done. repeat split; try done.
    + rewrite <- Hrest. apply Set_delete_not_elem.
    + intros c' Hne. by rewrite lookup_insert_ne.
Qed.

Lemma service_close_removes_member_witness :
  RoomService.meta serviceOne !! 1%nat = Some (VStr "4821", VStr "u1")
  /\ exists after,
    fst (removeClientRooms 1%nat serviceOne env0 sys0) !! "4821" = Some after
    /\ RoomService.clients after = Set_delete 1%nat [1%nat; 2%nat]
    /\ (1%nat ∉ RoomService.clients after).
Proof.
  assert (Hmarks : RoomService.meta serviceOne !! 1%nat = Some (VStr "4821", VStr "u1")).
  { unfold serviceOne. cbn [RoomService.meta]. apply lookup_insert_eq. }
  assert (Hc : "4821" <> "") by discriminate.
  split; [exact Hmarks|].
  destruct (service_close_removes_member env0 sys0 serviceOne 1%nat "4821" (VStr "u1") _
              Hmarks Hc eq_refl (lookup_singleton_eq _ _))
    as (after & Hafter & Hclients & Hgone & _).
  exists after. split; [exact Hafter|]. split; [exact Hclients|exact Hgone].
Defined.
